(** * Forecast leverage SDK: the leverage-loop execution engine

    A shallow embedding of the [ForecastLeverageSDK] classes of
    Genmin/forecast-leverage-sdk and the properties of its parameter
    calculator, order executor, loop orchestrator, metrics calculator and
    position closer.

    The repository carries several variants of the SDK class in one source
    file ([src/src/errors.ts]):
    - lines 21-757, the "turnkey" SDK (ethers v6, one FOK order per loop,
      runway validation, ten-loop safety cap): module [Turnkey];
    - lines 758-1695, the SDK with configurable order types and auto-retry
      (no leverage cap): module [Sdk];
    - lines 1696-2461, a variant of the second with a single order per
      loop and a ten-loop cap: module [Capped], which embeds its parameter
      calculator and its simulation; the other methods of that class have
      the text of the second.

    Conventions of the embedding.
    - Arithmetic is exact: rounding error is outside the model.  A
      JavaScript [number] that is finite by construction (an input, a
      constant, a balance, a product or sum of such) is a real number ([R]);
      [Math.ceil], [Math.floor] and [Math.log] on such numbers are [Zceil],
      [Zfloor] and [ln].  Where a computation can leave the finite numbers
      (a division by a count or an amount that may be zero, the logarithm
      of zero) its values are of type [number], which has NaN and the two
      infinities.  The entry points are embedded on inputs whose numeric
      fields are finite numbers; what [validateInputs] does on NaN and on
      infinities is embedded separately ([Sdk.validateRawInputs]).
    - A [bigint] / [BigNumber] is an integer ([Z]).
    - A thrown error is a value of [exn] carrying its class and message; an
      [async] method is a computation in the monad [M], which records the
      calls it makes that change something outside the SDK (API key
      derivation, orders, cancellations, transactions sent through the
      signer) and its sleeps, and ends in a value or a thrown error.  Reads
      ([view] functions, the order book, an order's status, fee data) are
      not recorded.
    - The answers of the venue and of the chain are scripted by call site:
      they are arguments of the embedded methods. *)

From Stdlib Require Import Reals Lra Lia ZArith String List Bool.
Import ListNotations.

Open Scope string_scope.
Open Scope list_scope.
Open Scope R_scope.

(** ** Numbers *)

Definition Rltb (x y : R) : bool := if Rlt_dec x y then true else false.
Definition Rleb (x y : R) : bool := if Rle_dec x y then true else false.
Definition Rgeb (x y : R) : bool := Rleb y x.
Definition Rgtb (x y : R) : bool := Rltb y x.
Definition Reqb (x y : R) : bool := if Req_dec_T x y then true else false.

(** A JavaScript number that need not be finite.  The sign of a zero is not
    modelled: a zero divisor counts as +0. *)
Inductive number : Type :=
| Num (r : R)
| PosInf
| NegInf
| NaN.

Definition nneg (a : number) : number :=
  match a with
  | Num x => Num (- x)
  | PosInf => NegInf
  | NegInf => PosInf
  | NaN => NaN
  end.

Definition nadd (a b : number) : number :=
  match a, b with
  | NaN, _ | _, NaN => NaN
  | Num x, Num y => Num (x + y)
  | PosInf, NegInf | NegInf, PosInf => NaN
  | PosInf, _ | _, PosInf => PosInf
  | NegInf, _ | _, NegInf => NegInf
  end.

Definition nsub (a b : number) : number := nadd a (nneg b).

(** An infinity of the given sign times the finite [y]. *)
Definition scaleInf (positive : bool) (y : R) : number :=
  if Reqb y 0 then NaN
  else if Bool.eqb positive (Rltb 0 y) then PosInf else NegInf.

Definition nmul (a b : number) : number :=
  match a, b with
  | NaN, _ | _, NaN => NaN
  | Num x, Num y => Num (x * y)
  | PosInf, Num y | Num y, PosInf => scaleInf true y
  | NegInf, Num y | Num y, NegInf => scaleInf false y
  | PosInf, PosInf | NegInf, NegInf => PosInf
  | PosInf, NegInf | NegInf, PosInf => NegInf
  end.

Definition ndiv (a b : number) : number :=
  match a, b with
  | NaN, _ | _, NaN => NaN
  | Num x, Num y =>
      if Reqb y 0 then
        if Reqb x 0 then NaN else if Rltb 0 x then PosInf else NegInf
      else Num (x / y)
  | Num _, (PosInf | NegInf) => Num 0
  | (PosInf | NegInf), (PosInf | NegInf) => NaN
  | PosInf, Num y => if Rltb y 0 then NegInf else PosInf
  | NegInf, Num y => if Rltb y 0 then PosInf else NegInf
  end.

Definition nabs (a : number) : number :=
  match a with
  | Num x => Num (Rabs x)
  | PosInf | NegInf => PosInf
  | NaN => NaN
  end.

(** [<] and [<=]: false as soon as an operand is NaN. *)
Definition nltb (a b : number) : bool :=
  match a, b with
  | NaN, _ | _, NaN => false
  | Num x, Num y => Rltb x y
  | _, NegInf => false
  | NegInf, _ => true
  | PosInf, _ => false
  | _, PosInf => true
  end.

Definition nleb (a b : number) : bool :=
  match a, b with
  | NaN, _ | _, NaN => false
  | Num x, Num y => Rleb x y
  | NegInf, _ => true
  | _, PosInf => true
  | _, NegInf => false
  | PosInf, _ => false
  end.

Definition ngtb (a b : number) : bool := nltb b a.
Definition ngeb (a b : number) : bool := nleb b a.

(** [Math.log], [Math.floor] and [Math.min]. *)
Definition nlog (a : number) : number :=
  match a with
  | Num x => if Reqb x 0 then NegInf else if Rltb x 0 then NaN else Num (ln x)
  | PosInf => PosInf
  | NegInf | NaN => NaN
  end.

Definition nfloor (a : number) : number :=
  match a with
  | Num x => Num (IZR (Zfloor x))
  | _ => a
  end.

Definition nmin (a b : number) : number :=
  match a, b with
  | NaN, _ | _, NaN => NaN
  | _, _ => if nleb a b then a else b
  end.

Declare Scope num_scope.
Delimit Scope num_scope with num.
Infix "+" := nadd : num_scope.
Infix "-" := nsub : num_scope.
Infix "*" := nmul : num_scope.
Infix "/" := ndiv : num_scope.

(** The number of passes of [for (let i = 0; i < n; i++)] and the length of
    [Array.from({ length: n })] for an [n] that is not +Infinity, which
    makes the first run forever and the second fail. *)
Definition passes (n : number) : nat :=
  match n with
  | Num x => Z.to_nat (Zceil x)
  | _ => 0%nat
  end.

Definition arrayLength (n : number) : nat :=
  match n with
  | Num x => Z.to_nat (Zfloor x)
  | _ => 0%nat
  end.

(** ** Errors *)

(** The three error classes of the SDK, and [Error] for any other thrown
    value (an RPC failure, a rejected promise of a client library). *)
Inductive exn : Type :=
| ValidationError (message : string)
| PolymarketError (message : string)
| ProtocolError (message : string)
| Error (message : string).

Definition message (e : exn) : string :=
  match e with
  | ValidationError m | PolymarketError m | ProtocolError m | Error m => m
  end.

Definition isValidationError (e : exn) : bool :=
  match e with ValidationError _ => true | _ => false end.
Definition isPolymarketError (e : exn) : bool :=
  match e with PolymarketError _ => true | _ => false end.
Definition isProtocolError (e : exn) : bool :=
  match e with ProtocolError _ => true | _ => false end.

Inductive result (A : Type) : Type :=
| Ok (a : A)
| Throw (e : exn).
Arguments Ok {A} a.
Arguments Throw {A} e.

(** [String.prototype.includes] and [startsWith]. *)
Fixpoint includes (s needle : string) : bool :=
  String.prefix needle s ||
  match s with
  | EmptyString => false
  | String _ rest => includes rest needle
  end.

Definition startsWith (s p : string) : bool := String.prefix p s.

(** ** Externally visible calls *)

Inductive PmOrderType : Type := PmFOK | PmGTC | PmGTD.

Inductive event : Type :=
| CreateOrDeriveApiKey
| VerifyMarket (conditionId : string)
| PostOrder (tokenID : string) (price size : R) (ty : PmOrderType)
| CancelOrder (orderID : string)
| Sleep (ms : R)
| Approve
| SetApprovalForAll
| OpenLeg (sets : Z) (term : R) (conditionId : string) (longYes : bool)
| CloseLeg (legId : Z).

(** ** The monad of the async methods: a log of calls and an outcome *)

Definition M (A : Type) : Type := (list event * result A)%type.

Definition ret {A} (a : A) : M A := ([], Ok a).
Definition throw {A} (e : exn) : M A := ([], Throw e).
Definition call {A} (r : result A) : M A := ([], r).
Definition emit (ev : event) : M unit := ([ev], Ok tt).

(** The calls [t] followed by the computation [m]. *)
Definition logged {A} (t : list event) (m : M A) : M A := (t ++ fst m, snd m).

Definition bind {A B} (m : M A) (k : A -> M B) : M B :=
  match m with
  | (t, Ok a) => let (t', r) := k a in (t ++ t', r)
  | (t, Throw e) => (t, Throw e)
  end.

Definition try_catch {A} (m : M A) (handler : exn -> M A) : M A :=
  match m with
  | (t, Throw e) => let (t', r) := handler e in (t ++ t', r)
  | (t, Ok a) => (t, Ok a)
  end.

Declare Scope js_scope.
Delimit Scope js_scope with js.
Notation "x <- m ;; k" := (bind m (fun x => k))
  (at level 61, m at next level, right associativity) : js_scope.
Notation "m ;;; k" := (bind m (fun _ => k))
  (at level 61, right associativity) : js_scope.
Open Scope js_scope.

Definition outcome {A} (m : M A) : result A := snd m.
Definition calls {A} (m : M A) : list event := fst m.

(** ** Constants *)

Definition YEAR_SECONDS : R := 365 * 24 * 3600.
Definition e18 : R := 1000000000000000000.
Definition e6 : R := 1000000.

(** Rendering of numbers inside error messages (template literals and
    [toFixed]).  The text of a rendered number is not modelled; it is an
    interface of the embedding. *)
Class NumberFormat : Type := {
  numberToString : R -> string;
  toFixed : R -> nat -> string
}.

Definition numberText {fmt : NumberFormat} (a : number) : string :=
  match a with
  | Num x => numberToString x
  | PosInf => "Infinity"
  | NegInf => "-Infinity"
  | NaN => "NaN"
  end.

(** [toFixed] on a number that need not be finite. *)
Definition fixedText {fmt : NumberFormat} (a : number) (digits : nat) : string :=
  match a with
  | Num x => toFixed x digits
  | PosInf => "Infinity"
  | NegInf => "-Infinity"
  | NaN => "NaN"
  end.

Definition concat3 (a b c : string) : string := (a ++ b ++ c)%string.

(** * The SDK with order types and auto-retry ([errors.ts], lines 758-1695) *)

Module Sdk.

Inductive OrderKind : Type := FOK | GTC | GTD.

Record TargetPositionParams : Type := {
  marketConditionId : string;
  longYes : bool;
  currentPrice : R;
  targetPrice : R;
  timeframeSeconds : R;
  capitalUSDC : R;
  maxSlippageBps : R;
  orderType : option OrderKind;
  maxRetries : option Z;
  retryDelayMs : option R
}.

(** The parameters as a caller may pass them: a numeric field may hold NaN
    or an infinity. *)
Record RawParams : Type := {
  raw_marketConditionId : string;
  raw_longYes : bool;
  raw_currentPrice : number;
  raw_targetPrice : number;
  raw_timeframeSeconds : number;
  raw_capitalUSDC : number;
  raw_maxSlippageBps : number
}.

Definition rawOf (params : TargetPositionParams) : RawParams :=
  {| raw_marketConditionId := marketConditionId params;
     raw_longYes := longYes params;
     raw_currentPrice := Num (currentPrice params);
     raw_targetPrice := Num (targetPrice params);
     raw_timeframeSeconds := Num (timeframeSeconds params);
     raw_capitalUSDC := Num (capitalUSDC params);
     raw_maxSlippageBps := Num (maxSlippageBps params) |}.

Record LeverageParams : Type := {
  lp_F : R;
  lp_R : R;
  loops : Z;
  maxLeverage : R;
  tokenId : string
}.

(** The fields of a position that divide by the number of legs, by the
    capital or by the token total are of type [number]; the others are
    finite whenever the arguments of the metrics calculator are. *)
Record Fees : Type := {
  protocolSenior : number;
  protocolJunior : number;
  polymarketSlippage : R;
  gas : R;
  total : number
}.

Record Pnl : Type := {
  atTarget : number;
  breakeven : number;
  maxProfit : number;
  maxLoss : R
}.

Record LeveragePosition : Type := {
  legIds : list Z;
  totalExposure : R;
  effectiveLeverage : number;
  capitalDeployed : R;
  fees : Fees;
  pnl : Pnl;
  autoCloseTime : number;
  pos_F : number;
  pos_R : number
}.

(** *** Answers of the protocol contract, the token contracts and the venue *)

Record Quote : Type := {
  quote_F : Z;
  quote_rS : Z;
  quote_rJ : Z;
  usdcNeeded : Z;
  converged : bool
}.

Record Leg : Type := {
  sets : Z;
  F_e18 : Z;
  rS_e18 : Z;
  rJ_e18 : Z;
  opened : Z;
  term : Z;
  borrower : string;
  escrow : string;
  longPositionId : Z;
  shortPositionId : Z;
  conditionId : string
}.

(** An entry of the order book; [price] is the [parseFloat] of its text. *)
Record Ask : Type := { price : R; size : R }.

Record OrderStatus : Type := {
  status : string;
  associate_trades : option (list string)
}.

(** A log of a receipt: the event signature whose hash is [topics[0]], and
    [topics[1]], its first indexed argument. *)
Record Log : Type := { signature : string; topic1 : Z }.

Record Receipt : Type := { receipt_status : Z; logs : list Log }.

(** What the venue answers during one attempt of the order executor. *)
Record Attempt : Type := {
  getOrderBook : result (option (list Ask));
  createAndPostOrder : result (option string);
  polls : R -> list (result OrderStatus);
  cancelOrder : result unit;
  getOrder : result (option R)
}.

(** What the protocol answers to one [open] transaction. *)
Record LegOpen : Type := {
  open_tx : result unit;
  tx_wait : result (option Receipt)
}.

(** What the chain answers while one leg is closed. *)
Record LegClose : Type := {
  balanceBefore : result Z;
  close_tx : result unit;
  balanceAfter : result Z
}.

Record World : Type := {
  polymarketInitialized : bool;
  createOrDeriveApiKey : result unit;
  initialBalance : result Z;
  verifyMarketCall : string -> result unit;
  quote : Z -> R -> string -> bool -> result Quote;
  yesPositionId : string -> result string;
  noPositionId : string -> result string;
  approve_tx : result unit;
  setApprovalForAll_tx : result unit;
  attempts : nat -> nat -> Attempt;
  legOpens : nat -> LegOpen;
  balanceAfterLeg : nat -> result Z;
  legs : Z -> result Leg;
  getFeeData : result (option Z);
  now : R
}.

Section Methods.

Context {fmt : NumberFormat}.

(** [setupPolymarket] (lines 976-999).  The client it builds and the flag
    it sets are not read again within one call of an entry point. *)
Definition setupPolymarket (w : World) : M unit :=
  if polymarketInitialized w then ret tt
  else emit CreateOrDeriveApiKey ;;; call (createOrDeriveApiKey w).

(** [validateInputs] (lines 1201-1246).  The empty string does not start
    with "0x", so the test [!params.marketConditionId] adds no case. *)
Definition validateInputs (params : TargetPositionParams) : M unit :=
  if negb (startsWith (marketConditionId params) "0x") then
    throw (ValidationError "Invalid marketConditionId: must be a hex string starting with 0x")
  else if Rleb (currentPrice params) 0 || Rgeb (currentPrice params) 1 then
    throw (ValidationError (concat3 "Invalid currentPrice: "
             (numberToString (currentPrice params)) " (must be between 0 and 1)"))
  else if Rleb (targetPrice params) 0 || Rgeb (targetPrice params) 1 then
    throw (ValidationError (concat3 "Invalid targetPrice: "
             (numberToString (targetPrice params)) " (must be between 0 and 1)"))
  else if longYes params && Rleb (targetPrice params) (currentPrice params) then
    throw (ValidationError "Invalid price direction: LONG YES requires targetPrice > currentPrice")
  else if negb (longYes params) && Rgeb (targetPrice params) (currentPrice params) then
    throw (ValidationError "Invalid price direction: LONG NO requires targetPrice < currentPrice")
  else if Rleb (timeframeSeconds params) 0 then
    throw (ValidationError (concat3 "Invalid timeframe: "
             (numberToString (timeframeSeconds params)) " (must be > 0)"))
  else if Rltb (timeframeSeconds params) 60 then
    throw (ValidationError (concat3 "Invalid timeframe: "
             (numberToString (timeframeSeconds params)) "s (too short, min 60s)"))
  else if Rgtb (timeframeSeconds params) (365 * 24 * 3600) then
    throw (ValidationError (concat3 "Invalid timeframe: "
             (numberToString (timeframeSeconds params)) "s (too long, max 1 year)"))
  else if Rleb (capitalUSDC params) 0 then
    throw (ValidationError (concat3 "Invalid capital: "
             (numberToString (capitalUSDC params)) " (must be > 0)"))
  else if Rltb (capitalUSDC params) 10 then
    throw (ValidationError (concat3 "Invalid capital: "
             (numberToString (capitalUSDC params)) " (minimum $10)"))
  else if Rltb (maxSlippageBps params) 0 || Rgtb (maxSlippageBps params) 5000 then
    throw (ValidationError (concat3 "Invalid slippage: "
             (numberToString (maxSlippageBps params)) "bps (must be 0-5000, i.e., 0-50%)"))
  else ret tt.

(** [validateInputs] on any numbers: the comparisons of the source, each of
    them false when an operand is NaN.  On finite numbers it is
    [validateInputs] above. *)
Definition validateRawInputs (params : RawParams) : M unit :=
  if negb (startsWith (raw_marketConditionId params) "0x") then
    throw (ValidationError "Invalid marketConditionId: must be a hex string starting with 0x")
  else if nleb (raw_currentPrice params) (Num 0)
          || ngeb (raw_currentPrice params) (Num 1) then
    throw (ValidationError (concat3 "Invalid currentPrice: "
             (numberText (raw_currentPrice params)) " (must be between 0 and 1)"))
  else if nleb (raw_targetPrice params) (Num 0)
          || ngeb (raw_targetPrice params) (Num 1) then
    throw (ValidationError (concat3 "Invalid targetPrice: "
             (numberText (raw_targetPrice params)) " (must be between 0 and 1)"))
  else if raw_longYes params
          && nleb (raw_targetPrice params) (raw_currentPrice params) then
    throw (ValidationError "Invalid price direction: LONG YES requires targetPrice > currentPrice")
  else if negb (raw_longYes params)
          && ngeb (raw_targetPrice params) (raw_currentPrice params) then
    throw (ValidationError "Invalid price direction: LONG NO requires targetPrice < currentPrice")
  else if nleb (raw_timeframeSeconds params) (Num 0) then
    throw (ValidationError (concat3 "Invalid timeframe: "
             (numberText (raw_timeframeSeconds params)) " (must be > 0)"))
  else if nltb (raw_timeframeSeconds params) (Num 60) then
    throw (ValidationError (concat3 "Invalid timeframe: "
             (numberText (raw_timeframeSeconds params)) "s (too short, min 60s)"))
  else if ngtb (raw_timeframeSeconds params) (Num (365 * 24 * 3600)) then
    throw (ValidationError (concat3 "Invalid timeframe: "
             (numberText (raw_timeframeSeconds params)) "s (too long, max 1 year)"))
  else if nleb (raw_capitalUSDC params) (Num 0) then
    throw (ValidationError (concat3 "Invalid capital: "
             (numberText (raw_capitalUSDC params)) " (must be > 0)"))
  else if nltb (raw_capitalUSDC params) (Num 10) then
    throw (ValidationError (concat3 "Invalid capital: "
             (numberText (raw_capitalUSDC params)) " (minimum $10)"))
  else if nltb (raw_maxSlippageBps params) (Num 0)
          || ngtb (raw_maxSlippageBps params) (Num 5000) then
    throw (ValidationError (concat3 "Invalid slippage: "
             (numberText (raw_maxSlippageBps params)) "bps (must be 0-5000, i.e., 0-50%)"))
  else ret tt.

(** [checkSufficientBalance] (lines 1251-1260). *)
Definition checkSufficientBalance (w : World) (requiredUSDC : R) : M unit :=
  balance <- call (initialBalance w) ;;
  let balanceUSDC := IZR balance / e6 in
  if Rltb balanceUSDC requiredUSDC then
    throw (ValidationError
             ("Insufficient USDC balance: have $" ++ toFixed balanceUSDC 2 ++
              ", need $" ++ toFixed requiredUSDC 2)%string)
  else ret tt.

(** [verifyMarket] (lines 1265-1271).  The ABI declares the protocol's
    [verifyMarket] without [view] (line 787): the call is a transaction
    sent through the signer. *)
Definition verifyMarket (w : World) (conditionId : string) : M unit :=
  try_catch (emit (VerifyMarket conditionId) ;;; call (verifyMarketCall w conditionId))
    (fun error =>
       throw (ValidationError
                ("Invalid market: " ++ conditionId ++ " - " ++ message error)%string)).

Definition getYesTokenId (w : World) (conditionId : string) : M string :=
  call (yesPositionId w conditionId).

Definition getNoTokenId (w : World) (conditionId : string) : M string :=
  call (noPositionId w conditionId).

(** The loop count of [calculateLeverageParams] (line 1301):
    [Math.ceil(-Math.log(0.01) / Math.log(F))]. *)
Definition loopCount (F : R) : Z := Zceil (- ln (1 / 100) / ln F).

(** [calculateLeverageParams] (lines 1279-1315). *)
Definition calculateLeverageParams (w : World) (params : TargetPositionParams)
  : M LeverageParams :=
  q <- call (quote w 1%Z (timeframeSeconds params) (marketConditionId params)
               (longYes params)) ;;
  let F := IZR (quote_F q) / e18 in
  let R := (IZR (quote_rS q) + IZR (quote_rJ q)) / e18 in
  if Rleb F 0 || Rgeb F 1 then
    throw (ValidationError (concat3 "Invalid capital efficiency factor F="
             (numberToString F) ". Must be between 0 and 1."))
  else
    let maxLeverage := 1 / (1 - F) in
    let loops := loopCount F in
    tokenId <- (if longYes params
                then getYesTokenId w (marketConditionId params)
                else getNoTokenId w (marketConditionId params)) ;;
    ret {| lp_F := F; lp_R := R; loops := loops;
           maxLeverage := maxLeverage; tokenId := tokenId |}.

(** *** Order executor *)

Record BuyResult : Type := { tokensReceived : R; slippage : R }.

Definition isFilled (order : OrderStatus) : bool :=
  String.eqb (status order) "MATCHED" ||
  match associate_trades order with
  | Some trades => existsb (fun t => String.eqb t "CONFIRMED") trades
  | None => false
  end.

Definition isCancelledOrRejected (order : OrderStatus) : bool :=
  String.eqb (status order) "CANCELLED" || String.eqb (status order) "REJECTED".

(** The polling loop of [waitForOrderFill] (lines 1451-1481) over the
    observations that fit before the deadline: one [getOrder] answer per
    pass of the [while]. *)
Fixpoint pollLoop (observations : list (result OrderStatus)) : M bool :=
  match observations with
  | [] => ret false
  | Ok order :: rest =>
      if isFilled order then ret true
      else if isCancelledOrRejected order then ret false
      else emit (Sleep 1000) ;;; pollLoop rest
  | Throw _ :: rest => emit (Sleep 1000) ;;; pollLoop rest
  end.

Definition waitForOrderFill (a : Attempt) (orderId : string) (timeoutMs : R)
  : M bool :=
  pollLoop (polls a timeoutMs).

(** The body of the [try] of one attempt (lines 1342-1424). *)
Definition attemptOrder (a : Attempt) (tokenId : string)
    (usdcAmount maxSlippageBps : R) (orderType : OrderKind) : M BuyResult :=
  orderbook <- call (getOrderBook a) ;;
  match orderbook with
  | None | Some [] =>
      throw (PolymarketError ("No liquidity available for token " ++ tokenId)%string)
  | Some (best :: _) =>
      let bestAskPrice := price best in
      if Rleb bestAskPrice 0 || Rgeb bestAskPrice 1 then
        throw (PolymarketError
                 ("Invalid orderbook price: " ++ numberToString bestAskPrice)%string)
      else
        let orderSizeCalc := (usdcAmount / e6) / bestAskPrice in
        let limitPrice :=
          match orderType with
          | FOK => bestAskPrice * (1 + maxSlippageBps / 10000)
          | _ => bestAskPrice * (1 + maxSlippageBps / 20000)
          end in
        let pmOrderType :=
          match orderType with FOK | GTC => PmGTC | GTD => PmGTD end in
        emit (PostOrder tokenId limitPrice orderSizeCalc pmOrderType) ;;;
        order <- call (createAndPostOrder a) ;;
        match order with
        | None | Some EmptyString =>
            throw (PolymarketError "Failed to create order: no order ID returned")
        | Some orderID =>
            let fillTimeout := match orderType with FOK => 10000 | _ => 30000 end in
            let fillTimeoutText :=
              match orderType with FOK => "10000" | _ => "30000" end in
            filled <- waitForOrderFill a orderID fillTimeout ;;
            if negb filled then
              try_catch (emit (CancelOrder orderID) ;;; call (cancelOrder a))
                        (fun _ => ret tt) ;;;
              throw (PolymarketError
                       ("Order " ++ orderID ++ " failed to fill within " ++
                        fillTimeoutText ++ "ms")%string)
            else
              filledOrder <- call (getOrder a) ;;
              let orderSizeFilled :=
                match filledOrder with Some sz => sz | None => orderSizeCalc end in
              let tokensReceived := orderSizeFilled * e6 in
              let actualPrice := (usdcAmount / e6) / orderSizeFilled in
              let slippage := (actualPrice - bestAskPrice) * orderSizeFilled in
              ret {| tokensReceived := IZR (Zfloor tokensReceived);
                     slippage := slippage |}
        end
  end.

(** The classification of the [catch] (lines 1426 and 1430). *)
Definition asPolymarketError (error : exn) : exn :=
  if isPolymarketError error then error
  else PolymarketError ("Order failed: " ++ message error)%string.

Definition nonRetryable (lastError : exn) : bool :=
  includes (message lastError) "No liquidity" ||
  includes (message lastError) "Invalid".

(** The [for] of [buyTokensPolymarket] (lines 1340-1444): [n] passes remain,
    the next one has index [attempt]. *)
Fixpoint retryLoop (venue : nat -> Attempt) (tokenId : string)
    (usdcAmount maxSlippageBps : R) (orderType : OrderKind)
    (maxRetries : Z) (retryDelayMs : R)
    (n attempt : nat) (lastError : option exn) : M BuyResult :=
  match n with
  | O =>
      throw match lastError with
            | Some e => e
            | None => PolymarketError
                        (concat3 "Order failed after "
                           (numberToString (IZR (maxRetries + 1))) " attempts")
            end
  | S n' =>
      try_catch
        (attemptOrder (venue attempt) tokenId usdcAmount maxSlippageBps orderType)
        (fun error =>
           let lastError := asPolymarketError error in
           if nonRetryable lastError then throw lastError
           else
             (if (Z.of_nat attempt <? maxRetries)%Z
              then emit (Sleep (retryDelayMs * (3 / 2) ^ attempt))
              else ret tt) ;;;
             retryLoop venue tokenId usdcAmount maxSlippageBps orderType
               maxRetries retryDelayMs n' (S attempt) (Some lastError))
  end.

(** [buyTokensPolymarket] (lines 1330-1445). *)
Definition buyTokensPolymarket (venue : nat -> Attempt) (tokenId : string)
    (usdcAmount maxSlippageBps : R) (orderType : OrderKind)
    (maxRetries : Z) (retryDelayMs : R) : M BuyResult :=
  retryLoop venue tokenId usdcAmount maxSlippageBps orderType
    maxRetries retryDelayMs (Z.to_nat (maxRetries + 1)) 0 None.

(** *** Leg opener *)

Definition LegOpenedSignature : string := "LegOpened(uint256,uint256,uint256)".

(** [openProtocolLeg] (lines 1486-1536). *)
Definition openProtocolLeg (o : LegOpen) (tokenAmount term : R)
    (conditionId : string) (longYes : bool) : M Z :=
  let sets := Zfloor (tokenAmount / e6) in
  if (sets =? 0)%Z then
    throw (ProtocolError (concat3 "Insufficient tokens: "
             (numberToString tokenAmount) " (need at least 1 set)"))
  else
    try_catch
      (emit (OpenLeg sets term conditionId longYes) ;;;
       call (open_tx o) ;;;
       receipt <- call (tx_wait o) ;;
       match receipt with
       | None => throw (ProtocolError "Transaction failed")
       | Some rc =>
           if negb (receipt_status rc =? 1)%Z then
             throw (ProtocolError "Transaction failed")
           else
             match find (fun log => String.eqb (signature log) LegOpenedSignature)
                        (logs rc) with
             | None => throw (ProtocolError "LegOpened event not found in transaction")
             | Some legOpenedEvent => ret (topic1 legOpenedEvent)
             end
       end)
      (fun error =>
         if isProtocolError error then throw error
         else if includes (message error) "insufficient" then
           throw (ProtocolError "Insufficient protocol liquidity")
         else if includes (message error) "paused" then
           throw (ProtocolError "Protocol is paused")
         else
           throw (ProtocolError ("Failed to open position: " ++ message error)%string)).

(** [setupApprovals] (lines 1541-1557). *)
Definition setupApprovals (w : World) : M unit :=
  emit Approve ;;; call (approve_tx w) ;;;
  emit SetApprovalForAll ;;; call (setApprovalForAll_tx w).

(** *** Metrics calculator *)

(** [Promise.all(legIds.map(id => this.protocolContract.legs(id)))]. *)
Fixpoint getLegs (w : World) (ids : list Z) : M (list Leg) :=
  match ids with
  | [] => ret []
  | id :: rest =>
      leg <- call (legs w id) ;;
      others <- getLegs w rest ;;
      ret (leg :: others)
  end.

(** [legs.reduce((sum, leg) => sum + Number(leg.field), 0)]. *)
Definition sumOver (field : Leg -> Z) (ls : list Leg) : R :=
  fold_left (fun sum leg => sum + IZR (field leg)) ls 0.

(** [calculatePositionMetrics] (lines 1562-1621; the turnkey class has it
    at lines 637-697 with the gas product computed on numbers, the third
    class at lines 2328-2387 with the same text).  Its last parameter is
    declared [any] and is not read.  The averages divide by the number of
    legs, the leverage by the capital and the breakeven by the token total:
    these are divisions of [number]. *)
Definition calculatePositionMetrics {any : Type} (w : World) (legIds : list Z)
    (params : TargetPositionParams) (totalTokens totalSlippage : R)
    (leverageParams : any) : M LeveragePosition :=
  legs <- getLegs w legIds ;;
  let count := Num (INR (length legs)) in
  let totalSets := Num (sumOver sets legs) in
  let avgF := (Num (sumOver F_e18 legs) / count / Num e18)%num in
  let avgRS := (Num (sumOver rS_e18 legs) / count / Num e18)%num in
  let avgRJ := (Num (sumOver rJ_e18 legs) / count / Num e18)%num in
  let avgTerm := (Num (sumOver term legs) / count)%num in
  let seniorInterest :=
    (totalSets * avgF * avgRS * (avgTerm / Num (365 * 24 * 3600)))%num in
  let juniorInterest :=
    (totalSets * avgF * avgRJ * (avgTerm / Num (365 * 24 * 3600)))%num in
  let gasUsed := (Z.of_nat (length legIds) * 500000)%Z in
  feeData <- call (getFeeData w) ;;
  let gasPrice := match feeData with Some p => p | None => 0%Z end in
  let gasCostWei := (gasPrice * gasUsed)%Z in
  let gasCostUSDC := IZR gasCostWei / e18 * 1 in
  let effectiveLeverage := (Num totalTokens / Num (capitalUSDC params * e6))%num in
  let priceMove := targetPrice params - currentPrice params in
  let pnlAtTarget :=
    (Num (priceMove * totalTokens / e6) - Num totalSlippage - seniorInterest
     - juniorInterest - Num gasCostUSDC)%num in
  let totalFees :=
    (Num totalSlippage + seniorInterest + juniorInterest + Num gasCostUSDC)%num in
  let breakeven :=
    (Num (currentPrice params) + (totalFees / Num (totalTokens / e6)))%num in
  ret {| legIds := legIds;
         totalExposure := totalTokens / e6;
         effectiveLeverage := effectiveLeverage;
         capitalDeployed := capitalUSDC params;
         fees := {| protocolSenior := seniorInterest;
                    protocolJunior := juniorInterest;
                    polymarketSlippage := totalSlippage;
                    gas := gasCostUSDC;
                    total := totalFees |};
         pnl := {| atTarget := pnlAtTarget;
                   breakeven := breakeven;
                   maxProfit :=
                     (Num ((1 - currentPrice params) * totalTokens / e6) - totalFees)%num;
                   maxLoss := - capitalUSDC params |};
         autoCloseTime := (Num (now w) + (avgTerm * Num 1000))%num;
         pos_F := avgF;
         pos_R := (avgRS + avgRJ)%num |}.

(** *** Simulation *)

(** The capital-carry [for] of [simulatePosition] (lines 1041-1055): [n]
    passes remain; the state is [(totalTokens, remainingUSDC)]. *)
Fixpoint simulateLoop (n : nat) (F currentPrice : R) (st : R * R) : R * R :=
  match n with
  | O => st
  | S n' =>
      let tokensThisLoop := snd st / currentPrice in
      let totalTokens := fst st + tokensThisLoop in
      let remainingUSDC := tokensThisLoop * F in
      if Rltb remainingUSDC 1 then (totalTokens, remainingUSDC)
      else simulateLoop n' F currentPrice (totalTokens, remainingUSDC)
  end.

(** [Array.from({ length: loops }, (_, i) => BigInt(i))]: a negative
    length counts as zero. *)
Definition dummyLegIds (loops : Z) : list Z :=
  map Z.of_nat (seq 0 (Z.to_nat loops)).

(** [simulatePosition] (lines 1026-1080). *)
Definition simulatePosition (w : World) (params : TargetPositionParams)
  : M LeveragePosition :=
  validateInputs params ;;;
  setupPolymarket w ;;;
  try_catch
    (leverageParams <- calculateLeverageParams w params ;;
     let totalTokens :=
       fst (simulateLoop (Z.to_nat (loops leverageParams)) (lp_F leverageParams)
              (currentPrice params) (0, capitalUSDC params)) in
     let legIds := dummyLegIds (loops leverageParams) in
     calculatePositionMetrics w legIds params (totalTokens * e6) 0 leverageParams)
    (fun error =>
       if isValidationError error then throw error
       else throw (Error ("Simulation failed: " ++ message error)%string)).

(** *** Loop orchestrator *)

Record LoopState : Type := {
  st_legIds : list Z;
  remainingUSDC : R;
  totalTokensBought : R;
  totalSlippage : R
}.

Inductive Control : Type := Continue | Break.

(** The [catch] of the loop body (lines 1168-1175), entered with the state
    the [try] had reached. *)
Definition onLoopError (st : LoopState) (error : exn) : M (LoopState * Control) :=
  if (0 <? length (st_legIds st))%nat then ret (st, Break) else throw error.

(** One statement of the [try]: on a throw the [catch] runs with the state
    reached so far. *)
Definition tryStep {A} (m : M A) (st : LoopState)
    (k : A -> M (LoopState * Control)) : M (LoopState * Control) :=
  match m with
  | (t, Throw error) => logged t (onLoopError st error)
  | (t, Ok a) => logged t (k a)
  end.

(** One pass of the execution loop (lines 1140-1175). *)
Definition iteration (w : World) (params : TargetPositionParams)
    (leverageParams : LeverageParams) (orderType : OrderKind)
    (maxRetries : Z) (retryDelayMs : R) (i : nat) (st : LoopState)
  : M (LoopState * Control) :=
  tryStep (buyTokensPolymarket (attempts w i) (tokenId leverageParams)
             (remainingUSDC st) (maxSlippageBps params)
             orderType maxRetries retryDelayMs) st
    (fun buyResult =>
       let st1 := {| st_legIds := st_legIds st;
                     remainingUSDC := remainingUSDC st;
                     totalTokensBought := totalTokensBought st + tokensReceived buyResult;
                     totalSlippage := totalSlippage st + slippage buyResult |} in
       tryStep (openProtocolLeg (legOpens w i) (tokensReceived buyResult)
                  (timeframeSeconds params) (marketConditionId params)
                  (longYes params)) st1
         (fun legId =>
            let st2 := {| st_legIds := st_legIds st1 ++ [legId];
                          remainingUSDC := remainingUSDC st1;
                          totalTokensBought := totalTokensBought st1;
                          totalSlippage := totalSlippage st1 |} in
            tryStep (call (balanceAfterLeg w i)) st2
              (fun usdcBalance =>
                 let st3 := {| st_legIds := st_legIds st2;
                               remainingUSDC := IZR usdcBalance;
                               totalTokensBought := totalTokensBought st2;
                               totalSlippage := totalSlippage st2 |} in
                 ret (st3, if Rltb (IZR usdcBalance) e6 then Break else Continue)))).

(** The [for] of [openTargetPosition] (lines 1139-1176): [n] passes remain,
    the next one has index [i]. *)
Fixpoint executeLoop (w : World) (params : TargetPositionParams)
    (leverageParams : LeverageParams) (orderType : OrderKind)
    (maxRetries : Z) (retryDelayMs : R) (n i : nat) (st : LoopState)
  : M LoopState :=
  match n with
  | O => ret st
  | S n' =>
      r <- iteration w params leverageParams orderType maxRetries retryDelayMs i st ;;
      match r with
      | (st', Break) => ret st'
      | (st', Continue) =>
          executeLoop w params leverageParams orderType maxRetries retryDelayMs
            n' (S i) st'
      end
  end.

(** The defaults of lines 1135-1137 and the initial state of lines
    1130-1133. *)
Definition orderTypeOf (params : TargetPositionParams) : OrderKind :=
  match orderType params with Some k => k | None => FOK end.

Definition maxRetriesOf (params : TargetPositionParams) : Z :=
  match maxRetries params with Some m => m | None => 3%Z end.

Definition retryDelayMsOf (params : TargetPositionParams) : R :=
  match retryDelayMs params with
  | Some d => if Reqb d 0 then 2000 else d
  | None => 2000
  end.

Definition initialState (params : TargetPositionParams) : LoopState :=
  {| st_legIds := [];
     remainingUSDC := capitalUSDC params * e6;
     totalTokensBought := 0;
     totalSlippage := 0 |}.

(** Lines 1129-1189: the loop, the zero-leg check and the metrics. *)
Definition runLoop (w : World) (params : TargetPositionParams)
    (leverageParams : LeverageParams) : M LeveragePosition :=
  st <- executeLoop w params leverageParams (orderTypeOf params)
          (maxRetriesOf params) (retryDelayMsOf params)
          (Z.to_nat (loops leverageParams)) 0 (initialState params) ;;
  if (length (st_legIds st) =? 0)%nat then
    throw (ProtocolError "Failed to open any position legs")
  else
    calculatePositionMetrics w (st_legIds st) params
      (totalTokensBought st) (totalSlippage st) leverageParams.

(** The outer [catch] of [openTargetPosition] (lines 1190-1195). *)
Definition rethrowOrWrap (error : exn) : M LeveragePosition :=
  if isValidationError error || isPolymarketError error || isProtocolError error
  then throw error
  else throw (ProtocolError ("Position opening failed: " ++ message error)%string).

(** [openTargetPosition] (lines 1109-1196). *)
Definition openTargetPosition (w : World) (params : TargetPositionParams)
  : M LeveragePosition :=
  validateInputs params ;;;
  setupPolymarket w ;;;
  try_catch
    (checkSufficientBalance w (capitalUSDC params) ;;;
     verifyMarket w (marketConditionId params) ;;;
     leverageParams <- calculateLeverageParams w params ;;
     setupApprovals w ;;;
     runLoop w params leverageParams)
    rethrowOrWrap.

(** *** Position closer *)

(** The [for] of [closePosition] (lines 1640-1647); [i] counts the legs
    already processed. *)
Fixpoint closeLoop (chain : nat -> LegClose) (i : nat) (legIds : list Z)
    (totalUSDC : R) : M R :=
  match legIds with
  | [] => ret totalUSDC
  | legId :: rest =>
      balanceBefore <- call (balanceBefore (chain i)) ;;
      emit (CloseLeg legId) ;;;
      call (close_tx (chain i)) ;;;
      balanceAfter <- call (balanceAfter (chain i)) ;;
      closeLoop chain (S i) rest (totalUSDC + IZR (balanceAfter - balanceBefore))
  end.

(** [closePosition] (lines 1637-1650). *)
Definition closePosition (chain : nat -> LegClose) (legIds : list Z) : M R :=
  totalUSDC <- closeLoop chain 0 legIds 0 ;;
  ret (totalUSDC / e6).

End Methods.

End Sdk.

(** * The turnkey SDK ([errors.ts], lines 21-757)

    The class has the input validation, the balance and market checks, the
    leg opener, the metrics calculator and the position closer of the
    auto-retry SDK (the same text up to the version of the ethers API), and
    these are used below as embedded in [Sdk].  Its parameters are the first
    seven fields of [Sdk.TargetPositionParams]; the three options of the
    auto-retry SDK are not read.  It has no [setupPolymarket]: the venue
    client is built by the constructor.  Its own are the runway check, the
    parameter calculator, the order executor (one FOK order, no retry), the
    simulation loop and the two entry points. *)

Module Turnkey.

(** The order the venue returns for a posted order.  [size] is the size it
    reports, which the code takes for the tokens bought: a finite number
    other than zero.  (On an answer without a size, or with a size of zero,
    the code computes NaN for the tokens or for the slippage; such answers
    are not embedded.) *)
Record Posted : Type := { orderID : string; size : R }.

(** What the venue answers during the one order of a pass; [polls i] is the
    answer to the [i]-th status read. *)
Record Attempt : Type := {
  getOrderBook : result (option (list Sdk.Ask));
  createAndPostOrder : result (option Posted);
  polls : nat -> result Sdk.OrderStatus
}.

(** The chain as the auto-retry SDK sees it, and the venue pass by pass. *)
Record World : Type := {
  chain : Sdk.World;
  orders : nat -> Attempt
}.

Section Methods.

Context {fmt : NumberFormat}.

Definition safeRunwayOf (F rate : R) : R :=
  ((1 - F) / (F * rate)) * YEAR_SECONDS * (95 / 100).

(** [validateRunway] (lines 417-434).  With a factor of zero the runway
    [(1 - F) / (F * R)] is a division by zero: +Infinity, which no term
    reaches. *)
Definition validateRunway (F rate termSeconds : R) : M unit :=
  if Reqb rate 0 then ret tt
  else
    let runway := (Num (1 - F) / Num (F * rate) * Num YEAR_SECONDS)%num in
    let safeRunway := (runway * Num (95 / 100))%num in
    if ngeb (Num termSeconds) safeRunway then
      let termHours := termSeconds / 3600 in
      let runwayHours := (safeRunway / Num 3600)%num in
      throw (ValidationError
               ("Term " ++ toFixed termHours 1 ++ "h exceeds safe runway " ++
                fixedText runwayHours 1 ++ "h. " ++
                "Debt would exceed collateral value. " ++
                "Try shorter timeframe or wait for lower rates.")%string)
    else ret tt.

(** The loop count of lines 458-461:
    [Math.min(Math.ceil(Math.log(0.1) / Math.log(F)), 10)].  For F in (0, 1)
    the quotient is a positive finite number.  The class does not check F:
    at F = 0 the quotient is 0 and at F = 1 it is -Infinity, where [ln] and
    the division of [R] give 0; above 1 it is negative.  In each of these
    cases the count is not positive, so that the loops make no pass and
    [Array.from] builds an empty array. *)
Definition loopCount (F : R) : Z := Z.min (Zceil (ln (1 / 10) / ln F)) 10.

(** [calculateLeverageParams] (lines 439-475). *)
Definition calculateLeverageParams (w : Sdk.World)
    (params : Sdk.TargetPositionParams) : M Sdk.LeverageParams :=
  q <- call (Sdk.quote w 1%Z (Sdk.timeframeSeconds params)
               (Sdk.marketConditionId params) (Sdk.longYes params)) ;;
  let F := IZR (Sdk.quote_F q) / e18 in
  let R := (IZR (Sdk.quote_rS q) + IZR (Sdk.quote_rJ q)) / e18 in
  validateRunway F R (Sdk.timeframeSeconds params) ;;;
  let maxLeverage := 1 / (1 - F) in
  let loops := loopCount F in
  tokenId <- (if Sdk.longYes params
              then Sdk.getYesTokenId w (Sdk.marketConditionId params)
              else Sdk.getNoTokenId w (Sdk.marketConditionId params)) ;;
  ret {| Sdk.lp_F := F; Sdk.lp_R := R; Sdk.loops := loops;
         Sdk.maxLeverage := maxLeverage; Sdk.tokenId := tokenId |}.

(** The capital-carry [for] of [simulatePosition] (lines 200-213). *)
Fixpoint simulateLoop (n : nat) (F currentPrice : R) (st : R * R) : R * R :=
  match n with
  | O => st
  | S n' =>
      let tokensThisLoop := snd st / currentPrice in
      let totalTokens := fst st + tokensThisLoop in
      let remainingUSDC := tokensThisLoop * F * currentPrice in
      if Rltb remainingUSDC 1 then (totalTokens, remainingUSDC)
      else simulateLoop n' F currentPrice (totalTokens, remainingUSDC)
  end.

(** [simulatePosition] (lines 188-238). *)
Definition simulatePosition (w : Sdk.World) (params : Sdk.TargetPositionParams)
  : M Sdk.LeveragePosition :=
  Sdk.validateInputs params ;;;
  try_catch
    (leverageParams <- calculateLeverageParams w params ;;
     let totalTokens :=
       fst (simulateLoop (Z.to_nat (Sdk.loops leverageParams))
              (Sdk.lp_F leverageParams) (Sdk.currentPrice params)
              (0, Sdk.capitalUSDC params)) in
     let legIds := Sdk.dummyLegIds (Sdk.loops leverageParams) in
     Sdk.calculatePositionMetrics w legIds params (totalTokens * e6) 0
       leverageParams)
    (fun error =>
       if isValidationError error then throw error
       else throw (Error ("Simulation failed: " ++ message error)%string)).

(** The polling [for] of [waitForOrderFill] (lines 543-557): [n] status
    reads remain, the next one has index [i].  A failing read is not caught
    here. *)
Fixpoint pollLoop (orderId : string) (observations : nat -> result Sdk.OrderStatus)
    (n i : nat) : M unit :=
  match n with
  | O => throw (Error ("Order " ++ orderId ++ " failed to fill within 30 seconds")%string)
  | S n' =>
      order <- call (observations i) ;;
      if Sdk.isFilled order then ret tt
      else emit (Sleep 1000) ;;; pollLoop orderId observations n' (S i)
  end.

Definition waitForOrderFill (a : Attempt) (orderId : string) : M unit :=
  pollLoop orderId (polls a) 30 0.

(** [buyTokensPolymarket] (lines 480-538). *)
Definition buyTokensPolymarket (a : Attempt) (tokenId : string)
    (usdcAmount maxSlippageBps : R) : M Sdk.BuyResult :=
  try_catch
    (orderbook <- call (getOrderBook a) ;;
     match orderbook with
     | None | Some [] =>
         throw (PolymarketError ("No liquidity available for token " ++ tokenId)%string)
     | Some (best :: _) =>
         let bestAsk := Sdk.price best in
         if Rleb bestAsk 0 || Rgeb bestAsk 1 then
           throw (PolymarketError
                    ("Invalid orderbook price: " ++ numberToString bestAsk)%string)
         else
           let orderSize := (usdcAmount / e6) / bestAsk in
           let limitPrice := bestAsk * (1 + maxSlippageBps / 10000) in
           emit (PostOrder tokenId limitPrice orderSize PmFOK) ;;;
           order <- call (createAndPostOrder a) ;;
           match order with
           | None | Some {| orderID := EmptyString |} =>
               throw (PolymarketError "Failed to create order: no order ID returned")
           | Some order =>
               waitForOrderFill a (orderID order) ;;;
               let tokensReceived := size order * e6 in
               let actualPrice := (usdcAmount / e6) / size order in
               let slippage := (actualPrice - bestAsk) * size order in
               ret {| Sdk.tokensReceived := IZR (Zfloor tokensReceived);
                      Sdk.slippage := slippage |}
           end
     end)
    (fun error =>
       if isPolymarketError error then throw error
       else throw (PolymarketError ("Order failed: " ++ message error)%string)).

(** [setupApprovals] (lines 618-633): the two transactions are sent and not
    waited for. *)
Definition setupApprovals (w : Sdk.World) : M unit :=
  emit Approve ;;; call (Sdk.approve_tx w) ;;;
  emit SetApprovalForAll ;;; call (Sdk.setApprovalForAll_tx w).

(** One pass of the execution loop (lines 278-314). *)
Definition iteration (w : World) (params : Sdk.TargetPositionParams)
    (leverageParams : Sdk.LeverageParams) (i : nat) (st : Sdk.LoopState)
  : M (Sdk.LoopState * Sdk.Control) :=
  Sdk.tryStep (buyTokensPolymarket (orders w i) (Sdk.tokenId leverageParams)
                 (Sdk.remainingUSDC st) (Sdk.maxSlippageBps params)) st
    (fun buyResult =>
       let st1 := {| Sdk.st_legIds := Sdk.st_legIds st;
                     Sdk.remainingUSDC := Sdk.remainingUSDC st;
                     Sdk.totalTokensBought :=
                       Sdk.totalTokensBought st + Sdk.tokensReceived buyResult;
                     Sdk.totalSlippage :=
                       Sdk.totalSlippage st + Sdk.slippage buyResult |} in
       Sdk.tryStep (Sdk.openProtocolLeg (Sdk.legOpens (chain w) i)
                      (Sdk.tokensReceived buyResult)
                      (Sdk.timeframeSeconds params) (Sdk.marketConditionId params)
                      (Sdk.longYes params)) st1
         (fun legId =>
            let st2 := {| Sdk.st_legIds := Sdk.st_legIds st1 ++ [legId];
                          Sdk.remainingUSDC := Sdk.remainingUSDC st1;
                          Sdk.totalTokensBought := Sdk.totalTokensBought st1;
                          Sdk.totalSlippage := Sdk.totalSlippage st1 |} in
            Sdk.tryStep (call (Sdk.balanceAfterLeg (chain w) i)) st2
              (fun usdcBalance =>
                 let st3 := {| Sdk.st_legIds := Sdk.st_legIds st2;
                               Sdk.remainingUSDC := IZR usdcBalance;
                               Sdk.totalTokensBought := Sdk.totalTokensBought st2;
                               Sdk.totalSlippage := Sdk.totalSlippage st2 |} in
                 ret (st3, if Rltb (IZR usdcBalance) e6
                           then Sdk.Break else Sdk.Continue)))).

(** The [for] of [openTargetPosition] (lines 277-315): [n] passes remain,
    the next one has index [i]. *)
Fixpoint executeLoop (w : World) (params : Sdk.TargetPositionParams)
    (leverageParams : Sdk.LeverageParams) (n i : nat) (st : Sdk.LoopState)
  : M Sdk.LoopState :=
  match n with
  | O => ret st
  | S n' =>
      r <- iteration w params leverageParams i st ;;
      match r with
      | (st', Sdk.Break) => ret st'
      | (st', Sdk.Continue) => executeLoop w params leverageParams n' (S i) st'
      end
  end.

(** Lines 271-328: the loop, the zero-leg check and the metrics. *)
Definition runLoop (w : World) (params : Sdk.TargetPositionParams)
    (leverageParams : Sdk.LeverageParams) : M Sdk.LeveragePosition :=
  st <- executeLoop w params leverageParams
          (Z.to_nat (Sdk.loops leverageParams)) 0 (Sdk.initialState params) ;;
  if (length (Sdk.st_legIds st) =? 0)%nat then
    throw (ProtocolError "Failed to open any position legs")
  else
    Sdk.calculatePositionMetrics (chain w) (Sdk.st_legIds st) params
      (Sdk.totalTokensBought st) (Sdk.totalSlippage st) leverageParams.

(** [openTargetPosition] (lines 250-335). *)
Definition openTargetPosition (w : World) (params : Sdk.TargetPositionParams)
  : M Sdk.LeveragePosition :=
  Sdk.validateInputs params ;;;
  try_catch
    (Sdk.checkSufficientBalance (chain w) (Sdk.capitalUSDC params) ;;;
     Sdk.verifyMarket (chain w) (Sdk.marketConditionId params) ;;;
     leverageParams <- calculateLeverageParams (chain w) params ;;
     setupApprovals (chain w) ;;;
     runLoop w params leverageParams)
    Sdk.rethrowOrWrap.

End Methods.

End Turnkey.

(** * The SDK with one order per loop and a ten-loop cap ([errors.ts], lines
      1696-2461): parameter calculator and simulation

    The other methods that the simulation of this class calls have the text
    of the auto-retry SDK and are used as embedded in [Sdk]. *)

Module Capped.

Record LeverageParams : Type := {
  lp_F : R;
  lp_R : R;
  loops : number;
  maxLeverage : number;
  tokenId : string
}.

Section Methods.

Context {fmt : NumberFormat}.

(** The loop count of lines 2152-2153 and 2166:
    [Math.min(Math.floor(Math.log(1 - maxLeverage * (1 - F)) / Math.log(F)) + 1, 10)]
    with [maxLeverage = 1 / (1 - F)]. *)
Definition leverageOf (F : R) : number := (Num 1 / Num (1 - F))%num.

Definition loopCount (F : R) : number :=
  let maxLeverage := leverageOf F in
  let loops :=
    (nfloor (nlog (Num 1 - maxLeverage * Num (1 - F)) / nlog (Num F)) + Num 1)%num in
  nmin loops (Num 10).

(** [calculateLeverageParams] (lines 2138-2170). *)
Definition calculateLeverageParams (w : Sdk.World)
    (params : Sdk.TargetPositionParams) : M LeverageParams :=
  q <- call (Sdk.quote w 1%Z (Sdk.timeframeSeconds params)
               (Sdk.marketConditionId params) (Sdk.longYes params)) ;;
  let F := IZR (Sdk.quote_F q) / e18 in
  let R := (IZR (Sdk.quote_rS q) + IZR (Sdk.quote_rJ q)) / e18 in
  tokenId <- (if Sdk.longYes params
              then Sdk.getYesTokenId w (Sdk.marketConditionId params)
              else Sdk.getNoTokenId w (Sdk.marketConditionId params)) ;;
  ret {| lp_F := F; lp_R := R; loops := loopCount F;
         maxLeverage := leverageOf F; tokenId := tokenId |}.

(** [simulatePosition] (lines 1895-1960): the text of lines 1026-1080, the
    loop of lines 1907-1924 being [Sdk.simulateLoop]. *)
Definition simulatePosition (w : Sdk.World) (params : Sdk.TargetPositionParams)
  : M Sdk.LeveragePosition :=
  Sdk.validateInputs params ;;;
  Sdk.setupPolymarket w ;;;
  try_catch
    (leverageParams <- calculateLeverageParams w params ;;
     let totalTokens :=
       fst (Sdk.simulateLoop (passes (loops leverageParams)) (lp_F leverageParams)
              (Sdk.currentPrice params) (0, Sdk.capitalUSDC params)) in
     let legIds := map Z.of_nat (seq 0 (arrayLength (loops leverageParams))) in
     Sdk.calculatePositionMetrics w legIds params (totalTokens * e6) 0
       leverageParams)
    (fun error =>
       if isValidationError error then throw error
       else throw (Error ("Simulation failed: " ++ message error)%string)).

End Methods.

End Capped.

(** * The validation script ([test/simulation_validation.test.ts]) *)

Module SimulationValidation.

(** [testLoopLeverage] (lines 6-45): the expected geometric-series total and
    the leverage the script prints. *)
Definition multiplier (F : R) (loops : nat) : R := (1 - F ^ loops) / (1 - F).

Definition expectedTokens (capital price F : R) (loops : nat) : R :=
  (capital / price) * multiplier F loops.

Definition leverage (total price capital : R) : R := total * price / capital.

(** [testLoopCount] (lines 80-108), with the threshold [0.1] of the script
    as the parameter [eps]. *)
Definition loopsFor (eps F : R) : Z := Zceil (ln eps / ln F).

Definition maxLeverage (F : R) : R := 1 / (1 - F).

Definition actualMultiplier (F : R) (loops : Z) : R :=
  (1 - powerRZ F loops) / (1 - F).

(** [testRunway] (lines 48-78), with the factor and the rate of the script
    as parameters. *)
Definition runway (F rate : R) : R := ((1 - F) / (F * rate)) * YEAR_SECONDS.

Definition safeRunway (F rate : R) : R := runway F rate * (95 / 100).

Definition debtAtRunway (F rate : R) : R :=
  let tau := runway F rate / YEAR_SECONDS in
  F * (1 + rate * tau).

End SimulationValidation.

(** * Concrete inputs *)

Module Scenario.

Definition plainFormat : NumberFormat :=
  {| numberToString := fun _ => "<number>";
     toFixed := fun _ _ => "<number>" |}.

(** The position of the usage example: YES from 40c to 44c with $1000. *)
Definition params (timeframeSeconds : R) : Sdk.TargetPositionParams :=
  {| Sdk.marketConditionId := "0x7cb031787d1693f8e0a40859f6a192bddc9280a25263946c6040179eb50267dc";
     Sdk.longYes := true;
     Sdk.currentPrice := 4 / 10;
     Sdk.targetPrice := 44 / 100;
     Sdk.timeframeSeconds := timeframeSeconds;
     Sdk.capitalUSDC := 1000;
     Sdk.maxSlippageBps := 100;
     Sdk.orderType := None;
     Sdk.maxRetries := None;
     Sdk.retryDelayMs := None |}.

Definition leg : Sdk.Leg :=
  {| Sdk.sets := 2500;
     Sdk.F_e18 := 900000000000000000;
     Sdk.rS_e18 := 50000000000000000;
     Sdk.rJ_e18 := 50000000000000000;
     Sdk.opened := 1760000000;
     Sdk.term := 3600;
     Sdk.borrower := "0xf39Fd6e51aad88F6F4ce6aB8827279cffFb92266";
     Sdk.escrow := "0x363Ef3131969aC9C0EE3Bd4a67ce47865d37BE71";
     Sdk.longPositionId := 1;
     Sdk.shortPositionId := 2;
     Sdk.conditionId := "0x7cb031787d1693f8e0a40859f6a192bddc9280a25263946c6040179eb50267dc" |}.

(** An attempt that the venue fills at 40c. *)
Definition filled : Sdk.Attempt :=
  {| Sdk.getOrderBook := Ok (Some [ {| Sdk.price := 4 / 10; Sdk.size := 100000 |} ]);
     Sdk.createAndPostOrder := Ok (Some "order-1");
     Sdk.polls := fun _ => [ Ok {| Sdk.status := "MATCHED"; Sdk.associate_trades := None |} ];
     Sdk.cancelOrder := Ok tt;
     Sdk.getOrder := Ok None |}.

(** An attempt whose order is posted but not filled before the deadline. *)
Definition timedOut : Sdk.Attempt :=
  {| Sdk.getOrderBook := Ok (Some [ {| Sdk.price := 4 / 10; Sdk.size := 100000 |} ]);
     Sdk.createAndPostOrder := Ok (Some "order-1");
     Sdk.polls := fun _ => [];
     Sdk.cancelOrder := Ok tt;
     Sdk.getOrder := Ok None |}.

(** An attempt that finds no ask in the book. *)
Definition emptyBook : Sdk.Attempt :=
  {| Sdk.getOrderBook := Ok (Some []);
     Sdk.createAndPostOrder := Ok None;
     Sdk.polls := fun _ => [];
     Sdk.cancelOrder := Ok tt;
     Sdk.getOrder := Ok None |}.

(** An attempt whose order the venue refuses, the book being in order. *)
Definition rejectedSignature : Sdk.Attempt :=
  {| Sdk.getOrderBook := Ok (Some [ {| Sdk.price := 4 / 10; Sdk.size := 100000 |} ]);
     Sdk.createAndPostOrder := Throw (Error "Invalid signature");
     Sdk.polls := fun _ => [];
     Sdk.cancelOrder := Ok tt;
     Sdk.getOrder := Ok None |}.

(** A venue that times out once and then has no liquidity. *)
Definition thinVenue (i : nat) : Sdk.Attempt :=
  match i with O => timedOut | _ => emptyBook end.

Definition openedLeg (legId : Z) : Sdk.LegOpen :=
  {| Sdk.open_tx := Ok tt;
     Sdk.tx_wait :=
       Ok (Some {| Sdk.receipt_status := 1;
                   Sdk.logs := [ {| Sdk.signature := Sdk.LegOpenedSignature;
                                    Sdk.topic1 := legId |} ] |}) |}.

(** A chain on which every call succeeds, with the venue and the balance
    reads after each leg as given; the quote is [(F, rS, rJ)] in 18-decimal
    fixed point. *)
Definition worldWith (F_e18 rS_e18 rJ_e18 : Z)
    (attempts : nat -> nat -> Sdk.Attempt)
    (balanceAfterLeg : nat -> result Z) : Sdk.World :=
  {| Sdk.polymarketInitialized := true;
     Sdk.createOrDeriveApiKey := Ok tt;
     Sdk.initialBalance := Ok 5000000000%Z;
     Sdk.verifyMarketCall := fun _ => Ok tt;
     Sdk.quote := fun _ _ _ _ =>
       Ok {| Sdk.quote_F := F_e18; Sdk.quote_rS := rS_e18; Sdk.quote_rJ := rJ_e18;
             Sdk.usdcNeeded := 0; Sdk.converged := true |};
     Sdk.yesPositionId := fun _ => Ok "1001";
     Sdk.noPositionId := fun _ => Ok "1002";
     Sdk.approve_tx := Ok tt;
     Sdk.setApprovalForAll_tx := Ok tt;
     Sdk.attempts := attempts;
     Sdk.legOpens := fun i => openedLeg (Z.of_nat i + 1);
     Sdk.balanceAfterLeg := balanceAfterLeg;
     Sdk.legs := fun _ => Ok leg;
     Sdk.getFeeData := Ok (Some 30000000000%Z);
     Sdk.now := 1760000000000 |}.

(** Every order fills and every balance read returns $900. *)
Definition world (F_e18 rS_e18 rJ_e18 : Z) : Sdk.World :=
  worldWith F_e18 rS_e18 rJ_e18 (fun _ _ => filled) (fun _ => Ok 900000000%Z).

(** The first pass completes; from the second on the book is empty. *)
Definition dryAfterFirst : Sdk.World :=
  worldWith 900000000000000000 50000000000000000 50000000000000000
    (fun i _ => match i with O => filled | _ => emptyBook end)
    (fun _ => Ok 900000000%Z).

(** Orders fill and legs open, but the balance read after a leg fails. *)
Definition balanceReadFails : Sdk.World :=
  worldWith 900000000000000000 50000000000000000 50000000000000000
    (fun _ _ => filled) (fun _ => Throw (Error "missing response")).

(** The venue of the turnkey SDK.  An order that fills at 40c for [size]
    tokens, and a pass that finds no ask in the book. *)
Definition turnkeyFilled (size : R) : Turnkey.Attempt :=
  {| Turnkey.getOrderBook :=
       Ok (Some [ {| Sdk.price := 4 / 10; Sdk.size := 100000 |} ]);
     Turnkey.createAndPostOrder :=
       Ok (Some {| Turnkey.orderID := "order-1"; Turnkey.size := size |});
     Turnkey.polls :=
       fun _ => Ok {| Sdk.status := "MATCHED"; Sdk.associate_trades := None |} |}.

Definition turnkeyEmptyBook : Turnkey.Attempt :=
  {| Turnkey.getOrderBook := Ok (Some []);
     Turnkey.createAndPostOrder := Ok None;
     Turnkey.polls := fun _ => Throw (Error "order not found") |}.

(** On the chain [chain], the first order fills ($1000 buy 2500 tokens) and
    from the second pass on the book is empty. *)
Definition turnkeyOn (chain : Sdk.World) : Turnkey.World :=
  {| Turnkey.chain := chain;
     Turnkey.orders :=
       fun i => match i with O => turnkeyFilled 2500 | _ => turnkeyEmptyBook end |}.

(** What the order executor of the turnkey SDK returns for that first
    order. *)
Definition turnkeyFirstBuy : Sdk.BuyResult :=
  {| Sdk.tokensReceived := IZR (Zfloor (2500 * e6));
     Sdk.slippage := (1000 * e6 / e6 / 2500 - 4 / 10) * 2500 |}.

(** The parameters the calculator of the turnkey SDK returns on the quote
    F = 0.9, rS = rJ = 0.05 for the YES side. *)
Definition turnkeyParameters : Sdk.LeverageParams :=
  {| Sdk.lp_F := 900000000000000000 / e18;
     Sdk.lp_R := (50000000000000000 + 50000000000000000) / e18;
     Sdk.loops := 10;
     Sdk.maxLeverage := 1 / (1 - 900000000000000000 / e18);
     Sdk.tokenId := "1001" |}.

(** A quote without haircut or interest: F = 2 and zero rates. *)
Definition overQuoted : Sdk.World := world 2000000000000000000 0 0.

(** The chain [w] with legs that cannot be read back. *)
Definition withUnreadableLegs (w : Sdk.World) : Sdk.World :=
  {| Sdk.polymarketInitialized := Sdk.polymarketInitialized w;
     Sdk.createOrDeriveApiKey := Sdk.createOrDeriveApiKey w;
     Sdk.initialBalance := Sdk.initialBalance w;
     Sdk.verifyMarketCall := Sdk.verifyMarketCall w;
     Sdk.quote := Sdk.quote w;
     Sdk.yesPositionId := Sdk.yesPositionId w;
     Sdk.noPositionId := Sdk.noPositionId w;
     Sdk.approve_tx := Sdk.approve_tx w;
     Sdk.setApprovalForAll_tx := Sdk.setApprovalForAll_tx w;
     Sdk.attempts := Sdk.attempts w;
     Sdk.legOpens := Sdk.legOpens w;
     Sdk.balanceAfterLeg := Sdk.balanceAfterLeg w;
     Sdk.legs := fun _ => Throw (Error "call revert exception");
     Sdk.getFeeData := Sdk.getFeeData w;
     Sdk.now := Sdk.now w |}.

End Scenario.

(** * Vocabulary of the statements *)

(** Fee additivity as the claim has it: the sum of the four components, and
    equality within a relative tolerance, in the arithmetic of [number]
    (false as soon as one side is NaN). *)
Definition sumOfComponents (f : Sdk.Fees) : number :=
  (Sdk.protocolSenior f + Sdk.protocolJunior f + Num (Sdk.polymarketSlippage f)
   + Num (Sdk.gas f))%num.

Definition withinRelTol (tol : R) (a b : number) : bool :=
  nleb (nabs (a - b)%num) (Num tol * nabs b)%num.

(** The mean of a field over the legs read back and the interest the
    metrics calculator derives from the means, for a list of legs that is
    not empty. *)
Definition mean (field : Sdk.Leg -> Z) (ls : list Sdk.Leg) : R :=
  Sdk.sumOver field ls / INR (length ls).

Definition interestOf (rate : Sdk.Leg -> Z) (ls : list Sdk.Leg) : R :=
  Sdk.sumOver Sdk.sets ls * (mean Sdk.F_e18 ls / e18) * (mean rate ls / e18)
  * (mean Sdk.term ls / (365 * 24 * 3600)).

(** The reads of the metrics calculator on the legs [ids] succeed. *)
Definition metricsReadable (w : Sdk.World) (ids : list Z) : Prop :=
  (forall id, In id ids -> exists leg, Sdk.legs w id = Ok leg) /\
  exists feeData, Sdk.getFeeData w = Ok feeData.

(** The call that [setupPolymarket] makes. *)
Definition keyDerivation (w : Sdk.World) : list event :=
  if Sdk.polymarketInitialized w then [] else [CreateOrDeriveApiKey].

(** The order executor seen from outside: the attempt with index [i], what
    the calls of [a] retried attempts look like, and the error the caller
    receives. *)
Definition attemptAt {fmt : NumberFormat} (venue : nat -> Sdk.Attempt)
    (tokenId : string) (usdcAmount maxSlippageBps : R)
    (orderType : Sdk.OrderKind) (i : nat) : M Sdk.BuyResult :=
  Sdk.attemptOrder (venue i) tokenId usdcAmount maxSlippageBps orderType.

Definition retryableFailure (m : M Sdk.BuyResult) : Prop :=
  exists e, outcome m = Throw e /\
            Sdk.nonRetryable (Sdk.asPolymarketError e) = false.

Definition nonRetryableFailure (m : M Sdk.BuyResult) : Prop :=
  exists e, outcome m = Throw e /\
            Sdk.nonRetryable (Sdk.asPolymarketError e) = true.

Definition succeeded (m : M Sdk.BuyResult) : Prop :=
  exists b, outcome m = Ok b.

Definition retriedCalls (attempt : nat -> M Sdk.BuyResult) (retryDelayMs : R)
    (first a : nat) : list event :=
  flat_map (fun i => calls (attempt i) ++ [Sleep (retryDelayMs * (3 / 2) ^ i)])
           (seq first a).

Definition surfaced (r : result Sdk.BuyResult) : result Sdk.BuyResult :=
  match r with
  | Ok b => Ok b
  | Throw e => Throw (Sdk.asPolymarketError e)
  end.

(** The three calls of [closePosition] for the leg with index [j] succeed. *)
Definition closes (chain : nat -> Sdk.LegClose) (j : nat) : Prop :=
  exists before after,
    Sdk.balanceBefore (chain j) = Ok before /\
    Sdk.close_tx (chain j) = Ok tt /\
    Sdk.balanceAfter (chain j) = Ok after.

(** The inputs [validateInputs] lets through, finite or not: a numeric field
    is in its range or NaN, and the capital may be +Infinity. *)
Definition inRange (P : R -> Prop) (a : number) : Prop :=
  match a with
  | Num x => P x
  | NaN => True
  | PosInf | NegInf => False
  end.

Definition acceptedRaw (raw : Sdk.RawParams) : Prop :=
  startsWith (Sdk.raw_marketConditionId raw) "0x" = true /\
  inRange (fun x => 0 < x < 1) (Sdk.raw_currentPrice raw) /\
  inRange (fun x => 0 < x < 1) (Sdk.raw_targetPrice raw) /\
  match Sdk.raw_currentPrice raw, Sdk.raw_targetPrice raw with
  | Num current, Num target =>
      if Sdk.raw_longYes raw then current < target else target < current
  | _, _ => True
  end /\
  inRange (fun x => 60 <= x <= 365 * 24 * 3600) (Sdk.raw_timeframeSeconds raw) /\
  (Sdk.raw_capitalUSDC raw = PosInf \/
   inRange (fun x => 10 <= x) (Sdk.raw_capitalUSDC raw)) /\
  inRange (fun x => 0 <= x <= 5000) (Sdk.raw_maxSlippageBps raw).

Definition allNaN (conditionId : string) (longYes : bool) : Sdk.RawParams :=
  {| Sdk.raw_marketConditionId := conditionId;
     Sdk.raw_longYes := longYes;
     Sdk.raw_currentPrice := NaN;
     Sdk.raw_targetPrice := NaN;
     Sdk.raw_timeframeSeconds := NaN;
     Sdk.raw_capitalUSDC := NaN;
     Sdk.raw_maxSlippageBps := NaN |}.

(** The finite inputs [validateInputs] lets through. *)
Definition validParams (params : Sdk.TargetPositionParams) : Prop :=
  startsWith (Sdk.marketConditionId params) "0x" = true /\
  0 < Sdk.currentPrice params < 1 /\
  0 < Sdk.targetPrice params < 1 /\
  (if Sdk.longYes params
   then Sdk.currentPrice params < Sdk.targetPrice params
   else Sdk.targetPrice params < Sdk.currentPrice params) /\
  60 <= Sdk.timeframeSeconds params <= 365 * 24 * 3600 /\
  10 <= Sdk.capitalUSDC params /\
  0 <= Sdk.maxSlippageBps params <= 5000.

(** The execution loop of the turnkey SDK seen from outside: the state
    after [k] passes that completed and went on, and the three places where
    a pass can fail. *)
Definition buyOf {fmt : NumberFormat} (w : Turnkey.World)
    (params : Sdk.TargetPositionParams) (lp : Sdk.LeverageParams)
    (i : nat) (st : Sdk.LoopState) : M Sdk.BuyResult :=
  Turnkey.buyTokensPolymarket (Turnkey.orders w i) (Sdk.tokenId lp)
    (Sdk.remainingUSDC st) (Sdk.maxSlippageBps params).

Definition legOf {fmt : NumberFormat} (w : Turnkey.World)
    (params : Sdk.TargetPositionParams) (i : nat) (b : Sdk.BuyResult) : M Z :=
  Sdk.openProtocolLeg (Sdk.legOpens (Turnkey.chain w) i) (Sdk.tokensReceived b)
    (Sdk.timeframeSeconds params) (Sdk.marketConditionId params)
    (Sdk.longYes params).

Definition passOf {fmt : NumberFormat} (w : Turnkey.World)
    (params : Sdk.TargetPositionParams) (lp : Sdk.LeverageParams)
    (i : nat) (st : Sdk.LoopState) : M (Sdk.LoopState * Sdk.Control) :=
  Turnkey.iteration w params lp i st.

Definition afterBuy (st : Sdk.LoopState) (b : Sdk.BuyResult) : Sdk.LoopState :=
  {| Sdk.st_legIds := Sdk.st_legIds st;
     Sdk.remainingUSDC := Sdk.remainingUSDC st;
     Sdk.totalTokensBought := Sdk.totalTokensBought st + Sdk.tokensReceived b;
     Sdk.totalSlippage := Sdk.totalSlippage st + Sdk.slippage b |}.

Definition afterLeg (st : Sdk.LoopState) (legId : Z) : Sdk.LoopState :=
  {| Sdk.st_legIds := Sdk.st_legIds st ++ [legId];
     Sdk.remainingUSDC := Sdk.remainingUSDC st;
     Sdk.totalTokensBought := Sdk.totalTokensBought st;
     Sdk.totalSlippage := Sdk.totalSlippage st |}.

Definition afterBalance (st : Sdk.LoopState) (usdcBalance : Z) : Sdk.LoopState :=
  {| Sdk.st_legIds := Sdk.st_legIds st;
     Sdk.remainingUSDC := IZR usdcBalance;
     Sdk.totalTokensBought := Sdk.totalTokensBought st;
     Sdk.totalSlippage := Sdk.totalSlippage st |}.

Fixpoint stateAfter {fmt : NumberFormat} (w : Turnkey.World)
    (params : Sdk.TargetPositionParams) (lp : Sdk.LeverageParams)
    (k : nat) : option Sdk.LoopState :=
  match k with
  | O => Some (Sdk.initialState params)
  | S k' =>
      match stateAfter w params lp k' with
      | Some st =>
          match outcome (passOf w params lp k' st) with
          | Ok (st', Sdk.Continue) => Some st'
          | _ => None
          end
      | None => None
      end
  end.

Inductive Failure : Type :=
| BuyFails (e : exn)
| LegFails (b : Sdk.BuyResult) (e : exn)
| BalanceFails (b : Sdk.BuyResult) (legId : Z) (e : exn).

Definition failsWith {fmt : NumberFormat} (w : Turnkey.World)
    (params : Sdk.TargetPositionParams) (lp : Sdk.LeverageParams)
    (i : nat) (st : Sdk.LoopState) (f : Failure) : Prop :=
  match f with
  | BuyFails e => outcome (buyOf w params lp i st) = Throw e
  | LegFails b e =>
      outcome (buyOf w params lp i st) = Ok b /\
      outcome (legOf w params i b) = Throw e
  | BalanceFails b legId e =>
      outcome (buyOf w params lp i st) = Ok b /\
      outcome (legOf w params i b) = Ok legId /\
      Sdk.balanceAfterLeg (Turnkey.chain w) i = Throw e
  end.

(** A call of [openTargetPosition] of the turnkey SDK gets as far as its
    loop, with the parameters [lp]: the input is valid, the balance covers
    the capital, the market check passes, the parameter calculator returns
    [lp] and the two approvals go through. *)
Definition reachesLoop {fmt : NumberFormat} (w : Turnkey.World)
    (params : Sdk.TargetPositionParams) (lp : Sdk.LeverageParams) : Prop :=
  validParams params /\
  (exists balance,
      Sdk.initialBalance (Turnkey.chain w) = Ok balance /\
      Sdk.capitalUSDC params <= IZR balance / e6) /\
  Sdk.verifyMarketCall (Turnkey.chain w) (Sdk.marketConditionId params) = Ok tt /\
  outcome (Turnkey.calculateLeverageParams (Turnkey.chain w) params) = Ok lp /\
  Sdk.approve_tx (Turnkey.chain w) = Ok tt /\
  Sdk.setApprovalForAll_tx (Turnkey.chain w) = Ok tt.

(** The call returns a position on exactly the legs [ids]: it does so
    whenever the reads of the metrics calculator succeed, and no position it
    returns lists other legs. *)
Definition returnsLegs {fmt : NumberFormat} (w : Turnkey.World)
    (params : Sdk.TargetPositionParams) (ids : list Z) : Prop :=
  (metricsReadable (Turnkey.chain w) ids ->
   exists p, outcome (Turnkey.openTargetPosition w params) = Ok p /\
             Sdk.legIds p = ids) /\
  (forall p, outcome (Turnkey.openTargetPosition w params) = Ok p ->
             Sdk.legIds p = ids).

Definition isPostOrder (ev : event) : bool :=
  match ev with PostOrder _ _ _ _ => true | _ => false end.


(** An observation of the polling loop that decides nothing: a failed
    [getOrder], or an order neither filled nor cancelled nor rejected. *)
Definition undecided (o : result Sdk.OrderStatus) : bool :=
  match o with
  | Throw _ => true
  | Ok order => negb (Sdk.isFilled order) && negb (Sdk.isCancelledOrRejected order)
  end.

(** * Properties *)

(** ** Comparisons and the monad *)

Lemma Rltb_true x y : x < y -> Rltb x y = true.
Proof. intros H; unfold Rltb; destruct (Rlt_dec x y); [reflexivity | contradiction]. Qed.

Lemma Rltb_false x y : y <= x -> Rltb x y = false.
Proof. intros H; unfold Rltb; destruct (Rlt_dec x y); [lra | reflexivity]. Qed.

Lemma Rleb_true x y : x <= y -> Rleb x y = true.
Proof. intros H; unfold Rleb; destruct (Rle_dec x y); [reflexivity | contradiction]. Qed.

Lemma Rleb_false x y : y < x -> Rleb x y = false.
Proof. intros H; unfold Rleb; destruct (Rle_dec x y); [lra | reflexivity]. Qed.

Lemma Rgeb_true x y : y <= x -> Rgeb x y = true.
Proof. apply Rleb_true. Qed.

Lemma Rgeb_false x y : x < y -> Rgeb x y = false.
Proof. apply Rleb_false. Qed.

Lemma Rgtb_true x y : y < x -> Rgtb x y = true.
Proof. apply Rltb_true. Qed.

Lemma Rgtb_false x y : x <= y -> Rgtb x y = false.
Proof. apply Rltb_false. Qed.

Lemma Reqb_true x y : x = y -> Reqb x y = true.
Proof. intros H; unfold Reqb; destruct (Req_dec_T x y); [reflexivity | contradiction]. Qed.

Lemma Reqb_false x y : x <> y -> Reqb x y = false.
Proof. intros H; unfold Reqb; destruct (Req_dec_T x y); [contradiction | reflexivity]. Qed.

Lemma Rleb_true_iff x y : Rleb x y = true <-> x <= y.
Proof.
  unfold Rleb. destruct (Rle_dec x y); split; intros; auto; discriminate.
Qed.

Lemma Rleb_false_iff x y : Rleb x y = false <-> y < x.
Proof.
  unfold Rleb. destruct (Rle_dec x y); split; intros; auto; try discriminate; lra.
Qed.

Lemma Rltb_true_iff x y : Rltb x y = true <-> x < y.
Proof.
  unfold Rltb. destruct (Rlt_dec x y); split; intros; auto; discriminate.
Qed.

Lemma Rltb_false_iff x y : Rltb x y = false <-> y <= x.
Proof.
  unfold Rltb. destruct (Rlt_dec x y); split; intros; auto; try discriminate; lra.
Qed.

(** Turns boolean comparisons in the hypotheses into inequalities. *)
Ltac rbool :=
  unfold Rgeb, Rgtb in *;
  repeat match goal with
  | H : (_ || _)%bool = true |- _ => apply orb_true_iff in H
  | H : (_ || _)%bool = false |- _ => apply orb_false_iff in H; destruct H
  | H : (_ && _)%bool = true |- _ => apply andb_true_iff in H; destruct H
  | H : (_ && _)%bool = false |- _ => apply andb_false_iff in H
  | H : Rleb _ _ = true |- _ => apply Rleb_true_iff in H
  | H : Rleb _ _ = false |- _ => apply Rleb_false_iff in H
  | H : Rltb _ _ = true |- _ => apply Rltb_true_iff in H
  | H : Rltb _ _ = false |- _ => apply Rltb_false_iff in H
  end.

Lemma nmul_PosInf (y : R) : 0 < y -> (PosInf * Num y)%num = PosInf.
Proof.
  intros H. cbn. unfold scaleInf.
  rewrite Reqb_false by lra. rewrite Rltb_true by exact H. reflexivity.
Qed.

Lemma ndiv_Num (x y : R) : y <> 0 -> (Num x / Num y)%num = Num (x / y).
Proof. intros H. cbn. rewrite Reqb_false by exact H. reflexivity. Qed.

(** Carries out the divisions of [number] whose divisor is a constant or
    the number [H] says is not zero. *)
Ltac finite_divisions H :=
  repeat (progress
    (repeat match goal with
            | |- context [Reqb ?a 0] =>
                rewrite (Reqb_false a 0)
                  by solve [exact H | unfold e18, e6; lra | lra]
            end;
     cbn [ndiv nmul nadd nsub nneg])).

(** Decides the comparisons of a goal whose operands are numerals. *)
Ltac rcmp :=
  repeat first
    [ rewrite Rltb_true by lra | rewrite Rltb_false by lra
    | rewrite Rleb_true by lra | rewrite Rleb_false by lra
    | rewrite Rgeb_true by lra | rewrite Rgeb_false by lra
    | rewrite Rgtb_true by lra | rewrite Rgtb_false by lra
    | rewrite Reqb_true by lra | rewrite Reqb_false by lra ].

Ltac run := repeat (cbn; unfold e6, e18, YEAR_SECONDS; rcmp).

Lemma outcome_bind_Ok {A B} (m : M A) (k : A -> M B) (b : B) :
  outcome (bind m k) = Ok b ->
  exists a, outcome m = Ok a /\ outcome (k a) = Ok b.
Proof.
  destruct m as [t [a | e]]; cbn.
  - destruct (k a) as [t' r] eqn:Hk. cbn. intros ->.
    exists a. rewrite Hk. split; reflexivity.
  - discriminate.
Qed.

Lemma outcome_bind_Throw {A B} (m : M A) (k : A -> M B) (e : exn) :
  outcome (bind m k) = Throw e ->
  outcome m = Throw e \/ exists a, outcome m = Ok a /\ outcome (k a) = Throw e.
Proof.
  destruct m as [t [a | e']]; cbn.
  - destruct (k a) as [t' r] eqn:Hk. cbn. intros ->.
    right. exists a. rewrite Hk. split; reflexivity.
  - intros H. left. injection H as ->. reflexivity.
Qed.

Lemma outcome_try_catch_Ok {A} (m : M A) (h : exn -> M A) (a : A) :
  outcome (try_catch m h) = Ok a ->
  outcome m = Ok a \/ exists e, outcome m = Throw e /\ outcome (h e) = Ok a.
Proof.
  destruct m as [t [a' | e]]; cbn.
  - intros H. left. exact H.
  - destruct (h e) as [t' r] eqn:Hh. cbn. intros ->.
    right. exists e. rewrite Hh. split; reflexivity.
Qed.


Lemma outcome_bind_of_Ok {A B} (m : M A) (k : A -> M B) (a : A) :
  outcome m = Ok a -> outcome (bind m k) = outcome (k a).
Proof.
  destruct m as [t r]. cbn. intros ->. destruct (k a). reflexivity.
Qed.

Lemma outcome_bind_of_Throw {A B} (m : M A) (k : A -> M B) (e : exn) :
  outcome m = Throw e -> outcome (bind m k) = Throw e.
Proof.
  destruct m as [t r]. cbn. intros ->. reflexivity.
Qed.

Lemma outcome_try_catch_Throw {A} (m : M A) (h : exn -> M A) (e : exn) :
  outcome (try_catch m h) = Throw e ->
  exists e0, outcome m = Throw e0 /\ outcome (h e0) = Throw e.
Proof.
  destruct m as [t [a | e0]]; cbn.
  - discriminate.
  - destruct (h e0) as [t' r] eqn:Hh. cbn. intros ->.
    exists e0. rewrite Hh. split; reflexivity.
Qed.

Lemma calls_bind {A B} (m : M A) (k : A -> M B) :
  calls (bind m k) =
  calls m ++ match outcome m with Ok a => calls (k a) | Throw _ => [] end.
Proof.
  destruct m as [t [a | e]]; cbn.
  - destruct (k a). reflexivity.
  - rewrite app_nil_r. reflexivity.
Qed.

Lemma calls_try_catch {A} (m : M A) (h : exn -> M A) :
  calls (try_catch m h) =
  calls m ++ match outcome m with Ok _ => [] | Throw e => calls (h e) end.
Proof.
  destruct m as [t [a | e]]; cbn.
  - rewrite app_nil_r. reflexivity.
  - destruct (h e). reflexivity.
Qed.

(** ** Input validation *)

Lemma validation_step (c : bool) (m : string) (rest : M unit) (V : Prop) :
  (c = true -> ~ V) ->
  (c = false ->
   (V /\ rest = ([], Ok tt)) \/
   (~ V /\ exists m', rest = ([], Throw (ValidationError m')))) ->
  (V /\ (if c then throw (ValidationError m) else rest) = ([], Ok tt)) \/
  (~ V /\ exists m', (if c then throw (ValidationError m) else rest)
                     = ([], Throw (ValidationError m'))).
Proof.
  intros Ht Hf. destruct c.
  - right. split; [apply Ht; reflexivity | eexists; reflexivity].
  - apply Hf. reflexivity.
Qed.

Section ValidationCases.

Context {fmt : NumberFormat}.

Lemma validateInputs_cases (params : Sdk.TargetPositionParams) :
  (validParams params /\ Sdk.validateInputs params = ([], Ok tt)) \/
  (~ validParams params /\
   exists m, Sdk.validateInputs params = ([], Throw (ValidationError m))).
Proof.
  unfold Sdk.validateInputs, validParams.
  apply validation_step.
  { intros Hc [Hv _]. rewrite Hv in Hc. discriminate. }
  intros H0. apply negb_false_iff in H0.
  apply validation_step; [intros Hc Hv; rbool; destruct Hc; rbool; lra |]. intros H1.
  apply validation_step; [intros Hc Hv; rbool; destruct Hc; rbool; lra |]. intros H2.
  apply validation_step.
  { intros Hc Hv. rbool. destruct (Sdk.longYes params); [lra | discriminate]. }
  intros H3.
  apply validation_step.
  { intros Hc Hv. rbool. destruct (Sdk.longYes params); [discriminate | lra]. }
  intros H4.
  apply validation_step; [intros Hc Hv; rbool; lra |]. intros H5.
  apply validation_step; [intros Hc Hv; rbool; lra |]. intros H6.
  apply validation_step; [intros Hc Hv; rbool; lra |]. intros H7.
  apply validation_step; [intros Hc Hv; rbool; lra |]. intros H8.
  apply validation_step; [intros Hc Hv; rbool; lra |]. intros H9.
  apply validation_step; [intros Hc Hv; rbool; destruct Hc; rbool; lra |]. intros H10.
  left. split; [| reflexivity].
  rbool. split; [exact H0 |].
  destruct (Sdk.longYes params); cbn in *.
  - destruct H3 as [H3 | H3]; [discriminate | rbool].
    repeat split; lra.
  - destruct H4 as [H4 | H4]; [discriminate | rbool].
    repeat split; lra.
Qed.

End ValidationCases.

Lemma scenario_params_valid (timeframeSeconds : R) :
  60 <= timeframeSeconds <= 365 * 24 * 3600 ->
  validParams (Scenario.params timeframeSeconds).
Proof.
  intros H. unfold validParams. cbn. repeat split; lra.
Qed.

(** ** Loop count of the parameter calculator *)

Lemma ln_lt_0 (x : R) : 0 < x < 1 -> ln x < 0.
Proof.
  intros [H0 H1]. rewrite <- ln_1. apply ln_increasing; assumption.
Qed.

(** On every admissible factor the quotient the SDK rounds up is negative,
    so its loop count is never positive. *)
Lemma Sdk_loopCount_nonpos (F : R) : 0 < F < 1 -> (Sdk.loopCount F <= 0)%Z.
Proof.
  intros HF. unfold Sdk.loopCount.
  assert (HlF : ln F < 0) by (apply ln_lt_0; exact HF).
  assert (Hl : ln (1 / 100) < 0) by (apply ln_lt_0; lra).
  assert (Hq : - ln (1 / 100) / ln F < 0).
  { unfold Rdiv. pose proof (Rinv_lt_0_compat _ HlF) as Hinv. nra. }
  pose proof (Zceil_bound (- ln (1 / 100) / ln F)) as [Hlo _].
  apply Z.lt_succ_r. apply lt_IZR. rewrite succ_IZR. lra.
Qed.

Lemma ln_le_mono (x y : R) : 0 < x -> x <= y -> ln x <= ln y.
Proof.
  intros Hx [Hlt | Heq].
  - left. apply ln_increasing; assumption.
  - subst. right. reflexivity.
Qed.

(** [ln eps / ln F] against an integer, through powers of [F]. *)
Lemma log_ratio_le (F eps : R) (n : nat) :
  0 < F < 1 -> 0 < eps -> F ^ n <= eps -> ln eps / ln F <= INR n.
Proof.
  intros HF Heps Hpow.
  assert (HlF : ln F < 0) by (apply ln_lt_0; exact HF).
  assert (Hln : INR n * ln F <= ln eps).
  { rewrite <- ln_pow by lra. apply ln_le_mono; [apply pow_lt; lra | exact Hpow]. }
  pose proof (Rinv_lt_0_compat _ HlF) as Hinv.
  assert (Hn : INR n = (INR n * ln F) / ln F) by (field; lra).
  rewrite Hn. unfold Rdiv. nra.
Qed.

Lemma log_ratio_gt (F eps : R) (n : nat) :
  0 < F < 1 -> 0 < eps -> eps < F ^ n -> INR n < ln eps / ln F.
Proof.
  intros HF Heps Hpow.
  assert (HlF : ln F < 0) by (apply ln_lt_0; exact HF).
  assert (Hln : ln eps < INR n * ln F).
  { rewrite <- ln_pow by lra. apply ln_increasing; assumption. }
  pose proof (Rinv_lt_0_compat _ HlF) as Hinv.
  assert (Hn : INR n = (INR n * ln F) / ln F) by (field; lra).
  rewrite Hn. unfold Rdiv. nra.
Qed.

Lemma log_ratio_lt (F eps : R) (n : nat) :
  0 < F < 1 -> 0 < eps -> F ^ n < eps -> ln eps / ln F < INR n.
Proof.
  intros HF Heps Hpow.
  assert (HlF : ln F < 0) by (apply ln_lt_0; exact HF).
  assert (Hln : INR n * ln F < ln eps).
  { rewrite <- ln_pow by lra. apply ln_increasing; [apply pow_lt; lra | exact Hpow]. }
  pose proof (Rinv_lt_0_compat _ HlF) as Hinv.
  assert (Hn : INR n = (INR n * ln F) / ln F) by (field; lra).
  rewrite Hn. unfold Rdiv. nra.
Qed.

(** The least [n] with [F ^ n <= eps] is the rounded-up logarithm ratio. *)
Lemma Zceil_log_ratio (F eps : R) (n : nat) :
  0 < F < 1 -> 0 < eps -> F ^ S n <= eps -> eps < F ^ n ->
  Zceil (ln eps / ln F) = Z.of_nat (S n).
Proof.
  intros HF Heps Hle Hlt.
  apply Zceil_eq.
  pose proof (log_ratio_le F eps (S n) HF Heps Hle) as H1.
  pose proof (log_ratio_gt F eps n HF Heps Hlt) as H2.
  rewrite <- INR_IZR_INZ. rewrite S_INR in *. lra.
Qed.

Lemma Sdk_loopCount_neg (F : R) :
  Sdk.loopCount F = (- Zfloor (ln (1 / 100) / ln F))%Z.
Proof.
  unfold Sdk.loopCount.
  replace (- ln (1 / 100) / ln F) with (- (ln (1 / 100) / ln F)) by (unfold Rdiv; ring).
  apply ZceilN.
Qed.

Lemma Sdk_loopCount_09 : Sdk.loopCount (9 / 10) = (-43)%Z.
Proof.
  rewrite Sdk_loopCount_neg.
  enough (H : Zfloor (ln (1 / 100) / ln (9 / 10)) = 43%Z) by (rewrite H; reflexivity).
  apply Zfloor_eq.
  assert (HF : 0 < 9 / 10 < 1) by lra.
  assert (Heps : 0 < 1 / 100) by lra.
  pose proof (log_ratio_lt (9 / 10) (1 / 100) 44 HF Heps) as H1.
  pose proof (log_ratio_gt (9 / 10) (1 / 100) 43 HF Heps) as H2.
  assert (H44 : (9 / 10) ^ 44 < 1 / 100) by (simpl; lra).
  assert (H43 : 1 / 100 < (9 / 10) ^ 43) by (simpl; lra).
  specialize (H1 H44). specialize (H2 H43).
  rewrite INR_IZR_INZ in H1, H2.
  change (Z.of_nat 44) with 44%Z in H1. change (Z.of_nat 43) with 43%Z in H2.
  lra.
Qed.

(** C1 (the code departs from the claim). At the quote F = 0.9 the parameter
    calculator of the auto-retry SDK returns the loop count -43: it rounds up
    [-ln(0.01) / ln(F)], the negation of the quotient [ln(0.01) / ln(F)]
    whose ceiling, 44, is the count the claim describes. *)
Theorem calculateLeverageParams_loops_at_F09 :
  exists lp,
    outcome (Sdk.calculateLeverageParams (fmt := Scenario.plainFormat)
               (Scenario.world 900000000000000000 50000000000000000 50000000000000000)
               (Scenario.params 3600)) = Ok lp
    /\ Sdk.lp_F lp = 9 / 10
    /\ Sdk.loops lp = (-43)%Z
    /\ SimulationValidation.loopsFor (1 / 100) (Sdk.lp_F lp) = 44%Z.
Proof.
  unfold Sdk.calculateLeverageParams. cbn. unfold e18. rcmp. cbn.
  eexists. split; [reflexivity |]. cbn.
  replace (900000000000000000 / 1000000000000000000) with (9 / 10) by lra.
  split; [reflexivity |]. split; [apply Sdk_loopCount_09 |].
  unfold SimulationValidation.loopsFor.
  apply (Zceil_log_ratio (9 / 10) (1 / 100) 43); try lra; simpl; lra.
Qed.

(** ** Convergence of the loop count *)

Lemma pow_le_of_log_ratio (F eps : R) (n : nat) :
  0 < F < 1 -> 0 < eps -> ln eps / ln F <= INR n -> F ^ n <= eps.
Proof.
  intros HF Heps Hn.
  assert (HlF : ln F < 0) by (apply ln_lt_0; exact HF).
  assert (Hln : ln (F ^ n) <= ln eps).
  { rewrite ln_pow by lra.
    assert (Hq : ln eps = (ln eps / ln F) * ln F) by (field; lra).
    rewrite Hq. nra. }
  destruct (Rle_or_lt (F ^ n) eps) as [Hle | Hgt]; [exact Hle |].
  pose proof (ln_increasing eps (F ^ n) Heps Hgt). lra.
Qed.

(** C9. For F and eps in (0,1), loops = ceil(ln eps / ln F) is at least 1 and
    the multiplier (1 - F^loops)/(1 - F) it achieves is at least
    (1 - eps) times the maximum leverage 1/(1 - F). *)
Theorem loop_count_reaches_threshold (F eps : R) :
  0 < F < 1 -> 0 < eps < 1 ->
  (1 <= SimulationValidation.loopsFor eps F)%Z /\
  SimulationValidation.actualMultiplier F (SimulationValidation.loopsFor eps F)
    >= (1 - eps) * SimulationValidation.maxLeverage F.
Proof.
  intros HF Heps.
  unfold SimulationValidation.actualMultiplier, SimulationValidation.maxLeverage,
    SimulationValidation.loopsFor.
  set (x := ln eps / ln F).
  assert (HlF : ln F < 0) by (apply ln_lt_0; exact HF).
  assert (Hle : ln eps < 0) by (apply ln_lt_0; exact Heps).
  assert (Hx : 0 < x).
  { unfold x, Rdiv. pose proof (Rinv_lt_0_compat _ HlF). nra. }
  pose proof (Zceil_bound x) as [_ Hub].
  assert (Hpos : (1 <= Zceil x)%Z).
  { apply Z.lt_pred_le. apply lt_IZR. simpl. lra. }
  split; [exact Hpos |].
  assert (Hnat : Zceil x = Z.of_nat (Z.to_nat (Zceil x))) by (rewrite Z2Nat.id; lia).
  rewrite Hnat, <- pow_powerRZ.
  assert (Hpow : F ^ Z.to_nat (Zceil x) <= eps).
  { apply pow_le_of_log_ratio; try lra.
    rewrite INR_IZR_INZ, <- Hnat. exact Hub. }
  assert (Hinv : 0 < / (1 - F)) by (apply Rinv_0_lt_compat; lra).
  unfold Rdiv. nra.
Qed.

Lemma loop_count_reaches_threshold_witness :
  0 < 9 / 10 < 1 /\ 0 < 1 / 10 < 1 /\
  (1 <= SimulationValidation.loopsFor (1 / 10) (9 / 10))%Z /\
  SimulationValidation.actualMultiplier (9 / 10)
    (SimulationValidation.loopsFor (1 / 10) (9 / 10))
    >= (1 - 1 / 10) * SimulationValidation.maxLeverage (9 / 10).
Proof.
  split; [lra |]. split; [lra |].
  apply (loop_count_reaches_threshold (9 / 10) (1 / 10)); lra.
Defined.

(** ** Metrics calculator *)

Section Metrics.

Context {fmt : NumberFormat}.

Lemma getLegs_length (w : Sdk.World) (ids : list Z) :
  forall ls, outcome (Sdk.getLegs w ids) = Ok ls -> length ls = length ids.
Proof.
  induction ids as [| id rest IH]; intros ls H.
  - cbn in H. injection H as <-. reflexivity.
  - cbn [Sdk.getLegs] in H. apply outcome_bind_Ok in H. destruct H as [leg [_ H]].
    apply outcome_bind_Ok in H. destruct H as [others [Ho H]].
    cbn in H. injection H as <-. cbn. rewrite (IH others Ho). reflexivity.
Qed.

Lemma calculatePositionMetrics_Ok {any : Type} (w : Sdk.World) (ids : list Z)
    (params : Sdk.TargetPositionParams) (totalTokens totalSlippage : R)
    (lp : any) (p : Sdk.LeveragePosition) :
  outcome (Sdk.calculatePositionMetrics w ids params totalTokens totalSlippage lp) = Ok p ->
  exists (ls : list Sdk.Leg) (feeData : option Z),
    outcome (Sdk.getLegs w ids) = Ok ls /\
    Sdk.getFeeData w = Ok feeData /\
    Sdk.legIds p = ids /\
    Sdk.totalExposure p = totalTokens / e6 /\
    Sdk.effectiveLeverage p
      = (Num totalTokens / Num (Sdk.capitalUSDC params * e6))%num /\
    Sdk.gas (Sdk.fees p) =
      IZR (match feeData with Some g => g | None => 0%Z end
           * (Z.of_nat (length ids) * 500000)) / e18 * 1 /\
    Sdk.polymarketSlippage (Sdk.fees p) = totalSlippage /\
    Sdk.total (Sdk.fees p) =
      (Num (Sdk.polymarketSlippage (Sdk.fees p)) + Sdk.protocolSenior (Sdk.fees p)
       + Sdk.protocolJunior (Sdk.fees p) + Num (Sdk.gas (Sdk.fees p)))%num.
Proof.
  unfold Sdk.calculatePositionMetrics. intros H.
  apply outcome_bind_Ok in H. destruct H as [ls [Hls H]].
  apply outcome_bind_Ok in H. destruct H as [feeData [Hfee H]].
  cbn in H, Hfee. injection H as <-. cbn.
  exists ls, feeData. repeat split; auto.
Qed.

(** The metrics calculator returns as soon as its reads succeed. *)
Lemma calculatePositionMetrics_returns {any : Type} (w : Sdk.World) (ids : list Z)
    (params : Sdk.TargetPositionParams) (totalTokens totalSlippage : R) (lp : any) :
  metricsReadable w ids ->
  exists p,
    outcome (Sdk.calculatePositionMetrics w ids params totalTokens totalSlippage lp)
    = Ok p.
Proof.
  intros [Hlegs [fd Hfd]].
  assert (Hget : exists ls, Sdk.getLegs w ids = ([], Ok ls)).
  { induction ids as [| id rest IH].
    - exists []. reflexivity.
    - destruct (Hlegs id (or_introl eq_refl)) as [leg Hleg].
      destruct IH as [ls Hls]; [intros i Hi; apply Hlegs; right; exact Hi |].
      exists (leg :: ls). cbn [Sdk.getLegs]. rewrite Hleg, Hls. reflexivity. }
  destruct Hget as [ls Hls].
  unfold Sdk.calculatePositionMetrics. rewrite Hls, Hfd. cbn. eexists. reflexivity.
Qed.

(** With no leg the averages are 0/0: the interest, the fee total and what
    is computed from them are NaN. *)
Lemma calculatePositionMetrics_no_legs {any : Type} (w : Sdk.World)
    (params : Sdk.TargetPositionParams) (totalTokens totalSlippage : R)
    (lp : any) (p : Sdk.LeveragePosition) :
  outcome (Sdk.calculatePositionMetrics w [] params totalTokens totalSlippage lp) = Ok p ->
  Sdk.protocolSenior (Sdk.fees p) = NaN /\
  Sdk.protocolJunior (Sdk.fees p) = NaN /\
  Sdk.total (Sdk.fees p) = NaN /\
  Sdk.atTarget (Sdk.pnl p) = NaN /\
  Sdk.breakeven (Sdk.pnl p) = NaN /\
  Sdk.maxProfit (Sdk.pnl p) = NaN /\
  Sdk.autoCloseTime p = NaN /\
  Sdk.pos_F p = NaN /\
  Sdk.pos_R p = NaN.
Proof.
  unfold Sdk.calculatePositionMetrics.
  destruct (Sdk.getFeeData w) as [feeData | e]; cbn; intros H; [| discriminate].
  injection H as <-. cbn. rewrite !Reqb_true by reflexivity. cbn.
  repeat split; reflexivity.
Qed.

(** With legs they are the finite numbers of the formulas. *)
Lemma calculatePositionMetrics_with_legs {any : Type} (w : Sdk.World) (ids : list Z)
    (params : Sdk.TargetPositionParams) (totalTokens totalSlippage : R)
    (lp : any) (p : Sdk.LeveragePosition) :
  ids <> [] ->
  outcome (Sdk.calculatePositionMetrics w ids params totalTokens totalSlippage lp) = Ok p ->
  exists (ls : list Sdk.Leg),
    outcome (Sdk.getLegs w ids) = Ok ls /\
    ls <> [] /\
    Sdk.protocolSenior (Sdk.fees p) = Num (interestOf Sdk.rS_e18 ls) /\
    Sdk.protocolJunior (Sdk.fees p) = Num (interestOf Sdk.rJ_e18 ls) /\
    Sdk.total (Sdk.fees p) =
      Num (totalSlippage + interestOf Sdk.rS_e18 ls + interestOf Sdk.rJ_e18 ls
           + Sdk.gas (Sdk.fees p)) /\
    Sdk.atTarget (Sdk.pnl p) =
      Num ((Sdk.targetPrice params - Sdk.currentPrice params) * totalTokens / e6
           - totalSlippage - interestOf Sdk.rS_e18 ls - interestOf Sdk.rJ_e18 ls
           - Sdk.gas (Sdk.fees p)) /\
    Sdk.maxProfit (Sdk.pnl p) =
      Num ((1 - Sdk.currentPrice params) * totalTokens / e6
           - (totalSlippage + interestOf Sdk.rS_e18 ls + interestOf Sdk.rJ_e18 ls
              + Sdk.gas (Sdk.fees p))) /\
    Sdk.autoCloseTime p = Num (Sdk.now w + mean Sdk.term ls * 1000) /\
    Sdk.pos_F p = Num (mean Sdk.F_e18 ls / e18) /\
    Sdk.pos_R p = Num (mean Sdk.rS_e18 ls / e18 + mean Sdk.rJ_e18 ls / e18) /\
    (totalTokens <> 0 ->
     Sdk.breakeven (Sdk.pnl p) =
       Num (Sdk.currentPrice params
            + (totalSlippage + interestOf Sdk.rS_e18 ls + interestOf Sdk.rJ_e18 ls
               + Sdk.gas (Sdk.fees p)) / (totalTokens / e6))).
Proof.
  intros Hne H.
  assert (Hlen : forall ls, outcome (Sdk.getLegs w ids) = Ok ls -> ls <> []).
  { intros ls Hls Hnil. apply getLegs_length in Hls. rewrite Hnil in Hls.
    destruct ids; [contradiction | discriminate]. }
  unfold Sdk.calculatePositionMetrics in H.
  apply outcome_bind_Ok in H. destruct H as [ls [Hls H]].
  apply outcome_bind_Ok in H. destruct H as [feeData [_ H]].
  cbn in H. injection H as <-.
  exists ls. split; [exact Hls |]. split; [exact (Hlen ls Hls) |].
  assert (Hcount : INR (length ls) <> 0).
  { apply not_0_INR. intros Hz. apply (Hlen ls Hls).
    destruct ls; [reflexivity | discriminate]. }
  unfold interestOf, mean. cbn.
  finite_divisions Hcount.
  repeat match goal with |- _ /\ _ => split end; try (f_equal; ring).
  intros Htokens.
  assert (Hexposure : totalTokens / e6 <> 0).
  { unfold e6. intros Hz. apply Htokens. lra. }
  finite_divisions Hexposure. reflexivity.
Qed.

Lemma simulatePosition_Ok (w : Sdk.World) (params : Sdk.TargetPositionParams)
    (p : Sdk.LeveragePosition) :
  outcome (Sdk.simulatePosition w params) = Ok p ->
  exists lp,
    outcome (Sdk.calculateLeverageParams w params) = Ok lp /\
    outcome (Sdk.calculatePositionMetrics w (Sdk.dummyLegIds (Sdk.loops lp)) params
               (fst (Sdk.simulateLoop (Z.to_nat (Sdk.loops lp)) (Sdk.lp_F lp)
                       (Sdk.currentPrice params) (0, Sdk.capitalUSDC params)) * e6)
               0 lp) = Ok p.
Proof.
  unfold Sdk.simulatePosition. intros H.
  apply outcome_bind_Ok in H. destruct H as [_ [_ H]].
  apply outcome_bind_Ok in H. destruct H as [_ [_ H]].
  apply outcome_try_catch_Ok in H. destruct H as [H | [e [_ H]]].
  - apply outcome_bind_Ok in H. destruct H as [lp [Hlp H]].
    exists lp. split; assumption.
  - destruct (isValidationError e); discriminate.
Qed.

Lemma runLoop_Ok (w : Sdk.World) (params : Sdk.TargetPositionParams)
    (lp : Sdk.LeverageParams) (p : Sdk.LeveragePosition) :
  outcome (Sdk.runLoop w params lp) = Ok p ->
  exists st,
    st <> [] /\
    exists totalTokens totalSlippage,
      outcome (Sdk.calculatePositionMetrics w st params totalTokens totalSlippage lp)
      = Ok p.
Proof.
  unfold Sdk.runLoop. intros H.
  apply outcome_bind_Ok in H. destruct H as [st [_ H]].
  destruct (length (Sdk.st_legIds st) =? 0)%nat eqn:Hlen; [discriminate |].
  exists (Sdk.st_legIds st). split.
  - intros Hnil. rewrite Hnil in Hlen. discriminate.
  - eauto.
Qed.

Lemma openTargetPosition_Ok (w : Sdk.World) (params : Sdk.TargetPositionParams)
    (p : Sdk.LeveragePosition) :
  outcome (Sdk.openTargetPosition w params) = Ok p ->
  exists lp, outcome (Sdk.runLoop w params lp) = Ok p.
Proof.
  unfold Sdk.openTargetPosition. intros H.
  apply outcome_bind_Ok in H. destruct H as [_ [_ H]].
  apply outcome_bind_Ok in H. destruct H as [_ [_ H]].
  apply outcome_try_catch_Ok in H. destruct H as [H | [e [_ H]]].
  - apply outcome_bind_Ok in H. destruct H as [_ [_ H]].
    apply outcome_bind_Ok in H. destruct H as [_ [_ H]].
    apply outcome_bind_Ok in H. destruct H as [lp [_ H]].
    apply outcome_bind_Ok in H. destruct H as [_ [_ H]].
    exists lp. exact H.
  - unfold Sdk.rethrowOrWrap in H.
    destruct (isValidationError e || isPolymarketError e || isProtocolError e);
      discriminate.
Qed.

Lemma calculateLeverageParams_loops_nonpos (w : Sdk.World)
    (params : Sdk.TargetPositionParams) (lp : Sdk.LeverageParams) :
  outcome (Sdk.calculateLeverageParams w params) = Ok lp ->
  0 < Sdk.lp_F lp < 1 /\ (Sdk.loops lp <= 0)%Z.
Proof.
  unfold Sdk.calculateLeverageParams. intros H.
  apply outcome_bind_Ok in H. destruct H as [q [_ H]]. cbv zeta in H.
  destruct (Rleb (IZR (Sdk.quote_F q) / e18) 0 || Rgeb (IZR (Sdk.quote_F q) / e18) 1)
    eqn:Hrange; [discriminate |].
  apply outcome_bind_Ok in H. destruct H as [tokenId [_ H]].
  cbn in H. injection H as <-. cbn. rbool.
  assert (HF : 0 < IZR (Sdk.quote_F q) / e18 < 1) by lra.
  split; [exact HF | apply Sdk_loopCount_nonpos; exact HF].
Qed.

Lemma dummyLegIds_nonpos (loops : Z) : (loops <= 0)%Z -> Sdk.dummyLegIds loops = [].
Proof.
  intros H. unfold Sdk.dummyLegIds. replace (Z.to_nat loops) with 0%nat by lia.
  reflexivity.
Qed.

(** Every position the simulation of the auto-retry SDK returns comes out of
    the metrics calculator run on no leg. *)
Lemma simulatePosition_no_legs (w : Sdk.World) (params : Sdk.TargetPositionParams)
    (p : Sdk.LeveragePosition) :
  outcome (Sdk.simulatePosition w params) = Ok p ->
  exists lp,
    outcome (Sdk.calculateLeverageParams w params) = Ok lp /\
    outcome (Sdk.calculatePositionMetrics w [] params (0 * e6) 0 lp) = Ok p.
Proof.
  intros H. apply simulatePosition_Ok in H. destruct H as [lp [Hlp H]].
  destruct (calculateLeverageParams_loops_nonpos w params lp Hlp) as [_ Hloops].
  rewrite (dummyLegIds_nonpos _ Hloops) in H.
  replace (Z.to_nat (Sdk.loops lp)) with 0%nat in H by lia.
  exists lp. split; [exact Hlp | exact H].
Qed.

End Metrics.

Lemma withinRelTol_refl (tol x : R) :
  0 <= tol -> withinRelTol tol (Num x) (Num x) = true.
Proof.
  intros Htol. unfold withinRelTol. cbn. apply Rleb_true.
  replace (x + - x) with 0 by ring. rewrite Rabs_R0.
  pose proof (Rabs_pos x). nra.
Qed.

(** C6 (the code departs from the claim). The averages of the metrics
    calculator divide by the number of legs.  Every position that
    [simulatePosition] of the auto-retry SDK returns is computed on no leg
    (its loop count is never positive), so its senior and junior interest
    and its fees.total are NaN, and fees.total is not within 1e-6 of the sum
    of the four components, which is NaN as well; the usage example is such
    a call.  On one leg or more the total is the sum of the components. *)
Theorem fees_total_is_NaN_without_legs :
  (forall (fmt : NumberFormat) (w : Sdk.World) (params : Sdk.TargetPositionParams)
          (p : Sdk.LeveragePosition),
     outcome (Sdk.simulatePosition w params) = Ok p ->
     Sdk.legIds p = [] /\
     Sdk.protocolSenior (Sdk.fees p) = NaN /\
     Sdk.protocolJunior (Sdk.fees p) = NaN /\
     Sdk.total (Sdk.fees p) = NaN /\
     sumOfComponents (Sdk.fees p) = NaN /\
     withinRelTol (1 / 1000000) (Sdk.total (Sdk.fees p)) (sumOfComponents (Sdk.fees p))
       = false) /\
  (exists p,
     outcome (Sdk.simulatePosition (fmt := Scenario.plainFormat)
                (Scenario.world 900000000000000000 50000000000000000 50000000000000000)
                (Scenario.params 3600)) = Ok p /\
     Sdk.total (Sdk.fees p) = NaN) /\
  (forall (fmt : NumberFormat) (any : Type) (w : Sdk.World) (ids : list Z)
          (params : Sdk.TargetPositionParams) (totalTokens totalSlippage : R)
          (lp : any) (p : Sdk.LeveragePosition),
     ids <> [] ->
     outcome (Sdk.calculatePositionMetrics w ids params totalTokens totalSlippage lp)
       = Ok p ->
     Sdk.total (Sdk.fees p) = sumOfComponents (Sdk.fees p) /\
     withinRelTol (1 / 1000000) (Sdk.total (Sdk.fees p)) (sumOfComponents (Sdk.fees p))
       = true).
Proof.
  assert (Hsim : forall (fmt : NumberFormat) (w : Sdk.World)
                        (params : Sdk.TargetPositionParams) (p : Sdk.LeveragePosition),
             outcome (Sdk.simulatePosition w params) = Ok p ->
             Sdk.legIds p = [] /\
             Sdk.protocolSenior (Sdk.fees p) = NaN /\
             Sdk.protocolJunior (Sdk.fees p) = NaN /\
             Sdk.total (Sdk.fees p) = NaN).
  { intros fmt w params p H.
    destruct (simulatePosition_no_legs w params p H) as [lp [_ Hm]].
    pose proof (calculatePositionMetrics_Ok _ _ _ _ _ _ _ Hm)
      as [ls [fd [_ [_ [Hids _]]]]].
    pose proof (calculatePositionMetrics_no_legs _ _ _ _ _ _ Hm)
      as [Hs [Hj [Ht _]]].
    repeat split; assumption. }
  split; [| split].
  - intros fmt w params p H. destruct (Hsim fmt w params p H) as [Hids [Hs [Hj Ht]]].
    unfold sumOfComponents, withinRelTol. rewrite Hs, Hj, Ht.
    split; [exact Hids |]. repeat split; reflexivity.
  - assert (Hp : exists p,
        outcome (Sdk.simulatePosition (fmt := Scenario.plainFormat)
                   (Scenario.world 900000000000000000 50000000000000000
                      50000000000000000)
                   (Scenario.params 3600)) = Ok p).
    { unfold Sdk.simulatePosition, Sdk.validateInputs, Sdk.calculateLeverageParams.
      run.
      assert (Hloops : (Sdk.loopCount (900000000000000000 / 1000000000000000000) <= 0)%Z)
        by (apply Sdk_loopCount_nonpos; lra).
      unfold Sdk.dummyLegIds.
      replace (Z.to_nat (Sdk.loopCount (900000000000000000 / 1000000000000000000)))
        with 0%nat by lia.
      run. eexists. reflexivity. }
    destruct Hp as [p Hp]. exists p. split; [exact Hp |].
    apply (Hsim Scenario.plainFormat _ _ p Hp).
  - intros fmt any w ids params totalTokens totalSlippage lp p Hne H.
    destruct (calculatePositionMetrics_with_legs w ids params totalTokens
                totalSlippage lp p Hne H)
      as [ls [_ [_ [Hs [Hj [Ht _]]]]]].
    pose proof (calculatePositionMetrics_Ok _ _ _ _ _ _ _ H)
      as [_ [_ [_ [_ [_ [_ [_ [_ [Hslip _]]]]]]]]].
    unfold sumOfComponents. rewrite Hs, Hj, Ht, Hslip. cbn [nadd].
    assert (Heq : totalSlippage + interestOf Sdk.rS_e18 ls + interestOf Sdk.rJ_e18 ls
                  + Sdk.gas (Sdk.fees p)
                  = interestOf Sdk.rS_e18 ls + interestOf Sdk.rJ_e18 ls + totalSlippage
                    + Sdk.gas (Sdk.fees p)) by ring.
    rewrite Heq. split; [reflexivity | apply withinRelTol_refl; lra].
Qed.


Lemma dummyLegIds_length (loops : Z) :
  length (Sdk.dummyLegIds loops) = Z.to_nat loops.
Proof. unfold Sdk.dummyLegIds. rewrite length_map, length_seq. reflexivity. Qed.

(** ** Simulated leg identifiers *)

Section SimulatedLegs.

Context {fmt : NumberFormat}.

(** What the simulation does on every input: the dummy identifiers count
    the loops when the count is not negative, and the gas estimate follows
    the number of identifiers, whether or not the capital loop halted
    early. *)
Lemma simulatePosition_legIds_length (w : Sdk.World)
    (params : Sdk.TargetPositionParams) (p : Sdk.LeveragePosition) :
  outcome (Sdk.simulatePosition w params) = Ok p ->
  exists lp feeData,
    outcome (Sdk.calculateLeverageParams w params) = Ok lp /\
    Sdk.getFeeData w = Ok feeData /\
    Z.of_nat (length (Sdk.legIds p)) = Z.max 0 (Sdk.loops lp) /\
    Sdk.gas (Sdk.fees p) =
      IZR (match feeData with Some g => g | None => 0%Z end
           * (Z.max 0 (Sdk.loops lp) * 500000)) / e18 * 1.
Proof.
  intros H. apply simulatePosition_Ok in H. destruct H as [lp [Hlp H]].
  apply calculatePositionMetrics_Ok in H.
  destruct H as [ls [fd [_ [Hfd [Hids [_ [_ [Hgas _]]]]]]]].
  exists lp, fd. repeat split; auto.
  - rewrite Hids, dummyLegIds_length. lia.
  - rewrite Hgas, dummyLegIds_length. do 4 f_equal. lia.
Qed.

End SimulatedLegs.

(** C10 (the code departs from the claim). At the quote F = 0.9 the
    simulation returns a position with no leg identifier and a zero gas fee,
    while the loop count it computed is -43: the list built by
    [Array.from({ length: loops })] cannot have a negative length, and the
    loop count carries the wrong sign. *)
Theorem simulatePosition_legIds_at_F09 :
  let w := Scenario.world 900000000000000000 50000000000000000 50000000000000000 in
  exists lp position,
    outcome (Sdk.calculateLeverageParams (fmt := Scenario.plainFormat) w
               (Scenario.params 3600)) = Ok lp /\
    outcome (Sdk.simulatePosition (fmt := Scenario.plainFormat) w
               (Scenario.params 3600)) = Ok position /\
    Sdk.loops lp = (-43)%Z /\
    Sdk.legIds position = [] /\
    Z.of_nat (length (Sdk.legIds position)) <> Sdk.loops lp /\
    Sdk.gas (Sdk.fees position) = 0 /\
    Sdk.gas (Sdk.fees position)
      <> IZR (Sdk.loops lp * 500000 * 30000000000) / e18.
Proof.
  intros w.
  unfold Sdk.simulatePosition, Sdk.validateInputs, Sdk.calculateLeverageParams.
  run.
  replace (900000000000000000 / 1000000000000000000) with (9 / 10) by lra.
  rewrite Sdk_loopCount_09. run.
  do 2 eexists. split; [reflexivity |]. split; [reflexivity |]. cbn.
  repeat split; try lra; try discriminate.
Qed.

(** A loop count that is not positive leaves no pass to run. *)
Lemma runLoop_no_pass {fmt : NumberFormat} (w : Sdk.World)
    (params : Sdk.TargetPositionParams) (lp0 : Sdk.LeverageParams) :
  (Sdk.loops lp0 <= 0)%Z ->
  Sdk.runLoop w params lp0 = ([], Throw (ProtocolError "Failed to open any position legs")).
Proof.
  intros H. unfold Sdk.runLoop.
  replace (Z.to_nat (Sdk.loops lp0)) with 0%nat by lia. reflexivity.
Qed.

(** ** Runway *)

Section Runway.

Context {fmt : NumberFormat}.

(** The runway check of the turnkey SDK: it rejects with a
    [ValidationError] from the safe runway on, accepts below it, and never
    rejects at a zero rate or at a zero factor. *)
Lemma Turnkey_validateRunway_rejects (F rate termSeconds : R) :
  F <> 0 -> rate <> 0 -> Turnkey.safeRunwayOf F rate <= termSeconds ->
  exists m, Turnkey.validateRunway F rate termSeconds = ([], Throw (ValidationError m)).
Proof.
  intros HF Hrate Hterm. unfold Turnkey.validateRunway, Turnkey.safeRunwayOf in *.
  rewrite Reqb_false by exact Hrate.
  rewrite ndiv_Num by (apply Rmult_integral_contrapositive_currified; assumption).
  cbn [nmul ngeb nleb]. rewrite Rleb_true by exact Hterm.
  eexists. reflexivity.
Qed.

Lemma Turnkey_validateRunway_accepts (F rate termSeconds : R) :
  termSeconds < Turnkey.safeRunwayOf F rate ->
  Turnkey.validateRunway F rate termSeconds = ([], Ok tt).
Proof.
  intros Hterm. unfold Turnkey.validateRunway, Turnkey.safeRunwayOf in *.
  destruct (Reqb rate 0) eqn:Hrate; [reflexivity |].
  destruct (Req_dec_T F 0) as [-> | HF].
  - cbn [ndiv]. rewrite Rmult_0_l, Rminus_0_r.
    rewrite (Reqb_true 0 0) by reflexivity.
    rewrite (Reqb_false 1 0) by lra. rewrite (Rltb_true 0 1) by lra.
    rewrite !nmul_PosInf by (unfold YEAR_SECONDS; lra). reflexivity.
  - assert (Hr : rate <> 0).
    { intros ->. rewrite Reqb_true in Hrate by reflexivity. discriminate. }
    rewrite ndiv_Num by (apply Rmult_integral_contrapositive_currified; assumption).
    cbn [nmul ngeb nleb]. rewrite Rleb_false by exact Hterm. reflexivity.
Qed.

Lemma Turnkey_validateRunway_zero_rate (F termSeconds : R) :
  Turnkey.validateRunway F 0 termSeconds = ([], Ok tt).
Proof.
  unfold Turnkey.validateRunway. rewrite Reqb_true by reflexivity. reflexivity.
Qed.

Lemma Turnkey_validateRunway_zero_factor (rate termSeconds : R) :
  Turnkey.validateRunway 0 rate termSeconds = ([], Ok tt).
Proof.
  unfold Turnkey.validateRunway.
  destruct (Reqb rate 0); [reflexivity |].
  cbn [ndiv]. rewrite Rmult_0_l, Rminus_0_r.
  rewrite (Reqb_true 0 0) by reflexivity.
  rewrite (Reqb_false 1 0) by lra. rewrite (Rltb_true 0 1) by lra.
  rewrite !nmul_PosInf by (unfold YEAR_SECONDS; lra). reflexivity.
Qed.

(** In the turnkey SDK the rejection reaches the caller of the parameter
    calculator before any call that changes state. *)
Lemma Turnkey_calculateLeverageParams_rejects (w : Sdk.World)
    (params : Sdk.TargetPositionParams) (q : Sdk.Quote) :
  Sdk.quote w 1%Z (Sdk.timeframeSeconds params)
    (Sdk.marketConditionId params) (Sdk.longYes params) = Ok q ->
  let F := IZR (Sdk.quote_F q) / e18 in
  let rate := (IZR (Sdk.quote_rS q) + IZR (Sdk.quote_rJ q)) / e18 in
  F <> 0 -> rate <> 0 ->
  Turnkey.safeRunwayOf F rate <= Sdk.timeframeSeconds params ->
  exists m,
    Turnkey.calculateLeverageParams w params = ([], Throw (ValidationError m)).
Proof.
  intros Hq F rate HF Hrate Hterm. unfold Turnkey.calculateLeverageParams.
  rewrite Hq.
  destruct (Turnkey_validateRunway_rejects F rate _ HF Hrate Hterm) as [m Hm].
  exists m. cbn. fold F rate. rewrite Hm. reflexivity.
Qed.

End Runway.

(** C3 (the code departs from the claim). With the quote F = 0.95 and
    R = 0.10 the safe runway is half a year; for a one-year term the runway
    check of the turnkey SDK rejects, but the parameter calculator of the
    auto-retry SDK has no runway check: it returns parameters,
    [simulatePosition] returns a position, and [openTargetPosition] gets as
    far as the market check and the approvals and fails on its empty loop,
    not on the runway. *)
Theorem runway_not_checked_at_F095 :
  let w := Scenario.world 950000000000000000 50000000000000000 50000000000000000 in
  let params := Scenario.params 31536000 in
  Turnkey.safeRunwayOf (95 / 100) (10 / 100) = 15768000 /\
  Turnkey.safeRunwayOf (95 / 100) (10 / 100) <= Sdk.timeframeSeconds params /\
  (exists m,
      outcome (Turnkey.validateRunway (fmt := Scenario.plainFormat)
                 (95 / 100) (10 / 100) (Sdk.timeframeSeconds params))
      = Throw (ValidationError m)) /\
  (exists lp,
      outcome (Sdk.calculateLeverageParams (fmt := Scenario.plainFormat) w params) = Ok lp
      /\ Sdk.lp_F lp = 95 / 100 /\ Sdk.lp_R lp = 10 / 100) /\
  (exists position,
      outcome (Sdk.simulatePosition (fmt := Scenario.plainFormat) w params) = Ok position) /\
  Sdk.openTargetPosition (fmt := Scenario.plainFormat) w params
    = ([VerifyMarket (Sdk.marketConditionId params); Approve; SetApprovalForAll],
       Throw (ProtocolError "Failed to open any position legs")).
Proof.
  intros w params.
  assert (Hsafe : Turnkey.safeRunwayOf (95 / 100) (10 / 100) = 15768000).
  { unfold Turnkey.safeRunwayOf, YEAR_SECONDS. field. }
  assert (Hloops : (Sdk.loopCount (950000000000000000 / 1000000000000000000) <= 0)%Z)
    by (apply Sdk_loopCount_nonpos; lra).
  split; [exact Hsafe |]. split; [rewrite Hsafe; cbn; lra |].
  split; [| split; [| split]].
  - destruct (Turnkey_validateRunway_rejects (fmt := Scenario.plainFormat)
                (95 / 100) (10 / 100) (Sdk.timeframeSeconds params)) as [m Hm].
    + lra.
    + lra.
    + rewrite Hsafe. cbn. lra.
    + exists m. rewrite Hm. reflexivity.
  - unfold Sdk.calculateLeverageParams. run.
    eexists. split; [reflexivity |]. cbn. split; lra.
  - unfold Sdk.simulatePosition, Sdk.validateInputs, Sdk.calculateLeverageParams.
    run.
    unfold Sdk.dummyLegIds.
    replace (Z.to_nat (Sdk.loopCount (950000000000000000 / 1000000000000000000)))
      with 0%nat by lia.
    run.
    eexists. reflexivity.
  - unfold Sdk.openTargetPosition, Sdk.validateInputs, Sdk.checkSufficientBalance,
      Sdk.calculateLeverageParams.
    run.
    rewrite runLoop_no_pass by exact Hloops. reflexivity.
Qed.

(** ** Simulated capital carry *)

Lemma Sdk_simulateLoop_S (n : nat) (F price : R) (st : R * R) :
  Sdk.simulateLoop (S n) F price st =
  if Rltb (snd st / price * F) 1
  then (fst st + snd st / price, snd st / price * F)
  else Sdk.simulateLoop n F price (fst st + snd st / price, snd st / price * F).
Proof. reflexivity. Qed.

Lemma Turnkey_simulateLoop_S (n : nat) (F price : R) (st : R * R) :
  Turnkey.simulateLoop (S n) F price st =
  if Rltb (snd st / price * F * price) 1
  then (fst st + snd st / price, snd st / price * F * price)
  else Turnkey.simulateLoop n F price
         (fst st + snd st / price, snd st / price * F * price).
Proof. reflexivity. Qed.

(** In both variants the token total never decreases. *)
Lemma Sdk_simulateLoop_total_monotone (n : nat) (F price : R) (st : R * R) :
  0 < price -> 0 <= F -> 0 <= snd st ->
  fst st <= fst (Sdk.simulateLoop n F price st).
Proof.
  intros Hp HF. revert st. induction n as [| n IH]; intros st Hrem.
  - simpl. lra.
  - rewrite Sdk_simulateLoop_S.
    assert (Htok : 0 <= snd st / price).
    { unfold Rdiv. pose proof (Rinv_0_lt_compat _ Hp). nra. }
    destruct (Rltb (snd st / price * F) 1).
    + simpl. lra.
    + eapply Rle_trans; [| apply IH]; simpl; nra.
Qed.

(** Both variants leave the loop at the first pass whose carried capital is
    below one dollar. *)
Lemma Sdk_simulateLoop_halts (n : nat) (F price : R) (st : R * R) :
  snd st / price * F < 1 ->
  Sdk.simulateLoop (S n) F price st = (fst st + snd st / price, snd st / price * F).
Proof.
  intros H. rewrite Sdk_simulateLoop_S. rewrite Rltb_true by exact H. reflexivity.
Qed.

(** The turnkey variant carries [F] times the capital forward, a strict
    decrease; the auto-retry variant carries [F / currentPrice] times it. *)
Lemma Turnkey_carry (F price remaining : R) :
  0 < price -> remaining / price * F * price = remaining * F.
Proof. intros Hp. field. lra. Qed.

Lemma Turnkey_simulateLoop_remaining_decreases (n : nat) (F price : R) (st : R * R) :
  0 < price -> 0 < F < 1 -> 0 < snd st ->
  snd (Turnkey.simulateLoop (S n) F price st) < snd st.
Proof.
  intros Hp HF. revert st. induction n as [| n IH]; intros st Hrem.
  - rewrite Turnkey_simulateLoop_S. rewrite Turnkey_carry by exact Hp.
    destruct (Rltb (snd st * F) 1); simpl; nra.
  - rewrite Turnkey_simulateLoop_S. rewrite Turnkey_carry by exact Hp.
    destruct (Rltb (snd st * F) 1).
    + simpl. nra.
    + eapply Rlt_trans; [apply IH |]; simpl; nra.
Qed.

(** *** Loop counts of the two capped classes *)

(** At F = 0.9 the argument [1 - maxLeverage * (1 - F)] of the logarithm is
    0 and the logarithm -Infinity: the count of the third class is the
    cap. *)
Lemma Capped_loopCount_at_F09 : Capped.loopCount (9 / 10) = Num 10.
Proof.
  unfold Capped.loopCount, Capped.leverageOf.
  rewrite ndiv_Num by lra. cbn [nmul nsub nadd nneg].
  replace (1 + - (1 / (1 - 9 / 10) * (1 - 9 / 10))) with 0 by lra.
  cbn [nlog]. rewrite (Reqb_true 0 0) by reflexivity.
  rewrite (Reqb_false (9 / 10) 0) by lra. rewrite (Rltb_false (9 / 10) 0) by lra.
  cbn [ndiv]. rewrite Rltb_true by (apply ln_lt_0; lra).
  reflexivity.
Qed.

Lemma Turnkey_loopCount_capped (F : R) :
  0 < F < 1 -> 1 / 10 < F ^ 9 -> Turnkey.loopCount F = 10%Z.
Proof.
  intros HF Hpow. unfold Turnkey.loopCount.
  pose proof (log_ratio_gt F (1 / 10) 9 HF ltac:(lra) Hpow) as Hgt.
  pose proof (Zceil_bound (ln (1 / 10) / ln F)) as [_ Hub].
  assert (H10 : (10 <= Zceil (ln (1 / 10) / ln F))%Z).
  { apply Z.lt_pred_le. apply lt_IZR. cbn in Hgt |- *. lra. }
  lia.
Qed.

Lemma passes_10 : passes (Num 10) = 10%nat /\ arrayLength (Num 10) = 10%nat.
Proof.
  unfold passes, arrayLength. rewrite (ZfloorZ 10).
  replace (Zceil 10) with 10%Z; [split; reflexivity |].
  symmetry. apply Zceil_eq. lra.
Qed.

(** *** The simulations on Scenario A *)

Lemma Sdk_simulateLoop_scenario_A :
  Sdk.simulateLoop 10 (9 / 10) (4 / 10) (0, 1000)
  = Sdk.simulateLoop 8 (9 / 10) (4 / 10) (8125, 10125 / 2) /\
  fst (Sdk.simulateLoop 10 (9 / 10) (4 / 10) (0, 1000)) = 435716978125 / 65536.
Proof.
  split.
  - rewrite 2 Sdk_simulateLoop_S. cbn [fst snd]. rcmp.
    f_equal. f_equal; lra.
  - cbn. rcmp. cbn. lra.
Qed.

Lemma Turnkey_simulateLoop_scenario_A :
  fst (Turnkey.simulateLoop 10 (9 / 10) (4 / 10) (0, 1000)) = 6513215599 / 400000.
Proof. cbn. rcmp. cbn. lra. Qed.

Section ScenarioA.

Let w := Scenario.world 900000000000000000 50000000000000000 50000000000000000.
Let params := Scenario.params 3600.

Lemma scenario_metrics_readable (ids : list Z) : metricsReadable w ids.
Proof.
  split.
  - intros id _. eexists. reflexivity.
  - eexists. reflexivity.
Qed.

Lemma Capped_scenario_parameters :
  Capped.calculateLeverageParams w params
  = ([], Ok {| Capped.lp_F := 900000000000000000 / e18;
               Capped.lp_R := (50000000000000000 + 50000000000000000) / e18;
               Capped.loops := Num 10;
               Capped.maxLeverage := Capped.leverageOf (900000000000000000 / e18);
               Capped.tokenId := "1001" |}).
Proof.
  unfold Capped.calculateLeverageParams. cbn.
  replace (900000000000000000 / e18) with (9 / 10) by (unfold e18; lra).
  rewrite Capped_loopCount_at_F09. reflexivity.
Qed.

Lemma Turnkey_scenario_parameters :
  Turnkey.calculateLeverageParams (fmt := Scenario.plainFormat) w params
  = ([], Ok {| Sdk.lp_F := 900000000000000000 / e18;
               Sdk.lp_R := (50000000000000000 + 50000000000000000) / e18;
               Sdk.loops := 10;
               Sdk.maxLeverage := 1 / (1 - 900000000000000000 / e18);
               Sdk.tokenId := "1001" |}).
Proof.
  unfold Turnkey.calculateLeverageParams. cbn [w Scenario.world Scenario.worldWith
    Sdk.quote call bind Sdk.quote_F Sdk.quote_rS Sdk.quote_rJ params Scenario.params
    Sdk.timeframeSeconds Sdk.longYes Sdk.marketConditionId].
  rewrite Turnkey_validateRunway_accepts
    by (unfold Turnkey.safeRunwayOf, YEAR_SECONDS, e18; lra).
  rewrite Turnkey_loopCount_capped by (unfold e18; simpl; lra).
  reflexivity.
Qed.

Lemma Capped_simulatePosition_scenario_A :
  exists p,
    outcome (Capped.simulatePosition (fmt := Scenario.plainFormat) w params) = Ok p /\
    length (Sdk.legIds p) = 10%nat /\
    Sdk.totalExposure p = 435716978125 / 65536 /\
    Sdk.effectiveLeverage p = Num (435716978125 / 65536000).
Proof.
  destruct Sdk_simulateLoop_scenario_A as [_ Htokens].
  destruct passes_10 as [Hpasses Hlength].
  unfold Capped.simulatePosition.
  assert (Hvalid : Sdk.validateInputs (fmt := Scenario.plainFormat) params = ([], Ok tt)).
  { unfold Sdk.validateInputs. run. reflexivity. }
  rewrite Hvalid, Capped_scenario_parameters.
  cbn [bind ret call Sdk.setupPolymarket w Scenario.world Scenario.worldWith
       Sdk.polymarketInitialized app Capped.loops Capped.lp_F try_catch].
  rewrite Hpasses, Hlength.
  replace (900000000000000000 / e18) with (9 / 10) by (unfold e18; lra).
  change (Sdk.currentPrice params) with (4 / 10).
  change (Sdk.capitalUSDC params) with 1000.
  destruct (calculatePositionMetrics_returns w (map Z.of_nat (seq 0 10)) params
              (fst (Sdk.simulateLoop 10 (9 / 10) (4 / 10) (0, 1000)) * e6) 0
              {| Capped.lp_F := 9 / 10;
                 Capped.lp_R := (50000000000000000 + 50000000000000000) / e18;
                 Capped.loops := Num 10;
                 Capped.maxLeverage := Capped.leverageOf (9 / 10);
                 Capped.tokenId := "1001" |}
              (scenario_metrics_readable _)) as [p Hp].
  exists p.
  pose proof (calculatePositionMetrics_Ok _ _ _ _ _ _ _ Hp)
    as [_ [_ [_ [_ [Hids [Hexposure [Hleverage _]]]]]]].
  split; [| split; [| split]].
  - destruct (Sdk.calculatePositionMetrics _ _ _ _ _ _) as [t r].
    cbn in Hp |- *. subst r. reflexivity.
  - rewrite Hids. reflexivity.
  - rewrite Hexposure, Htokens. unfold e6. field.
  - rewrite Hleverage, Htokens. change (Sdk.capitalUSDC params) with 1000.
    rewrite ndiv_Num by (unfold e6; lra). f_equal. unfold e6. field.
Qed.

Lemma Turnkey_simulatePosition_scenario_A :
  exists p,
    outcome (Turnkey.simulatePosition (fmt := Scenario.plainFormat) w params) = Ok p /\
    length (Sdk.legIds p) = 10%nat /\
    Sdk.totalExposure p = 6513215599 / 400000 /\
    Sdk.effectiveLeverage p = Num (6513215599 / 400000000).
Proof.
  pose proof Turnkey_simulateLoop_scenario_A as Htokens.
  unfold Turnkey.simulatePosition.
  assert (Hvalid : Sdk.validateInputs (fmt := Scenario.plainFormat) params = ([], Ok tt)).
  { unfold Sdk.validateInputs. run. reflexivity. }
  rewrite Hvalid, Turnkey_scenario_parameters.
  cbn [bind ret call app Sdk.loops Sdk.lp_F try_catch].
  change (Z.to_nat 10) with 10%nat.
  replace (900000000000000000 / e18) with (9 / 10) by (unfold e18; lra).
  change (Sdk.currentPrice params) with (4 / 10).
  change (Sdk.capitalUSDC params) with 1000.
  destruct (calculatePositionMetrics_returns w (Sdk.dummyLegIds 10) params
              (fst (Turnkey.simulateLoop 10 (9 / 10) (4 / 10) (0, 1000)) * e6) 0
              {| Sdk.lp_F := 9 / 10;
                 Sdk.lp_R := (50000000000000000 + 50000000000000000) / e18;
                 Sdk.loops := 10;
                 Sdk.maxLeverage := 1 / (1 - 9 / 10);
                 Sdk.tokenId := "1001" |}
              (scenario_metrics_readable _)) as [p Hp].
  exists p.
  pose proof (calculatePositionMetrics_Ok _ _ _ _ _ _ _ Hp)
    as [_ [_ [_ [_ [Hids [Hexposure [Hleverage _]]]]]]].
  split; [| split; [| split]].
  - destruct (Sdk.calculatePositionMetrics _ _ _ _ _ _) as [t r].
    cbn in Hp |- *. subst r. reflexivity.
  - rewrite Hids. reflexivity.
  - rewrite Hexposure, Htokens. unfold e6. field.
  - rewrite Hleverage, Htokens. change (Sdk.capitalUSDC params) with 1000.
    rewrite ndiv_Num by (unfold e6; lra). f_equal. unfold e6. field.
Qed.

Lemma Sdk_simulatePosition_scenario_A :
  exists p,
    outcome (Sdk.simulatePosition (fmt := Scenario.plainFormat) w params) = Ok p /\
    Sdk.legIds p = [] /\
    Sdk.totalExposure p = 0 /\
    Sdk.effectiveLeverage p = Num 0.
Proof.
  assert (Hp : exists p,
      outcome (Sdk.simulatePosition (fmt := Scenario.plainFormat) w params) = Ok p).
  { unfold Sdk.simulatePosition, Sdk.validateInputs, Sdk.calculateLeverageParams.
    run.
    assert (Hloops : (Sdk.loopCount (900000000000000000 / 1000000000000000000) <= 0)%Z)
      by (apply Sdk_loopCount_nonpos; lra).
    unfold Sdk.dummyLegIds.
    replace (Z.to_nat (Sdk.loopCount (900000000000000000 / 1000000000000000000)))
      with 0%nat by lia.
    run. eexists. reflexivity. }
  destruct Hp as [p Hp]. exists p. split; [exact Hp |].
  destruct (simulatePosition_no_legs w params p Hp) as [lp [_ Hm]].
  pose proof (calculatePositionMetrics_Ok _ _ _ _ _ _ _ Hm)
    as [_ [_ [_ [_ [Hids [Hexposure [Hleverage _]]]]]]].
  split; [exact Hids |]. split.
  - rewrite Hexposure. unfold e6. field.
  - rewrite Hleverage. change (Sdk.capitalUSDC params) with 1000.
    rewrite ndiv_Num by (unfold e6; lra). f_equal. unfold e6. field.
Qed.

End ScenarioA.

(** C4 (the code departs from the claim). The carry of the simulation loop
    of lines 1044-1055, [remainingUSDC = tokensThisLoop * F], is
    [remaining * F / currentPrice]: it grows whenever F exceeds the price.
    The third class has the same loop (lines 1907-1924) behind a loop count
    of 10: with the quote F = 0.9 and a price of 0.40 its [simulatePosition]
    carries 1000, then 2250, then 5062.5, and returns an exposure of about
    6,648,513 tokens on $1000, more than any decreasing carry could reach.
    In the auto-retry SDK the loop count is never positive, so the same loop
    makes no pass there and the claim holds for want of an iteration; the
    loop of the turnkey SDK (lines 205-213) multiplies by the price as well,
    and its carry decreases. *)
Theorem simulation_capital_grows_at_F09 :
  let w := Scenario.world 900000000000000000 50000000000000000 50000000000000000 in
  let params := Scenario.params 3600 in
  (exists lp,
     outcome (Capped.calculateLeverageParams w params)
       = Ok lp /\
     Capped.lp_F lp = 9 / 10 /\
     passes (Capped.loops lp) = 10%nat) /\
  Sdk.simulateLoop 1 (9 / 10) (4 / 10) (0, 1000) = (2500, 2250) /\
  Sdk.simulateLoop 2 (9 / 10) (4 / 10) (0, 1000) = (8125, 10125 / 2) /\
  Sdk.simulateLoop 10 (9 / 10) (4 / 10) (0, 1000)
    = Sdk.simulateLoop 8 (9 / 10) (4 / 10) (8125, 10125 / 2) /\
  1000 < 2250 < 10125 / 2 /\
  (exists p,
     outcome (Capped.simulatePosition (fmt := Scenario.plainFormat) w params) = Ok p /\
     Sdk.totalExposure p = 435716978125 / 65536 /\
     1000 / (4 / 10) / (1 - 9 / 10) < Sdk.totalExposure p) /\
  (forall F, 0 < F < 1 -> Z.to_nat (Sdk.loopCount F) = 0%nat) /\
  (forall (n : nat) (F price : R) (st : R * R),
     0 < price -> 0 < F < 1 -> 0 < snd st ->
     snd (Turnkey.simulateLoop (S n) F price st) < snd st).
Proof.
  intros w params.
  assert (H1 : Sdk.simulateLoop 1 (9 / 10) (4 / 10) (0, 1000) = (2500, 2250)).
  { cbn. rcmp. f_equal; lra. }
  assert (H2 : Sdk.simulateLoop 2 (9 / 10) (4 / 10) (0, 1000) = (8125, 10125 / 2)).
  { cbn. rcmp. f_equal; lra. }
  split; [| split; [exact H1 | split; [exact H2 | split; [| split; [| split; [| split]]]]]].
  - eexists. unfold w, params. rewrite Capped_scenario_parameters.
    split; [reflexivity |]. cbn [Capped.lp_F Capped.loops].
    split; [unfold e18; lra | exact (proj1 passes_10)].
  - exact (proj1 Sdk_simulateLoop_scenario_A).
  - lra.
  - destruct Capped_simulatePosition_scenario_A as [p [Hp [_ [Hexposure _]]]].
    exists p. split; [exact Hp |]. split; [exact Hexposure |].
    rewrite Hexposure. lra.
  - intros F HF. pose proof (Sdk_loopCount_nonpos F HF). lia.
  - intros n F price st. apply Turnkey_simulateLoop_remaining_decreases.
Qed.

(** C5 (the code departs from the claim). Scenario A (the quote F = 0.9,
    capitalUSDC = 1000, currentPrice = 0.40) on the [simulatePosition] of
    the three classes.  The auto-retry SDK, whose loop the claim cites,
    makes no pass (its loop count at F = 0.9 is -43) and returns no
    exposure and a leverage of 0.  The third class runs the same loop ten
    times and returns 435716978125/65536 tokens (about 6,648,513) and a
    leverage of about 6648.5.  The turnkey SDK makes ten passes and returns
    the 6513215599/400000 tokens (about 16,283) of the claim and of the
    validation script, but a leverage of tokens / capital, about 16.28,
    where the claim and the script have tokens * price / capital, about
    6.51. *)
Theorem simulatePosition_scenario_A :
  let w := Scenario.world 900000000000000000 50000000000000000 50000000000000000 in
  let params := Scenario.params 3600 in
  (exists p,
     outcome (Sdk.simulatePosition (fmt := Scenario.plainFormat) w params) = Ok p /\
     Sdk.legIds p = [] /\
     Sdk.totalExposure p = 0 /\
     Sdk.effectiveLeverage p = Num 0) /\
  (exists p,
     outcome (Capped.simulatePosition (fmt := Scenario.plainFormat) w params) = Ok p /\
     length (Sdk.legIds p) = 10%nat /\
     Sdk.totalExposure p = 435716978125 / 65536 /\
     6648513 < Sdk.totalExposure p /\
     Sdk.effectiveLeverage p = Num (435716978125 / 65536000) /\
     6648 < 435716978125 / 65536000) /\
  (exists p,
     outcome (Turnkey.simulatePosition (fmt := Scenario.plainFormat) w params) = Ok p /\
     length (Sdk.legIds p) = 10%nat /\
     Sdk.totalExposure p = 6513215599 / 400000 /\
     16283 < Sdk.totalExposure p < 16284 /\
     Sdk.effectiveLeverage p = Num (6513215599 / 400000000) /\
     16 < 6513215599 / 400000000) /\
  SimulationValidation.expectedTokens 1000 (4 / 10) (9 / 10) 10
    = 6513215599 / 400000 /\
  SimulationValidation.leverage
    (SimulationValidation.expectedTokens 1000 (4 / 10) (9 / 10) 10) (4 / 10) 1000
    = 6513215599 / 1000000000.
Proof.
  intros w params. split; [| split; [| split; [| split]]].
  - exact Sdk_simulatePosition_scenario_A.
  - destruct Capped_simulatePosition_scenario_A as [p [Hp [Hlen [Hexposure Hleverage]]]].
    exists p. rewrite Hexposure.
    repeat split; try assumption; lra.
  - destruct Turnkey_simulatePosition_scenario_A as [p [Hp [Hlen [Hexposure Hleverage]]]].
    exists p. rewrite Hexposure.
    repeat split; try assumption; lra.
  - unfold SimulationValidation.expectedTokens, SimulationValidation.multiplier.
    simpl. field.
  - unfold SimulationValidation.leverage, SimulationValidation.expectedTokens,
      SimulationValidation.multiplier.
    simpl. field.
Qed.

(** ** Position closer *)

Lemma closeLoop_closed (chain : nat -> Sdk.LegClose) (i : nat) (legId : Z)
    (rest : list Z) (total : R) (b a : Z) :
  Sdk.balanceBefore (chain i) = Ok b ->
  Sdk.close_tx (chain i) = Ok tt ->
  Sdk.balanceAfter (chain i) = Ok a ->
  Sdk.closeLoop chain i (legId :: rest) total =
  logged [CloseLeg legId] (Sdk.closeLoop chain (S i) rest (total + IZR (a - b))).
Proof.
  intros Hb Hc Ha. cbn. rewrite Hb, Hc, Ha. cbn.
  destruct (Sdk.closeLoop chain (S i) rest (total + IZR (a - b))). reflexivity.
Qed.

Lemma closeLoop_close_fails (chain : nat -> Sdk.LegClose) (i : nat) (legId : Z)
    (rest : list Z) (total : R) (b : Z) (e : exn) :
  Sdk.balanceBefore (chain i) = Ok b ->
  Sdk.close_tx (chain i) = Throw e ->
  Sdk.closeLoop chain i (legId :: rest) total = ([CloseLeg legId], Throw e).
Proof.
  intros Hb Hc. cbn. rewrite Hb, Hc. reflexivity.
Qed.

(** The legs are closed in input order; the first close that fails ends the
    call with the error of the protocol call as it was thrown, and the
    later legs are not attempted. *)
Lemma closeLoop_first_failure (chain : nat -> Sdk.LegClose) (legIds : list Z)
    (k : nat) (e : exn) :
  forall (i : nat) (total : R) (b : Z),
  (forall j, (j < k)%nat ->
     exists b a, Sdk.balanceBefore (chain (i + j)%nat) = Ok b /\
                 Sdk.close_tx (chain (i + j)%nat) = Ok tt /\
                 Sdk.balanceAfter (chain (i + j)%nat) = Ok a) ->
  (k < length legIds)%nat ->
  Sdk.balanceBefore (chain (i + k)%nat) = Ok b ->
  Sdk.close_tx (chain (i + k)%nat) = Throw e ->
  Sdk.closeLoop chain i legIds total =
  (map CloseLeg (firstn (S k) legIds), Throw e).
Proof.
  revert legIds. induction k as [| k IH]; intros legIds i total b Hprev Hlen Hb Hc.
  - destruct legIds as [| legId rest]; [simpl in Hlen; lia |].
    rewrite Nat.add_0_r in Hb, Hc.
    rewrite (closeLoop_close_fails chain i legId rest total b e Hb Hc).
    reflexivity.
  - destruct legIds as [| legId rest]; [simpl in Hlen; lia |].
    destruct (Hprev 0%nat ltac:(lia)) as [b0 [a0 [Hb0 [Hc0 Ha0]]]].
    rewrite Nat.add_0_r in Hb0, Hc0, Ha0.
    rewrite (closeLoop_closed chain i legId rest total b0 a0 Hb0 Hc0 Ha0).
    rewrite (IH rest (S i) (total + IZR (a0 - b0)) b).
    + reflexivity.
    + intros j Hj. destruct (Hprev (S j) ltac:(lia)) as [b1 [a1 H1]].
      exists b1, a1. replace (S i + j)%nat with (i + S j)%nat by lia. exact H1.
    + simpl in Hlen. lia.
    + replace (S i + k)%nat with (i + S k)%nat by lia. exact Hb.
    + replace (S i + k)%nat with (i + S k)%nat by lia. exact Hc.
Qed.

Lemma closePosition_first_failure (chain : nat -> Sdk.LegClose) (legIds : list Z)
    (k : nat) (b : Z) (e : exn) :
  (forall j, (j < k)%nat ->
     exists b a, Sdk.balanceBefore (chain j) = Ok b /\
                 Sdk.close_tx (chain j) = Ok tt /\
                 Sdk.balanceAfter (chain j) = Ok a) ->
  (k < length legIds)%nat ->
  Sdk.balanceBefore (chain k) = Ok b ->
  Sdk.close_tx (chain k) = Throw e ->
  Sdk.closePosition chain legIds = (map CloseLeg (firstn (S k) legIds), Throw e).
Proof.
  intros Hprev Hlen Hb Hc. unfold Sdk.closePosition.
  rewrite (closeLoop_first_failure chain legIds k e 0%nat 0 b); auto.
Qed.

(** When every close succeeds the result is the sum of the balance
    differences, in millionths, divided by 1e6. *)
Lemma closeLoop_all_closed (chain : nat -> Sdk.LegClose) (legIds : list Z) :
  forall (i : nat) (total : R),
  (forall j, (j < length legIds)%nat ->
     exists b a, Sdk.balanceBefore (chain (i + j)%nat) = Ok b /\
                 Sdk.close_tx (chain (i + j)%nat) = Ok tt /\
                 Sdk.balanceAfter (chain (i + j)%nat) = Ok a) ->
  exists deltas : list Z,
    length deltas = length legIds /\
    (forall j b a, (j < length legIds)%nat ->
       Sdk.balanceBefore (chain (i + j)%nat) = Ok b ->
       Sdk.balanceAfter (chain (i + j)%nat) = Ok a ->
       nth j deltas 0%Z = (a - b)%Z) /\
    Sdk.closeLoop chain i legIds total =
    (map CloseLeg legIds, Ok (fold_left (fun acc d => acc + IZR d) deltas total)).
Proof.
  induction legIds as [| legId rest IH]; intros i total Hall.
  - exists []. repeat split. intros j b a Hj. simpl in Hj. lia.
  - destruct (Hall 0%nat ltac:(simpl; lia)) as [b0 [a0 [Hb0 [Hc0 Ha0]]]].
    rewrite Nat.add_0_r in Hb0, Hc0, Ha0.
    destruct (IH (S i) (total + IZR (a0 - b0))) as [deltas [Hlen [Hnth Hrun]]].
    { intros j Hj. destruct (Hall (S j) ltac:(simpl; lia)) as [b1 [a1 H1]].
      exists b1, a1. replace (S i + j)%nat with (i + S j)%nat by lia. exact H1. }
    exists ((a0 - b0)%Z :: deltas). split; [simpl; lia |]. split.
    + intros j b a Hj Hb Ha. destruct j as [| j].
      * rewrite Nat.add_0_r in Hb, Ha. rewrite Hb0 in Hb. rewrite Ha0 in Ha.
        injection Hb as <-. injection Ha as <-. reflexivity.
      * simpl. apply Hnth.
        -- simpl in Hj. lia.
        -- replace (S i + j)%nat with (i + S j)%nat by lia. exact Hb.
        -- replace (S i + j)%nat with (i + S j)%nat by lia. exact Ha.
    + rewrite (closeLoop_closed chain i legId rest total b0 a0 Hb0 Hc0 Ha0).
      rewrite Hrun. reflexivity.
Qed.

(** X23. When every balance read and every close succeeds, [closePosition]
    closes the legs in the order given, one call each, and returns the sum
    of the balance differences around the closes, divided by 1e6. *)
Lemma closePosition_all_closed (chain : nat -> Sdk.LegClose) (legIds : list Z) :
  (forall j, (j < length legIds)%nat ->
     exists b a, Sdk.balanceBefore (chain j) = Ok b /\
                 Sdk.close_tx (chain j) = Ok tt /\
                 Sdk.balanceAfter (chain j) = Ok a) ->
  exists deltas : list Z,
    length deltas = length legIds /\
    (forall j b a, (j < length legIds)%nat ->
       Sdk.balanceBefore (chain j) = Ok b ->
       Sdk.balanceAfter (chain j) = Ok a ->
       nth j deltas 0%Z = (a - b)%Z) /\
    Sdk.closePosition chain legIds =
    (map CloseLeg legIds, Ok (fold_left (fun acc d => acc + IZR d) deltas 0 / e6)).
Proof.
  intros Hall.
  destruct (closeLoop_all_closed chain legIds 0%nat 0 Hall) as [deltas [Hlen [Hnth Hrun]]].
  exists deltas. split; [exact Hlen |]. split; [exact Hnth |].
  unfold Sdk.closePosition. rewrite Hrun. cbn. rewrite app_nil_r. reflexivity.
Qed.

(** C8 (the code departs from the claim). Closing legs 7 and 8 when the
    protocol call for leg 7 reverts: one close is attempted, leg 8 is not,
    and the caller receives the revert as it was thrown, an error that is not
    a [ProtocolError]. *)
Theorem closePosition_error_not_wrapped :
  let failing := {| Sdk.balanceBefore := Ok 100000000%Z;
                    Sdk.close_tx := Throw (Error "execution reverted");
                    Sdk.balanceAfter := Ok 100000000%Z |} in
  Sdk.closePosition (fun _ => failing) [7%Z; 8%Z]
    = ([CloseLeg 7], Throw (Error "execution reverted")) /\
  isProtocolError (Error "execution reverted") = false.
Proof.
  intros failing. split; [| reflexivity].
  apply (closePosition_first_failure (fun _ => failing) [7%Z; 8%Z] 0 100000000%Z).
  - intros j Hj. lia.
  - simpl. lia.
  - reflexivity.
  - reflexivity.
Qed.

(** ** Order executor *)

Lemma includes_prefix (s p : string) : String.prefix p s = true -> includes s p = true.
Proof.
  intros H. destruct s; cbn [includes]; rewrite H; reflexivity.
Qed.

Lemma prefix_append (p s : string) : String.prefix p (p ++ s)%string = true.
Proof.
  induction p as [| c p IH]; simpl.
  - destruct s; reflexivity.
  - destruct (Ascii.ascii_dec c c) as [_ | Hneq]; [exact IH | contradiction].
Qed.

Lemma asPolymarketError_is (e : exn) :
  isPolymarketError (Sdk.asPolymarketError e) = true.
Proof. destruct e; reflexivity. Qed.

Section OrderExecutor.

Context {fmt : NumberFormat}.

Variable venue : nat -> Sdk.Attempt.
Variable tokenId : string.
Variables usdcAmount maxSlippageBps : R.
Variable orderType : Sdk.OrderKind.
Variable maxRetries : Z.
Variable retryDelayMs : R.

Let attempt := attemptAt venue tokenId usdcAmount maxSlippageBps orderType.
Let loop := Sdk.retryLoop venue tokenId usdcAmount maxSlippageBps orderType
              maxRetries retryDelayMs.

(** One pass of the [for], by the outcome of its attempt. *)
Lemma retryLoop_filled (n i : nat) (lastError : option exn) (b : Sdk.BuyResult) :
  outcome (attempt i) = Ok b ->
  loop (S n) i lastError = (calls (attempt i), Ok b).
Proof.
  unfold loop, attempt, attemptAt. cbn [Sdk.retryLoop].
  destruct (Sdk.attemptOrder (venue i) tokenId usdcAmount maxSlippageBps orderType)
    as [t r]. cbn. intros ->. reflexivity.
Qed.

Lemma retryLoop_non_retryable (n i : nat) (lastError : option exn) (e : exn) :
  outcome (attempt i) = Throw e ->
  Sdk.nonRetryable (Sdk.asPolymarketError e) = true ->
  loop (S n) i lastError = (calls (attempt i), Throw (Sdk.asPolymarketError e)).
Proof.
  unfold loop, attempt, attemptAt. cbn [Sdk.retryLoop].
  destruct (Sdk.attemptOrder (venue i) tokenId usdcAmount maxSlippageBps orderType)
    as [t r]. cbn. intros -> Hnr. rewrite Hnr. cbn. rewrite app_nil_r. reflexivity.
Qed.

Lemma retryLoop_retry (n i : nat) (lastError : option exn) (e : exn) :
  outcome (attempt i) = Throw e ->
  Sdk.nonRetryable (Sdk.asPolymarketError e) = false ->
  (Z.of_nat i < maxRetries)%Z ->
  loop (S n) i lastError =
  logged (calls (attempt i) ++ [Sleep (retryDelayMs * (3 / 2) ^ i)])
         (loop n (S i) (Some (Sdk.asPolymarketError e))).
Proof.
  unfold loop, attempt, attemptAt. cbn [Sdk.retryLoop].
  destruct (Sdk.attemptOrder (venue i) tokenId usdcAmount maxSlippageBps orderType)
    as [t r]. cbn. intros -> Hnr Hlt. rewrite Hnr.
  apply Z.ltb_lt in Hlt. rewrite Hlt. cbn.
  destruct (Sdk.retryLoop venue tokenId usdcAmount maxSlippageBps orderType
              maxRetries retryDelayMs n (S i) (Some (Sdk.asPolymarketError e)))
    as [t' r']. unfold logged. cbn. rewrite <- app_assoc. reflexivity.
Qed.

Lemma retryLoop_exhausted (i : nat) (lastError : option exn) (e : exn) :
  outcome (attempt i) = Throw e ->
  Sdk.nonRetryable (Sdk.asPolymarketError e) = false ->
  (maxRetries <= Z.of_nat i)%Z ->
  loop 1 i lastError = (calls (attempt i), Throw (Sdk.asPolymarketError e)).
Proof.
  unfold loop, attempt, attemptAt. cbn [Sdk.retryLoop].
  destruct (Sdk.attemptOrder (venue i) tokenId usdcAmount maxSlippageBps orderType)
    as [t r]. cbn. intros -> Hnr Hge. rewrite Hnr.
  apply Z.ltb_ge in Hge. rewrite Hge. cbn. rewrite app_nil_r. reflexivity.
Qed.

(** The whole [for]: [a] retried attempts, each followed by its backoff
    sleep, then the attempt that ends the call. *)
Lemma retryLoop_run (a : nat) :
  forall (n first : nat) (lastError : option exn),
  (a < n)%nat ->
  (forall i, (i < a)%nat ->
     retryableFailure (attempt (first + i)%nat) /\
     (Z.of_nat (first + i) < maxRetries)%Z) ->
  (succeeded (attempt (first + a)%nat) \/
   nonRetryableFailure (attempt (first + a)%nat) \/
   (n = S a /\ (maxRetries <= Z.of_nat (first + a))%Z)) ->
  loop n first lastError =
  (retriedCalls attempt retryDelayMs first a ++ calls (attempt (first + a)%nat),
   surfaced (outcome (attempt (first + a)%nat))).
Proof.
  induction a as [| a IH]; intros n first lastError Hn Hretry Hend.
  - destruct n as [| n]; [lia |]. rewrite Nat.add_0_r in *.
    unfold retriedCalls. simpl.
    destruct (outcome (attempt first)) as [b | e] eqn:Hout.
    + apply retryLoop_filled. exact Hout.
    + simpl. destruct (Sdk.nonRetryable (Sdk.asPolymarketError e)) eqn:Hnr.
      * apply retryLoop_non_retryable; assumption.
      * destruct Hend as [[b Hb] | [[e' [He' Hnr']] | [Hn1 Hmax]]].
        -- rewrite Hb in Hout. discriminate.
        -- rewrite He' in Hout. injection Hout as ->. congruence.
        -- injection Hn1 as ->. apply retryLoop_exhausted; assumption.
  - destruct n as [| n]; [lia |].
    destruct (Hretry 0%nat ltac:(lia)) as [[e [He Hnr]] Hlt].
    rewrite Nat.add_0_r in He, Hlt.
    rewrite (retryLoop_retry n first lastError e He Hnr Hlt).
    rewrite (IH n (S first) (Some (Sdk.asPolymarketError e))).
    + unfold logged, retriedCalls. cbn [fst snd seq flat_map].
      replace (S first + a)%nat with (first + S a)%nat by lia.
      rewrite <- !app_assoc. reflexivity.
    + lia.
    + intros i Hi. replace (S first + i)%nat with (first + S i)%nat by lia.
      apply Hretry. lia.
    + replace (S first + a)%nat with (first + S a)%nat by lia.
      destruct Hend as [H | [H | [H1 H2]]];
        [auto | auto | right; right; split; [lia | exact H2]].
Qed.

(** Every error that leaves the order executor is a [PolymarketError]. *)
Lemma retryLoop_throws_PolymarketError (n : nat) :
  forall (first : nat) (lastError : option exn) (e : exn),
  (forall e0, lastError = Some e0 -> isPolymarketError e0 = true) ->
  outcome (loop n first lastError) = Throw e ->
  isPolymarketError e = true.
Proof.
  induction n as [| n IH]; intros first lastError e Hlast H.
  - unfold loop in H. cbn in H. destruct lastError as [e0 |].
    + injection H as <-. apply Hlast. reflexivity.
    + injection H as <-. reflexivity.
  - unfold loop in H. cbn [Sdk.retryLoop] in H.
    apply outcome_try_catch_Throw in H. destruct H as [e0 [_ H]].
    destruct (Sdk.nonRetryable (Sdk.asPolymarketError e0)).
    + cbn in H. injection H as <-. apply asPolymarketError_is.
    + apply outcome_bind_Throw in H. destruct H as [H | [u [_ H]]].
      * destruct (Z.of_nat first <? maxRetries)%Z; discriminate.
      * eapply IH; [| exact H].
        intros e1 He1. injection He1 as <-. apply asPolymarketError_is.
Qed.

End OrderExecutor.

Section OrderExecutorPolicy.

Context {fmt : NumberFormat}.

Lemma attemptOrder_no_liquidity (att : Sdk.Attempt) (tokenId : string)
    (usdcAmount maxSlippageBps : R) (orderType : Sdk.OrderKind) :
  Sdk.getOrderBook att = Ok None \/ Sdk.getOrderBook att = Ok (Some []) ->
  Sdk.attemptOrder att tokenId usdcAmount maxSlippageBps orderType =
    ([], Throw (PolymarketError ("No liquidity available for token " ++ tokenId)%string))
  /\ nonRetryableFailure
       (Sdk.attemptOrder att tokenId usdcAmount maxSlippageBps orderType).
Proof.
  intros Hbook.
  assert (Heq : Sdk.attemptOrder att tokenId usdcAmount maxSlippageBps orderType =
    ([], Throw (PolymarketError ("No liquidity available for token " ++ tokenId)%string))).
  { unfold Sdk.attemptOrder. destruct Hbook as [-> | ->]; reflexivity. }
  split; [exact Heq |].
  eexists. rewrite Heq. split; [reflexivity |].
  unfold Sdk.nonRetryable. cbn [Sdk.asPolymarketError isPolymarketError message].
  rewrite (includes_prefix _ "No liquidity") by reflexivity. reflexivity.
Qed.

Lemma attemptOrder_invalid_price (att : Sdk.Attempt) (tokenId : string)
    (usdcAmount maxSlippageBps : R) (orderType : Sdk.OrderKind)
    (best : Sdk.Ask) (rest : list Sdk.Ask) :
  Sdk.getOrderBook att = Ok (Some (best :: rest)) ->
  Sdk.price best <= 0 \/ 1 <= Sdk.price best ->
  Sdk.attemptOrder att tokenId usdcAmount maxSlippageBps orderType =
    ([], Throw (PolymarketError
                  ("Invalid orderbook price: " ++ numberToString (Sdk.price best))%string))
  /\ nonRetryableFailure
       (Sdk.attemptOrder att tokenId usdcAmount maxSlippageBps orderType).
Proof.
  intros Hbook Hprice.
  assert (Heq : Sdk.attemptOrder att tokenId usdcAmount maxSlippageBps orderType =
    ([], Throw (PolymarketError
                  ("Invalid orderbook price: " ++ numberToString (Sdk.price best))%string))).
  { unfold Sdk.attemptOrder. rewrite Hbook. cbn [bind call].
    assert (Hb : Rleb (Sdk.price best) 0 || Rgeb (Sdk.price best) 1 = true).
    { destruct Hprice as [H | H].
      - rewrite Rleb_true by exact H. reflexivity.
      - rewrite (Rgeb_true _ _ H). apply orb_true_r. }
    rewrite Hb. reflexivity. }
  split; [exact Heq |].
  eexists. rewrite Heq. split; [reflexivity |].
  unfold Sdk.nonRetryable. cbn [Sdk.asPolymarketError isPolymarketError message].
  rewrite (includes_prefix _ "Invalid") by reflexivity. apply orb_true_r.
Qed.

(** C7 (amended). A failed attempt whose error message, once wrapped as a
    [PolymarketError], contains "No liquidity" or "Invalid" ends the call at
    once with that error: no further attempt and no backoff sleep follow,
    whatever budget remains; the no-liquidity and invalid-price failures are
    of this kind.  A failed attempt whose message contains neither is
    followed by a sleep of retryDelayMs * 1.5^attempt and a new attempt, up
    to maxRetries additional attempts; after the last one the call fails
    with its error and no sleep. *)
Theorem buyTokensPolymarket_retry_policy (venue : nat -> Sdk.Attempt)
    (tokenId : string) (usdcAmount maxSlippageBps : R)
    (orderType : Sdk.OrderKind) (maxRetries : Z) (retryDelayMs : R) (a : nat) :
  let attempt := attemptAt venue tokenId usdcAmount maxSlippageBps orderType in
  (Z.of_nat a <= maxRetries)%Z ->
  (forall i, (i < a)%nat -> retryableFailure (attempt i)) ->
  (succeeded (attempt a) \/ nonRetryableFailure (attempt a) \/
   Z.of_nat a = maxRetries) ->
  Sdk.buyTokensPolymarket venue tokenId usdcAmount maxSlippageBps orderType
    maxRetries retryDelayMs =
    (retriedCalls attempt retryDelayMs 0 a ++ calls (attempt a),
     surfaced (outcome (attempt a)))
  /\ (forall att,
        Sdk.getOrderBook att = Ok None \/ Sdk.getOrderBook att = Ok (Some []) ->
        nonRetryableFailure
          (Sdk.attemptOrder att tokenId usdcAmount maxSlippageBps orderType))
  /\ (forall att best rest,
        Sdk.getOrderBook att = Ok (Some (best :: rest)) ->
        Sdk.price best <= 0 \/ 1 <= Sdk.price best ->
        nonRetryableFailure
          (Sdk.attemptOrder att tokenId usdcAmount maxSlippageBps orderType)).
Proof.
  intros attempt Ha Hretry Hend. split; [| split].
  - unfold Sdk.buyTokensPolymarket.
    apply (retryLoop_run venue tokenId usdcAmount maxSlippageBps orderType
             maxRetries retryDelayMs a (Z.to_nat (maxRetries + 1)) 0 None).
    + lia.
    + intros i Hi. split; [apply Hretry; exact Hi | simpl; lia].
    + simpl. destruct Hend as [H | [H | H]]; [auto | auto |].
      right. right. split; lia.
  - intros att Hbook. apply attemptOrder_no_liquidity. exact Hbook.
  - intros att best rest Hbook Hprice.
    apply (attemptOrder_invalid_price att tokenId usdcAmount maxSlippageBps
             orderType best rest Hbook Hprice).
Qed.

End OrderExecutorPolicy.

Lemma timedOut_attempt :
  Sdk.attemptOrder (fmt := Scenario.plainFormat) Scenario.timedOut "1001"
    1000000000 100 Sdk.FOK =
  ([PostOrder "1001" (4 / 10 * (1 + 100 / 10000)) (1000000000 / e6 / (4 / 10)) PmGTC;
    CancelOrder "order-1"],
   Throw (PolymarketError "Order order-1 failed to fill within 10000ms")).
Proof.
  unfold Sdk.attemptOrder. cbn. rcmp. cbn. reflexivity.
Qed.

Lemma buyTokensPolymarket_retry_policy_witness :
  let attempt :=
    attemptAt (fmt := Scenario.plainFormat) Scenario.thinVenue "1001"
      1000000000 100 Sdk.FOK in
  retryableFailure (attempt 0%nat) /\
  nonRetryableFailure (attempt 1%nat) /\
  Sdk.buyTokensPolymarket (fmt := Scenario.plainFormat) Scenario.thinVenue "1001"
    1000000000 100 Sdk.FOK 3 2000 =
    (retriedCalls attempt 2000 0 1 ++ calls (attempt 1%nat),
     surfaced (outcome (attempt 1%nat))).
Proof.
  intros attempt.
  assert (H0 : retryableFailure (attempt 0%nat)).
  { unfold attempt, attemptAt. cbn [Scenario.thinVenue].
    rewrite timedOut_attempt. eexists. split; reflexivity. }
  assert (H1 : nonRetryableFailure (attempt 1%nat)).
  { unfold attempt, attemptAt. cbn [Scenario.thinVenue].
    apply (attemptOrder_no_liquidity (fmt := Scenario.plainFormat)).
    right. reflexivity. }
  split; [exact H0 |]. split; [exact H1 |].
  apply (buyTokensPolymarket_retry_policy (fmt := Scenario.plainFormat)
           Scenario.thinVenue "1001" 1000000000 100 Sdk.FOK 3 2000 1).
  - lia.
  - intros i Hi. assert (i = 0%nat) as -> by lia. exact H0.
  - right. left. exact H1.
Defined.

(** C7 (counterexample). The book holds an ask at 40c and three retries
    remain, yet when the venue refuses the order with "Invalid signature"
    the call ends after this one attempt, without any sleep: a failure that
    is neither no-liquidity nor invalid-price, and is not retried. *)
Lemma buyTokensPolymarket_refusal_not_retried :
  Sdk.getOrderBook Scenario.rejectedSignature
    = Ok (Some [ {| Sdk.price := 4 / 10; Sdk.size := 100000 |} ]) /\
  Sdk.buyTokensPolymarket (fmt := Scenario.plainFormat)
    (fun _ => Scenario.rejectedSignature) "1001" 1000000000 100 Sdk.FOK 3 2000 =
  ([PostOrder "1001" (4 / 10 * (1 + 100 / 10000)) (1000000000 / e6 / (4 / 10)) PmGTC],
   Throw (PolymarketError "Order failed: Invalid signature")) /\
  (forall ms,
     ~ In (Sleep ms)
          (calls (Sdk.buyTokensPolymarket (fmt := Scenario.plainFormat)
                    (fun _ => Scenario.rejectedSignature) "1001" 1000000000 100
                    Sdk.FOK 3 2000))).
Proof.
  split; [reflexivity |].
  enough (Hrun :
    Sdk.buyTokensPolymarket (fmt := Scenario.plainFormat)
      (fun _ => Scenario.rejectedSignature) "1001" 1000000000 100 Sdk.FOK 3 2000 =
    ([PostOrder "1001" (4 / 10 * (1 + 100 / 10000)) (1000000000 / e6 / (4 / 10)) PmGTC],
     Throw (PolymarketError "Order failed: Invalid signature"))).
  { split; [exact Hrun |]. intros ms. rewrite Hrun. cbn.
    intros [H | []]. discriminate. }
  assert (Hatt :
    Sdk.attemptOrder (fmt := Scenario.plainFormat) Scenario.rejectedSignature "1001"
      1000000000 100 Sdk.FOK =
    ([PostOrder "1001" (4 / 10 * (1 + 100 / 10000)) (1000000000 / e6 / (4 / 10)) PmGTC],
     Throw (Error "Invalid signature"))).
  { unfold Sdk.attemptOrder. cbn. rcmp. cbn. reflexivity. }
  unfold Sdk.buyTokensPolymarket. change (Z.to_nat (3 + 1)) with 4%nat.
  rewrite (retryLoop_non_retryable (fmt := Scenario.plainFormat)
             (fun _ => Scenario.rejectedSignature) "1001" 1000000000 100 Sdk.FOK
             3 2000 3 0 None (Error "Invalid signature")).
  - unfold attemptAt. rewrite Hatt. reflexivity.
  - unfold attemptAt. rewrite Hatt. reflexivity.
  - reflexivity.
Qed.

(** ** Loop orchestrator *)

Lemma outcome_logged {A} (t : list event) (m : M A) : outcome (logged t m) = outcome m.
Proof. reflexivity. Qed.

Lemma outcome_tryStep {A} (m : M A) (st : Sdk.LoopState)
    (k : A -> M (Sdk.LoopState * Sdk.Control)) :
  outcome (Sdk.tryStep m st k) =
  match outcome m with
  | Ok a => outcome (k a)
  | Throw e => outcome (Sdk.onLoopError st e)
  end.
Proof. destruct m as [t [a | e]]; reflexivity. Qed.

Lemma outcome_onLoopError (st : Sdk.LoopState) (e : exn) :
  outcome (Sdk.onLoopError st e) =
  match Sdk.st_legIds st with
  | [] => Throw e
  | _ :: _ => Ok (st, Sdk.Break)
  end.
Proof. unfold Sdk.onLoopError. destruct (Sdk.st_legIds st); reflexivity. Qed.

Section Orchestrator.

Context {fmt : NumberFormat}.

Variable w : Turnkey.World.
Variable params : Sdk.TargetPositionParams.
Variable lp : Sdk.LeverageParams.

(** One pass, by the outcome of its three calls. *)
Lemma pass_outcome (i : nat) (st : Sdk.LoopState) :
  outcome (passOf w params lp i st) =
  match outcome (buyOf w params lp i st) with
  | Throw e => outcome (Sdk.onLoopError st e)
  | Ok b =>
      match outcome (legOf w params i b) with
      | Throw e => outcome (Sdk.onLoopError (afterBuy st b) e)
      | Ok legId =>
          match Sdk.balanceAfterLeg (Turnkey.chain w) i with
          | Throw e => outcome (Sdk.onLoopError (afterLeg (afterBuy st b) legId) e)
          | Ok usdcBalance =>
              Ok (afterBalance (afterLeg (afterBuy st b) legId) usdcBalance,
                  if Rltb (IZR usdcBalance) e6 then Sdk.Break else Sdk.Continue)
          end
      end
  end.
Proof.
  unfold passOf, Turnkey.iteration. rewrite outcome_tryStep.
  fold (buyOf w params lp i st).
  destruct (outcome (buyOf w params lp i st)) as [b | e]; [| reflexivity].
  rewrite outcome_tryStep. fold (legOf w params i b).
  destruct (outcome (legOf w params i b)) as [legId | e]; [| reflexivity].
  rewrite outcome_tryStep. unfold call, outcome at 1. cbn [snd].
  destruct (Sdk.balanceAfterLeg (Turnkey.chain w) i) as [usdcBalance | e]; reflexivity.
Qed.

Lemma pass_continue (i : nat) (st st' : Sdk.LoopState) :
  outcome (passOf w params lp i st) = Ok (st', Sdk.Continue) ->
  exists legId, Sdk.st_legIds st' = Sdk.st_legIds st ++ [legId].
Proof.
  rewrite pass_outcome.
  destruct (outcome (buyOf w params lp i st)) as [b | e].
  - destruct (outcome (legOf w params i b)) as [legId | e].
    + destruct (Sdk.balanceAfterLeg (Turnkey.chain w) i) as [usdcBalance | e].
      * intros H. injection H as <- _. exists legId. reflexivity.
      * rewrite outcome_onLoopError. cbn [afterLeg Sdk.st_legIds].
        destruct (Sdk.st_legIds (afterBuy st b) ++ [legId]); discriminate.
    + rewrite outcome_onLoopError. destruct (Sdk.st_legIds (afterBuy st b)); discriminate.
  - rewrite outcome_onLoopError. destruct (Sdk.st_legIds st); discriminate.
Qed.

Lemma stateAfter_S (k : nat) (st' : Sdk.LoopState) :
  stateAfter w params lp (S k) = Some st' ->
  exists st, stateAfter w params lp k = Some st /\
             outcome (passOf w params lp k st) = Ok (st', Sdk.Continue).
Proof.
  cbn [stateAfter]. destruct (stateAfter w params lp k) as [st |]; [| discriminate].
  destruct (outcome (passOf w params lp k st)) as [[st1 [|]] | e] eqn:Hp;
    try discriminate.
  intros H. injection H as <-. exists st. split; [reflexivity | exact Hp].
Qed.

(** Each pass that completes records one more leg, at the end of the list. *)
Lemma stateAfter_length (k : nat) :
  forall st, stateAfter w params lp k = Some st -> length (Sdk.st_legIds st) = k.
Proof.
  induction k as [| k IH]; intros st H.
  - cbn in H. injection H as <-. reflexivity.
  - apply stateAfter_S in H. destruct H as [st0 [H0 Hpass]].
    apply pass_continue in Hpass. destruct Hpass as [legId ->].
    rewrite length_app, (IH st0 H0). simpl. lia.
Qed.

Lemma executeLoop_S (n i : nat) (st : Sdk.LoopState) :
  outcome (Turnkey.executeLoop w params lp (S n) i st) =
  match outcome (passOf w params lp i st) with
  | Ok (st', Sdk.Break) => Ok st'
  | Ok (st', Sdk.Continue) => outcome (Turnkey.executeLoop w params lp n (S i) st')
  | Throw e => Throw e
  end.
Proof.
  cbn [Turnkey.executeLoop]. fold (passOf w params lp i st).
  destruct (passOf w params lp i st) as [t [[st' [|]] | e]]; cbn [outcome snd bind].
  - destruct (Turnkey.executeLoop w params lp n (S i) st'). reflexivity.
  - reflexivity.
  - reflexivity.
Qed.

(** The loop, once [k] passes have completed, goes on from their state. *)
Lemma executeLoop_after (k : nat) :
  forall n st, stateAfter w params lp k = Some st -> (k <= n)%nat ->
  outcome (Turnkey.executeLoop w params lp n 0 (Sdk.initialState params))
  = outcome (Turnkey.executeLoop w params lp (n - k) k st).
Proof.
  induction k as [| k IH]; intros n st H Hle.
  - cbn in H. injection H as <-. rewrite Nat.sub_0_r. reflexivity.
  - apply stateAfter_S in H. destruct H as [st0 [H0 Hpass]].
    rewrite (IH n st0 H0) by lia.
    replace (n - k)%nat with (S (n - S k)) by lia.
    rewrite executeLoop_S, Hpass. reflexivity.
Qed.

(** The pass with index [k] after [k] completed passes decides the loop. *)
Lemma run_at_failure (k : nat) (st : Sdk.LoopState) :
  (Z.of_nat k < Sdk.loops lp)%Z ->
  stateAfter w params lp k = Some st ->
  outcome (Turnkey.executeLoop w params lp (Z.to_nat (Sdk.loops lp)) 0
             (Sdk.initialState params)) =
  match outcome (passOf w params lp k st) with
  | Ok (st', Sdk.Break) => Ok st'
  | Ok (st', Sdk.Continue) =>
      outcome (Turnkey.executeLoop w params lp
                 (Z.to_nat (Sdk.loops lp) - S k) (S k) st')
  | Throw e => Throw e
  end.
Proof.
  intros Hk Hst.
  rewrite (executeLoop_after k _ st Hst) by lia.
  replace (Z.to_nat (Sdk.loops lp) - k)%nat
    with (S (Z.to_nat (Sdk.loops lp) - S k)) by lia.
  apply executeLoop_S.
Qed.

(** The legs a run of the loop adds: at most one per pass, at the end. *)
Lemma executeLoop_legs (n : nat) :
  forall (i : nat) (st st' : Sdk.LoopState),
  outcome (Turnkey.executeLoop w params lp n i st) = Ok st' ->
  exists extra,
    Sdk.st_legIds st' = Sdk.st_legIds st ++ extra /\ (length extra <= n)%nat.
Proof.
  induction n as [| n IH]; intros i st st' H.
  - cbn in H. injection H as <-. exists []. rewrite app_nil_r. split; [reflexivity | cbn; lia].
  - rewrite executeLoop_S, pass_outcome in H.
    destruct (outcome (buyOf w params lp i st)) as [b | e].
    + destruct (outcome (legOf w params i b)) as [legId | e].
      * destruct (Sdk.balanceAfterLeg (Turnkey.chain w) i) as [usdcBalance | e].
        -- destruct (Rltb (IZR usdcBalance) e6).
           ++ injection H as <-. exists [legId]. split; [reflexivity | cbn; lia].
           ++ apply IH in H. destruct H as [extra [Hids Hlen]].
              exists (legId :: extra). cbn in Hids |- *.
              rewrite Hids, <- app_assoc. split; [reflexivity | lia].
        -- rewrite outcome_onLoopError in H. cbn [afterLeg afterBuy Sdk.st_legIds] in H.
           destruct (Sdk.st_legIds st ++ [legId]) eqn:Happ;
             [discriminate |]. injection H as <-. cbn [afterLeg afterBuy Sdk.st_legIds].
           exists [legId]. split; [reflexivity | cbn; lia].
      * rewrite outcome_onLoopError in H. cbn [afterBuy Sdk.st_legIds] in H.
        destruct (Sdk.st_legIds st) eqn:Hst; [discriminate |]. injection H as <-.
        cbn [afterBuy Sdk.st_legIds]. exists []. rewrite app_nil_r.
        split; [first [exact Hst | symmetry; exact Hst | reflexivity] | cbn; lia].
    + rewrite outcome_onLoopError in H.
      destruct (Sdk.st_legIds st) eqn:Hst; [discriminate |]. injection H as <-.
      exists []. rewrite app_nil_r.
      split; [first [exact Hst | symmetry; exact Hst | reflexivity] | cbn; lia].
Qed.

(** From a state that lists a leg the loop ends on a state. *)
Lemma executeLoop_ends (n : nat) :
  forall (i : nat) (st : Sdk.LoopState),
  Sdk.st_legIds st <> [] ->
  exists st', outcome (Turnkey.executeLoop w params lp n i st) = Ok st'.
Proof.
  induction n as [| n IH]; intros i st Hne.
  - exists st. reflexivity.
  - rewrite executeLoop_S, pass_outcome.
    destruct (outcome (buyOf w params lp i st)) as [b | e].
    + destruct (outcome (legOf w params i b)) as [legId | e].
      * destruct (Sdk.balanceAfterLeg (Turnkey.chain w) i) as [usdcBalance | e].
        -- destruct (Rltb (IZR usdcBalance) e6); [eexists; reflexivity |].
           apply IH. cbn. intros Happ. apply app_eq_nil in Happ.
           destruct Happ as [_ Hnil]. discriminate.
        -- rewrite outcome_onLoopError. cbn [afterLeg afterBuy Sdk.st_legIds].
           destruct (Sdk.st_legIds st ++ [legId]) eqn:Happ; [| eexists; reflexivity].
           apply app_eq_nil in Happ. destruct Happ as [_ Hnil]. discriminate.
      * rewrite outcome_onLoopError. cbn [afterBuy Sdk.st_legIds].
        destruct (Sdk.st_legIds st); [contradiction | eexists; reflexivity].
    + rewrite outcome_onLoopError.
      destruct (Sdk.st_legIds st); [contradiction | eexists; reflexivity].
Qed.

(** What follows the loop (lines 316-328). *)
Lemma runLoop_of_state (st' : Sdk.LoopState) :
  outcome (Turnkey.executeLoop w params lp (Z.to_nat (Sdk.loops lp)) 0
             (Sdk.initialState params)) = Ok st' ->
  outcome (Turnkey.runLoop w params lp) =
  match Sdk.st_legIds st' with
  | [] => Throw (ProtocolError "Failed to open any position legs")
  | _ :: _ =>
      outcome (Sdk.calculatePositionMetrics (Turnkey.chain w) (Sdk.st_legIds st')
                 params (Sdk.totalTokensBought st') (Sdk.totalSlippage st') lp)
  end.
Proof.
  intros Hrun. unfold Turnkey.runLoop. rewrite (outcome_bind_of_Ok _ _ st' Hrun).
  destruct (Sdk.st_legIds st'); reflexivity.
Qed.

Lemma runLoop_of_throw (e : exn) :
  outcome (Turnkey.executeLoop w params lp (Z.to_nat (Sdk.loops lp)) 0
             (Sdk.initialState params)) = Throw e ->
  outcome (Turnkey.runLoop w params lp) = Throw e.
Proof.
  intros Hrun. unfold Turnkey.runLoop. apply outcome_bind_of_Throw. exact Hrun.
Qed.

Lemma runLoop_legs (p : Sdk.LeveragePosition) :
  outcome (Turnkey.runLoop w params lp) = Ok p ->
  exists st',
    outcome (Turnkey.executeLoop w params lp (Z.to_nat (Sdk.loops lp)) 0
               (Sdk.initialState params)) = Ok st' /\
    Sdk.st_legIds st' <> [] /\
    Sdk.legIds p = Sdk.st_legIds st'.
Proof.
  intros H.
  destruct (outcome (Turnkey.executeLoop w params lp (Z.to_nat (Sdk.loops lp)) 0
                       (Sdk.initialState params))) as [st' | e] eqn:Hrun.
  - rewrite (runLoop_of_state st' Hrun) in H. exists st'. split; [reflexivity |].
    destruct (Sdk.st_legIds st') as [| id ids] eqn:Hids; [discriminate |].
    split; [discriminate |].
    apply calculatePositionMetrics_Ok in H.
    destruct H as [ls [fd [_ [_ [Hp _]]]]]. exact Hp.
  - rewrite (runLoop_of_throw e Hrun) in H. discriminate.
Qed.

(** A call that gets as far as the loop ends as the loop and what follows it
    end, an error going through the outer [catch] of lines 329-334. *)
Lemma openTargetPosition_reaches :
  reachesLoop w params lp ->
  outcome (Turnkey.openTargetPosition w params) =
  match outcome (Turnkey.runLoop w params lp) with
  | Ok p => Ok p
  | Throw e => outcome (Sdk.rethrowOrWrap e)
  end.
Proof.
  intros [Hvalid [[balance [Hbalance Hcovers]] [Hmarket [Hlp [Happrove Hset]]]]].
  unfold Turnkey.openTargetPosition.
  destruct (validateInputs_cases params) as [[_ Heq] | [Hn _]]; [| contradiction].
  rewrite Heq.
  unfold Sdk.checkSufficientBalance, Sdk.verifyMarket, Turnkey.setupApprovals.
  rewrite Hbalance, Hmarket, Happrove, Hset. cbn [call bind emit ret try_catch app].
  rewrite Rltb_false by exact Hcovers. cbn [call bind emit ret try_catch app].
  destruct (Turnkey.calculateLeverageParams (Turnkey.chain w) params) as [t r].
  cbn [outcome snd] in Hlp. subst r. cbn [call bind emit ret try_catch app].
  destruct (Turnkey.runLoop w params lp) as [t' [p | e]];
    cbn [outcome snd call bind emit ret try_catch app]; [reflexivity |].
  destruct (Sdk.rethrowOrWrap e) as [t'' r'']. reflexivity.
Qed.

Lemma outcome_rethrowOrWrap (e : exn) :
  exists e', outcome (Sdk.rethrowOrWrap e) = Throw e'.
Proof.
  unfold Sdk.rethrowOrWrap.
  destruct (isValidationError e || isPolymarketError e || isProtocolError e);
    eexists; reflexivity.
Qed.

Lemma openTargetPosition_Ok_runLoop (p : Sdk.LeveragePosition) :
  reachesLoop w params lp ->
  outcome (Turnkey.openTargetPosition w params) = Ok p ->
  outcome (Turnkey.runLoop w params lp) = Ok p.
Proof.
  intros Hreach H. rewrite (openTargetPosition_reaches Hreach) in H.
  destruct (outcome (Turnkey.runLoop w params lp)) as [p' | e]; [exact H |].
  destruct (outcome_rethrowOrWrap e) as [e' He']. rewrite He' in H. discriminate.
Qed.

(** The loop ends on a state that lists legs: the call returns a position on
    these legs if the metrics can be read, and no other position. *)
Lemma returnsLegs_of_state (st' : Sdk.LoopState) :
  reachesLoop w params lp ->
  outcome (Turnkey.executeLoop w params lp (Z.to_nat (Sdk.loops lp)) 0
             (Sdk.initialState params)) = Ok st' ->
  Sdk.st_legIds st' <> [] ->
  returnsLegs w params (Sdk.st_legIds st').
Proof.
  intros Hreach Hrun Hne.
  pose proof (runLoop_of_state st' Hrun) as Hloop.
  split.
  - intros Hread.
    destruct (calculatePositionMetrics_returns (Turnkey.chain w) (Sdk.st_legIds st')
                params (Sdk.totalTokensBought st') (Sdk.totalSlippage st') lp Hread)
      as [p Hp].
    exists p. split.
    + rewrite (openTargetPosition_reaches Hreach), Hloop.
      destruct (Sdk.st_legIds st'); [contradiction |]. rewrite Hp. reflexivity.
    + apply calculatePositionMetrics_Ok in Hp.
      destruct Hp as [ls [fd [_ [_ [Hids _]]]]]. exact Hids.
  - intros p Hp. apply (openTargetPosition_Ok_runLoop p Hreach) in Hp.
    destruct (runLoop_legs p Hp) as [st'' [Hrun' [_ Hids]]].
    rewrite Hrun in Hrun'. injection Hrun' as <-. exact Hids.
Qed.

Lemma rethrowOrWrap_typed (e : exn) :
  isPolymarketError e = true \/ isProtocolError e = true ->
  Sdk.rethrowOrWrap e = ([], Throw e).
Proof.
  intros [H | H]; unfold Sdk.rethrowOrWrap; rewrite H;
    rewrite ?orb_true_r; reflexivity.
Qed.

(** The loop throws a typed error: it reaches the caller unchanged. *)
Lemma propagates_of_throw (e : exn) :
  reachesLoop w params lp ->
  outcome (Turnkey.executeLoop w params lp (Z.to_nat (Sdk.loops lp)) 0
             (Sdk.initialState params)) = Throw e ->
  isPolymarketError e = true \/ isProtocolError e = true ->
  outcome (Turnkey.openTargetPosition w params) = Throw e.
Proof.
  intros Hreach Hrun Htyped.
  rewrite (openTargetPosition_reaches Hreach), (runLoop_of_throw e Hrun),
    (rethrowOrWrap_typed e Htyped).
  reflexivity.
Qed.

(** A loop that makes no pass. *)
Lemma openTargetPosition_no_pass :
  reachesLoop w params lp -> (Sdk.loops lp <= 0)%Z ->
  outcome (Turnkey.openTargetPosition w params)
  = Throw (ProtocolError "Failed to open any position legs").
Proof.
  intros Hreach Hloops.
  rewrite (openTargetPosition_reaches Hreach).
  rewrite (runLoop_of_state (Sdk.initialState params)).
  - reflexivity.
  - replace (Z.to_nat (Sdk.loops lp)) with 0%nat by lia. reflexivity.
Qed.

End Orchestrator.

Section StepErrors.

Context {fmt : NumberFormat}.

(** The errors of the two steps are typed: the outer [catch] of
    [openTargetPosition] hands them on unchanged. *)
Lemma buyTokensPolymarket_throws_PolymarketError (venue : nat -> Sdk.Attempt)
    (tokenId : string) (usdcAmount maxSlippageBps : R)
    (orderType : Sdk.OrderKind) (maxRetries : Z) (retryDelayMs : R) (e : exn) :
  outcome (Sdk.buyTokensPolymarket venue tokenId usdcAmount maxSlippageBps
             orderType maxRetries retryDelayMs) = Throw e ->
  isPolymarketError e = true.
Proof.
  unfold Sdk.buyTokensPolymarket. intros H.
  eapply retryLoop_throws_PolymarketError; [| exact H].
  intros e0 He0. discriminate.
Qed.

Lemma Turnkey_buyTokensPolymarket_throws_PolymarketError (a : Turnkey.Attempt)
    (tokenId : string) (usdcAmount maxSlippageBps : R) (e : exn) :
  outcome (Turnkey.buyTokensPolymarket a tokenId usdcAmount maxSlippageBps) = Throw e ->
  isPolymarketError e = true.
Proof.
  unfold Turnkey.buyTokensPolymarket. intros H.
  apply outcome_try_catch_Throw in H. destruct H as [e0 [_ H]].
  destruct (isPolymarketError e0) eqn:Hp.
  - cbn in H. injection H as <-. exact Hp.
  - cbn in H. injection H as <-. reflexivity.
Qed.

Lemma openProtocolLeg_throws_ProtocolError (o : Sdk.LegOpen)
    (tokenAmount term : R) (conditionId : string) (longYes : bool) (e : exn) :
  outcome (Sdk.openProtocolLeg o tokenAmount term conditionId longYes) = Throw e ->
  isProtocolError e = true.
Proof.
  unfold Sdk.openProtocolLeg.
  destruct (Zfloor (tokenAmount / e6) =? 0)%Z.
  - cbn. intros H. injection H as <-. reflexivity.
  - intros H. apply outcome_try_catch_Throw in H. destruct H as [e0 [_ H]].
    destruct (isProtocolError e0) eqn:Hp.
    + cbn in H. injection H as <-. exact Hp.
    + destruct (includes (message e0) "insufficient");
        [| destruct (includes (message e0) "paused")];
        cbn in H; injection H as <-; reflexivity.
Qed.

End StepErrors.

(** C2 (amended). The execution loop of [openTargetPosition], in the turnkey
    SDK, whose loop count is positive on every quote with F in (0, 1); the
    loop of lines 1129-1189 has the same [catch].  Let the call get as far
    as the loop and let pass k+1 (1-indexed) fail after k passes completed,
    which recorded k legs.  If the pass fails before its leg is recorded, in
    the order executor or in the leg opener, then for k >= 1 the call
    returns a position on exactly the k legs already recorded, in execution
    order, provided the metrics calculator can read these legs and the gas
    price back (it returns no other position in any case), and for k = 0 no
    position is built and the error reaches the caller unchanged.  If the
    pass fails in the balance read that follows its leg, the call returns,
    under the same proviso, a position on the k+1 legs, the new one
    included, for k = 0 as well.  A call whose loop makes no pass fails with
    the ProtocolError "Failed to open any position legs". *)
Theorem partial_failure_policy {fmt : NumberFormat} (w : Turnkey.World)
    (params : Sdk.TargetPositionParams) (lp : Sdk.LeverageParams)
    (k : nat) (st : Sdk.LoopState) (f : Failure) :
  reachesLoop w params lp ->
  (Z.of_nat k < Sdk.loops lp)%Z ->
  stateAfter w params lp k = Some st ->
  failsWith w params lp k st f ->
  length (Sdk.st_legIds st) = k /\
  match f with
  | BalanceFails _ legId _ => returnsLegs w params (Sdk.st_legIds st ++ [legId])
  | BuyFails e | LegFails _ e =>
      match k with
      | O => outcome (Turnkey.openTargetPosition w params) = Throw e
      | S _ => returnsLegs w params (Sdk.st_legIds st)
      end
  end /\
  (forall w0 params0 lp0,
     reachesLoop w0 params0 lp0 -> (Sdk.loops lp0 <= 0)%Z ->
     outcome (Turnkey.openTargetPosition w0 params0)
     = Throw (ProtocolError "Failed to open any position legs")).
Proof.
  intros Hreach Hk Hst Hf.
  pose proof (stateAfter_length w params lp k st Hst) as Hlen.
  pose proof (run_at_failure w params lp k st Hk Hst) as Hrun.
  rewrite pass_outcome in Hrun.
  split; [exact Hlen |]. split.
  - destruct f as [e | b e | b legId e]; cbn [failsWith] in Hf.
    + rewrite Hf, outcome_onLoopError in Hrun.
      destruct k as [| k].
      * destruct (Sdk.st_legIds st); [| discriminate].
        apply (propagates_of_throw w params lp e Hreach Hrun).
        left. eapply Turnkey_buyTokensPolymarket_throws_PolymarketError. exact Hf.
      * destruct (Sdk.st_legIds st) as [| id ids] eqn:Hids; [discriminate |].
        rewrite <- Hids.
        apply (returnsLegs_of_state w params lp st Hreach Hrun). congruence.
    + destruct Hf as [Hb He]. rewrite Hb, He, outcome_onLoopError in Hrun.
      cbn [afterBuy Sdk.st_legIds] in Hrun.
      destruct k as [| k].
      * destruct (Sdk.st_legIds st); [| discriminate].
        apply (propagates_of_throw w params lp e Hreach Hrun).
        right. eapply openProtocolLeg_throws_ProtocolError. exact He.
      * destruct (Sdk.st_legIds st) as [| id ids] eqn:Hids; [discriminate |].
        rewrite <- Hids.
        change (Sdk.st_legIds st) with (Sdk.st_legIds (afterBuy st b)).
        apply (returnsLegs_of_state w params lp (afterBuy st b) Hreach Hrun).
        cbn [afterBuy Sdk.st_legIds]. congruence.
    + destruct Hf as [Hb [Hl He]]. rewrite Hb, Hl, He, outcome_onLoopError in Hrun.
      cbn [afterLeg afterBuy Sdk.st_legIds] in Hrun.
      destruct (Sdk.st_legIds st ++ [legId]) as [| id ids] eqn:Hids.
      * destruct (Sdk.st_legIds st); discriminate.
      * rewrite <- Hids.
        change (Sdk.st_legIds st ++ [legId])
          with (Sdk.st_legIds (afterLeg (afterBuy st b) legId)).
        apply (returnsLegs_of_state w params lp (afterLeg (afterBuy st b) legId)
                 Hreach Hrun).
        cbn [afterLeg afterBuy Sdk.st_legIds]. rewrite Hids. discriminate.
  - intros w0 params0 lp0. apply openTargetPosition_no_pass.
Qed.

(** *** The first pass on the scenario worlds *)

Lemma turnkeyFirstBuy_tokens : Sdk.tokensReceived Scenario.turnkeyFirstBuy = 2500000000.
Proof.
  cbn. replace (2500 * e6) with (IZR 2500000000) by (unfold e6; lra).
  rewrite ZfloorZ. reflexivity.
Qed.

Lemma turnkey_first_buy (w : Turnkey.World) (lp : Sdk.LeverageParams) :
  Turnkey.orders w 0%nat = Scenario.turnkeyFilled 2500 ->
  outcome (buyOf (fmt := Scenario.plainFormat) w (Scenario.params 3600) lp 0
             (Sdk.initialState (Scenario.params 3600)))
  = Ok Scenario.turnkeyFirstBuy.
Proof.
  intros Hw. unfold buyOf, Turnkey.buyTokensPolymarket. rewrite Hw.
  cbn. rcmp. cbn. reflexivity.
Qed.

Lemma turnkey_first_leg (w : Turnkey.World) :
  Sdk.legOpens (Turnkey.chain w) 0%nat = Scenario.openedLeg 1 ->
  outcome (legOf (fmt := Scenario.plainFormat) w (Scenario.params 3600) 0
             Scenario.turnkeyFirstBuy)
  = Ok 1%Z.
Proof.
  intros Hw. unfold legOf, Sdk.openProtocolLeg. rewrite Hw, turnkeyFirstBuy_tokens.
  replace (2500000000 / e6) with (IZR 2500) by (unfold e6; lra).
  rewrite ZfloorZ. reflexivity.
Qed.

Lemma turnkey_second_buy (w : Turnkey.World) (lp : Sdk.LeverageParams)
    (st : Sdk.LoopState) :
  Turnkey.orders w 1%nat = Scenario.turnkeyEmptyBook ->
  outcome (buyOf (fmt := Scenario.plainFormat) w (Scenario.params 3600) lp 1 st)
  = Throw (PolymarketError ("No liquidity available for token " ++ Sdk.tokenId lp)%string).
Proof.
  intros Hw. unfold buyOf, Turnkey.buyTokensPolymarket. rewrite Hw. reflexivity.
Qed.

(** The parameter calculator of the turnkey SDK on the quote F = 0.9,
    rS = rJ = 0.05 for the YES side of the usage example. *)
Lemma Turnkey_parameters_at_F09 (chain : Sdk.World) :
  Sdk.quote chain 1%Z 3600 (Sdk.marketConditionId (Scenario.params 3600)) true
  = Ok {| Sdk.quote_F := 900000000000000000; Sdk.quote_rS := 50000000000000000;
          Sdk.quote_rJ := 50000000000000000; Sdk.usdcNeeded := 0;
          Sdk.converged := true |} ->
  Sdk.yesPositionId chain (Sdk.marketConditionId (Scenario.params 3600)) = Ok "1001" ->
  Turnkey.calculateLeverageParams (fmt := Scenario.plainFormat) chain
    (Scenario.params 3600)
  = ([], Ok Scenario.turnkeyParameters).
Proof.
  intros Hquote Hyes. unfold Turnkey.calculateLeverageParams, Sdk.getYesTokenId.
  cbn [Scenario.params Sdk.timeframeSeconds Sdk.longYes Sdk.marketConditionId] in *.
  rewrite Hquote, Hyes.
  cbn [call bind Sdk.quote_F Sdk.quote_rS Sdk.quote_rJ].
  rewrite Turnkey_validateRunway_accepts
    by (unfold Turnkey.safeRunwayOf, YEAR_SECONDS, e18; lra).
  rewrite Turnkey_loopCount_capped by (unfold e18; simpl; lra).
  reflexivity.
Qed.

Lemma turnkeyOn_reachesLoop (chain : Sdk.World) :
  Sdk.initialBalance chain = Ok 5000000000%Z ->
  Sdk.verifyMarketCall chain (Sdk.marketConditionId (Scenario.params 3600)) = Ok tt ->
  Sdk.quote chain 1%Z 3600 (Sdk.marketConditionId (Scenario.params 3600)) true
  = Ok {| Sdk.quote_F := 900000000000000000; Sdk.quote_rS := 50000000000000000;
          Sdk.quote_rJ := 50000000000000000; Sdk.usdcNeeded := 0;
          Sdk.converged := true |} ->
  Sdk.yesPositionId chain (Sdk.marketConditionId (Scenario.params 3600)) = Ok "1001" ->
  Sdk.approve_tx chain = Ok tt ->
  Sdk.setApprovalForAll_tx chain = Ok tt ->
  reachesLoop (fmt := Scenario.plainFormat) (Scenario.turnkeyOn chain)
    (Scenario.params 3600) Scenario.turnkeyParameters.
Proof.
  intros Hbalance Hmarket Hquote Hyes Happrove Hset.
  split; [apply scenario_params_valid; lra |].
  split; [exists 5000000000%Z; split; [exact Hbalance | cbn; unfold e6; lra] |].
  split; [exact Hmarket |].
  split; [| split; [exact Happrove | exact Hset]].
  cbn [Scenario.turnkeyOn Turnkey.chain].
  rewrite (Turnkey_parameters_at_F09 chain Hquote Hyes). reflexivity.
Qed.

(** The state after the first pass on a chain that opens leg 1 and then
    reads a balance of $900. *)
Lemma turnkeyOn_first_pass (chain : Sdk.World) (lp : Sdk.LeverageParams) :
  Sdk.legOpens chain 0%nat = Scenario.openedLeg 1 ->
  Sdk.balanceAfterLeg chain 0%nat = Ok 900000000%Z ->
  stateAfter (fmt := Scenario.plainFormat) (Scenario.turnkeyOn chain)
    (Scenario.params 3600) lp 1
  = Some (afterBalance
            (afterLeg (afterBuy (Sdk.initialState (Scenario.params 3600))
                         Scenario.turnkeyFirstBuy) 1) 900000000).
Proof.
  intros Hleg Hbalance. cbn [stateAfter]. rewrite pass_outcome.
  rewrite (turnkey_first_buy (Scenario.turnkeyOn chain) lp eq_refl),
    (turnkey_first_leg (Scenario.turnkeyOn chain) Hleg).
  cbn [Scenario.turnkeyOn Turnkey.chain]. rewrite Hbalance.
  rewrite Rltb_false by (unfold e6; lra). reflexivity.
Qed.

Lemma overQuoted_reachesLoop :
  exists lp,
    reachesLoop (fmt := Scenario.plainFormat)
      (Scenario.turnkeyOn Scenario.overQuoted) (Scenario.params 3600) lp /\
    (Sdk.loops lp <= 0)%Z.
Proof.
  assert (Hloops : (Turnkey.loopCount (2000000000000000000 / e18) <= 0)%Z).
  { unfold Turnkey.loopCount.
    replace (2000000000000000000 / e18) with 2 by (unfold e18; lra).
    assert (Hnum : ln (1 / 10) < 0) by (apply ln_lt_0; lra).
    assert (Hden : 0 < ln 2) by (rewrite <- ln_1; apply ln_increasing; lra).
    assert (Hneg : ln (1 / 10) / ln 2 < 0).
    { unfold Rdiv. rewrite <- (Rmult_0_l (/ ln 2)).
      apply Rmult_lt_compat_r; [apply Rinv_0_lt_compat; exact Hden | exact Hnum]. }
    pose proof (Zceil_bound (ln (1 / 10) / ln 2)) as [Hlow _].
    assert (Hz : (Zceil (ln (1 / 10) / ln 2) < 1)%Z) by (apply lt_IZR; lra).
    lia. }
  exists {| Sdk.lp_F := 2000000000000000000 / e18;
            Sdk.lp_R := (0 + 0) / e18;
            Sdk.loops := Turnkey.loopCount (2000000000000000000 / e18);
            Sdk.maxLeverage := 1 / (1 - 2000000000000000000 / e18);
            Sdk.tokenId := "1001" |}.
  split; [| exact Hloops].
  split; [apply scenario_params_valid; lra |].
  split; [exists 5000000000%Z; split; [reflexivity | cbn; unfold e6; lra] |].
  split; [reflexivity |].
  split; [| split; reflexivity].
  unfold Turnkey.calculateLeverageParams.
  cbn [Scenario.turnkeyOn Turnkey.chain Scenario.overQuoted Scenario.world
       Scenario.worldWith Sdk.quote call bind Sdk.quote_F Sdk.quote_rS Sdk.quote_rJ
       Scenario.params Sdk.timeframeSeconds Sdk.longYes Sdk.marketConditionId].
  unfold Turnkey.validateRunway.
  rewrite (Reqb_true ((0 + 0) / e18) 0) by (unfold e18; lra). reflexivity.
Qed.

(** C2 (witness). On a venue whose book is empty from the second pass on,
    the call gets as far as the loop with a loop count of 10, the second
    pass fails in the order executor after one completed pass, and the call
    returns a position on the one leg recorded.  On a quote with F = 2 and
    zero rates the loop count is not positive and the call fails for want
    of a leg. *)
Lemma partial_failure_policy_witness :
  let w := Scenario.turnkeyOn Scenario.dryAfterFirst in
  let params := Scenario.params 3600 in
  let lp := Scenario.turnkeyParameters in
  (exists st e,
     reachesLoop (fmt := Scenario.plainFormat) w params lp /\
     (Z.of_nat 1 < Sdk.loops lp)%Z /\
     stateAfter (fmt := Scenario.plainFormat) w params lp 1 = Some st /\
     failsWith (fmt := Scenario.plainFormat) w params lp 1 st (BuyFails e) /\
     Sdk.st_legIds st = [1%Z] /\
     returnsLegs (fmt := Scenario.plainFormat) w params [1%Z] /\
     exists p,
       outcome (Turnkey.openTargetPosition (fmt := Scenario.plainFormat) w params)
       = Ok p /\
       Sdk.legIds p = [1%Z]) /\
  outcome (Turnkey.openTargetPosition (fmt := Scenario.plainFormat)
             (Scenario.turnkeyOn Scenario.overQuoted) (Scenario.params 3600))
  = Throw (ProtocolError "Failed to open any position legs").
Proof.
  intros w params lp.
  pose (st := afterBalance
                (afterLeg (afterBuy (Sdk.initialState params) Scenario.turnkeyFirstBuy) 1)
                900000000).
  pose (e := PolymarketError "No liquidity available for token 1001").
  assert (Hreach : reachesLoop (fmt := Scenario.plainFormat) w params lp)
    by (apply turnkeyOn_reachesLoop; reflexivity).
  assert (Hk : (Z.of_nat 1 < Sdk.loops lp)%Z) by (cbn; lia).
  assert (Hst : stateAfter (fmt := Scenario.plainFormat) w params lp 1 = Some st)
    by (apply turnkeyOn_first_pass; reflexivity).
  assert (Hfail : failsWith (fmt := Scenario.plainFormat) w params lp 1 st (BuyFails e))
    by (apply (turnkey_second_buy w lp st); reflexivity).
  pose proof (partial_failure_policy (fmt := Scenario.plainFormat) w params lp 1 st
                (BuyFails e) Hreach Hk Hst Hfail) as [_ [Hlegs Hnone]].
  split.
  - exists st, e.
    split; [exact Hreach |]. split; [exact Hk |]. split; [exact Hst |].
    split; [exact Hfail |]. split; [reflexivity |]. split; [exact Hlegs |].
    apply (proj1 Hlegs). split.
    + intros id _. eexists. reflexivity.
    + eexists. reflexivity.
  - destruct overQuoted_reachesLoop as [lp0 [Hreach0 Hloops0]].
    exact (Hnone _ _ lp0 Hreach0 Hloops0).
Defined.

(** The first pass buys its tokens and opens leg 1, and then fails in the
    balance read: a position on leg 1 is returned. *)
Lemma balanceReadFails_position :
  let params := Scenario.params 3600 in
  let lp := Scenario.turnkeyParameters in
  let w := Scenario.turnkeyOn Scenario.balanceReadFails in
  reachesLoop (fmt := Scenario.plainFormat) w params lp /\
  failsWith (fmt := Scenario.plainFormat) w params lp 0 (Sdk.initialState params)
    (BalanceFails Scenario.turnkeyFirstBuy 1 (Error "missing response")) /\
  exists p,
    outcome (Turnkey.openTargetPosition (fmt := Scenario.plainFormat) w params)
    = Ok p /\
    Sdk.legIds p = [1%Z].
Proof.
  intros params lp w.
  assert (Hreach : reachesLoop (fmt := Scenario.plainFormat) w params lp)
    by (apply turnkeyOn_reachesLoop; reflexivity).
  assert (Hbuy : outcome (buyOf (fmt := Scenario.plainFormat) w params lp 0
                            (Sdk.initialState params)) = Ok Scenario.turnkeyFirstBuy)
    by (apply turnkey_first_buy; reflexivity).
  assert (Hleg : outcome (legOf (fmt := Scenario.plainFormat) w params 0
                            Scenario.turnkeyFirstBuy) = Ok 1%Z)
    by (apply turnkey_first_leg; reflexivity).
  split; [exact Hreach |].
  split; [split; [exact Hbuy | split; [exact Hleg | reflexivity]] |].
  pose (st1 := afterLeg (afterBuy (Sdk.initialState params) Scenario.turnkeyFirstBuy) 1).
  assert (Hrun :
    outcome (Turnkey.executeLoop (fmt := Scenario.plainFormat) w params lp
               (Z.to_nat (Sdk.loops lp)) 0 (Sdk.initialState params)) = Ok st1).
  { rewrite (run_at_failure (fmt := Scenario.plainFormat) w params lp 0
               (Sdk.initialState params)); [| cbn; lia | reflexivity].
    rewrite pass_outcome, Hbuy, Hleg. reflexivity. }
  destruct (returnsLegs_of_state (fmt := Scenario.plainFormat) w params lp st1
              Hreach Hrun) as [Hreturns _]; [discriminate |].
  apply Hreturns. split.
  + intros id _. eexists. reflexivity.
  + eexists. reflexivity.
Qed.

(** C2 (counterexample). Two calls that get as far as the loop.  In the
    first, the first pass buys its tokens and opens leg 1 and then fails in
    the balance read, with the loop's [catch] finding a leg recorded: a
    position on leg 1 is returned and no error reaches the caller, where the
    claim has the first pass's failure propagate.  In the second, the second
    pass fails after one leg was opened, and the legs cannot be read back
    by the metrics calculator: the call throws, where the claim has it
    return a position without an error. *)
Lemma first_pass_balance_failure_returns_position :
  let params := Scenario.params 3600 in
  let lp := Scenario.turnkeyParameters in
  (let w := Scenario.turnkeyOn Scenario.balanceReadFails in
   reachesLoop (fmt := Scenario.plainFormat) w params lp /\
   failsWith (fmt := Scenario.plainFormat) w params lp 0 (Sdk.initialState params)
     (BalanceFails Scenario.turnkeyFirstBuy 1 (Error "missing response")) /\
   exists p,
     outcome (Turnkey.openTargetPosition (fmt := Scenario.plainFormat) w params)
     = Ok p /\
     Sdk.legIds p = [1%Z]) /\
  (let w := Scenario.turnkeyOn (Scenario.withUnreadableLegs Scenario.dryAfterFirst) in
   reachesLoop (fmt := Scenario.plainFormat) w params lp /\
   (exists st e,
      stateAfter (fmt := Scenario.plainFormat) w params lp 1 = Some st /\
      Sdk.st_legIds st = [1%Z] /\
      failsWith (fmt := Scenario.plainFormat) w params lp 1 st (BuyFails e)) /\
   outcome (Turnkey.openTargetPosition (fmt := Scenario.plainFormat) w params)
   = Throw (ProtocolError "Position opening failed: call revert exception")).
Proof.
  intros params lp. split.
  - exact balanceReadFails_position.
  - intros w.
    assert (Hreach : reachesLoop (fmt := Scenario.plainFormat) w params lp)
      by (apply turnkeyOn_reachesLoop; reflexivity).
    pose (st := afterBalance
                  (afterLeg (afterBuy (Sdk.initialState params)
                               Scenario.turnkeyFirstBuy) 1) 900000000).
    assert (Hst : stateAfter (fmt := Scenario.plainFormat) w params lp 1 = Some st)
      by (apply turnkeyOn_first_pass; reflexivity).
    assert (Hfail : outcome (buyOf (fmt := Scenario.plainFormat) w params lp 1 st)
                    = Throw (PolymarketError "No liquidity available for token 1001"))
      by (apply (turnkey_second_buy w lp st); reflexivity).
    split; [exact Hreach |].
    split; [exists st, (PolymarketError "No liquidity available for token 1001");
            split; [exact Hst | split; [reflexivity | exact Hfail]] |].
    assert (Hrun :
      outcome (Turnkey.executeLoop (fmt := Scenario.plainFormat) w params lp
                 (Z.to_nat (Sdk.loops lp)) 0 (Sdk.initialState params)) = Ok st).
    { rewrite (run_at_failure (fmt := Scenario.plainFormat) w params lp 1 st);
        [| cbn; lia | exact Hst].
      rewrite pass_outcome, Hfail. reflexivity. }
    rewrite (openTargetPosition_reaches (fmt := Scenario.plainFormat) w params lp Hreach),
      (runLoop_of_state (fmt := Scenario.plainFormat) w params lp st Hrun).
    reflexivity.
Qed.

(** * Further properties of the embedded code *)

(** ** Input validation *)

Section Validation.

Context {fmt : NumberFormat}.

Lemma validateRawInputs_cases (raw : Sdk.RawParams) :
  (acceptedRaw raw /\ Sdk.validateRawInputs raw = ([], Ok tt)) \/
  (~ acceptedRaw raw /\
   exists m, Sdk.validateRawInputs raw = ([], Throw (ValidationError m))).
Proof.
  unfold Sdk.validateRawInputs, acceptedRaw, ngeb, ngtb.
  apply validation_step.
  { intros Hc [Hv _]. rewrite Hv in Hc. discriminate. }
  intros H0. apply negb_false_iff in H0.
  apply validation_step.
  { intros Hc (_ & Hv & _). destruct (Sdk.raw_currentPrice raw);
      cbn in Hc, Hv; try contradiction; try discriminate.
    rbool. destruct Hc; rbool; lra. }
  intros H1.
  apply validation_step.
  { intros Hc (_ & _ & Hv & _). destruct (Sdk.raw_targetPrice raw);
      cbn in Hc, Hv; try contradiction; try discriminate.
    rbool. destruct Hc; rbool; lra. }
  intros H2.
  apply validation_step.
  { intros Hc (_ & Hv1 & Hv2 & Hv & _).
    destruct (Sdk.raw_longYes raw); [| discriminate].
    destruct (Sdk.raw_currentPrice raw), (Sdk.raw_targetPrice raw);
      cbn in Hc, Hv, Hv1, Hv2; try contradiction; try discriminate.
    rbool. lra. }
  intros H3.
  apply validation_step.
  { intros Hc (_ & Hv1 & Hv2 & Hv & _).
    destruct (Sdk.raw_longYes raw); [discriminate |].
    destruct (Sdk.raw_currentPrice raw), (Sdk.raw_targetPrice raw);
      cbn in Hc, Hv, Hv1, Hv2; try contradiction; try discriminate.
    rbool. lra. }
  intros H4.
  apply validation_step.
  { intros Hc (_ & _ & _ & _ & Hv & _). destruct (Sdk.raw_timeframeSeconds raw);
      cbn in Hc, Hv; try contradiction; try discriminate.
    rbool. lra. }
  intros H5.
  apply validation_step.
  { intros Hc (_ & _ & _ & _ & Hv & _). destruct (Sdk.raw_timeframeSeconds raw);
      cbn in Hc, Hv; try contradiction; try discriminate.
    rbool. lra. }
  intros H6.
  apply validation_step.
  { intros Hc (_ & _ & _ & _ & Hv & _). destruct (Sdk.raw_timeframeSeconds raw);
      cbn in Hc, Hv; try contradiction; try discriminate.
    rbool. lra. }
  intros H7.
  apply validation_step.
  { intros Hc (_ & _ & _ & _ & _ & Hv & _). destruct (Sdk.raw_capitalUSDC raw);
      cbn in Hc, Hv; try discriminate;
      (destruct Hv as [Hv | Hv]; [discriminate |]); try contradiction.
    rbool. lra. }
  intros H8.
  apply validation_step.
  { intros Hc (_ & _ & _ & _ & _ & Hv & _). destruct (Sdk.raw_capitalUSDC raw);
      cbn in Hc, Hv; try discriminate;
      (destruct Hv as [Hv | Hv]; [discriminate |]); try contradiction.
    rbool. lra. }
  intros H9.
  apply validation_step.
  { intros Hc (_ & _ & _ & _ & _ & _ & Hv). destruct (Sdk.raw_maxSlippageBps raw);
      cbn in Hc, Hv; try contradiction; try discriminate.
    rbool. destruct Hc; rbool; lra. }
  intros H10.
  left. split; [| reflexivity].
  split; [exact H0 |].
  destruct (Sdk.raw_currentPrice raw) as [current | | |]; cbn in H1; try discriminate;
    destruct (Sdk.raw_targetPrice raw) as [target | | |]; cbn in H2; try discriminate;
    destruct (Sdk.raw_timeframeSeconds raw) as [timeframe | | |];
    cbn in H5, H6, H7; try discriminate;
    destruct (Sdk.raw_capitalUSDC raw) as [capital | | |];
    cbn in H8, H9; try discriminate;
    destruct (Sdk.raw_maxSlippageBps raw) as [slippage | | |];
    cbn in H10; try discriminate;
    destruct (Sdk.raw_longYes raw); cbn in H3, H4 |- *; rbool;
    repeat match goal with
           | H : _ \/ _ |- _ => destruct H; try discriminate; rbool
           end;
    repeat match goal with |- _ /\ _ => split end;
    first [exact I | lra | left; reflexivity | right; exact I | right; lra].
Qed.

(** X1. The inputs [validateInputs] lets through.  Finite ones: the
    condition id starts with "0x", both prices lie strictly between 0 and
    1, the target is on the side of the direction, the timeframe is between
    one minute and one year, the capital is at least 10 and the slippage is
    between 0 and 5000 basis points.  Every comparison of the source is
    false on NaN, so a numeric field that is NaN passes its checks as well,
    and so does a capital of +Infinity; an input with NaN in all five
    numeric fields is let through.  Any other input is refused with a
    [ValidationError], and no call is made either way. *)
Theorem validateInputs_accepts_exactly (params : Sdk.TargetPositionParams)
    (raw : Sdk.RawParams) (conditionId : string) (longYes : bool) :
  (Sdk.validateRawInputs raw = ([], Ok tt) <-> acceptedRaw raw) /\
  (~ acceptedRaw raw ->
   exists m, Sdk.validateRawInputs raw = ([], Throw (ValidationError m))) /\
  calls (Sdk.validateRawInputs raw) = [] /\
  Sdk.validateRawInputs (Sdk.rawOf params) = Sdk.validateInputs params /\
  (acceptedRaw (Sdk.rawOf params) <-> validParams params) /\
  (startsWith conditionId "0x" = true ->
   Sdk.validateRawInputs (allNaN conditionId longYes) = ([], Ok tt)).
Proof.
  split; [| split; [| split; [| split; [| split]]]].
  - destruct (validateRawInputs_cases raw) as [[Hv Heq] | [Hv [m Heq]]].
    + split; intros; assumption.
    + split; intros H; [rewrite Heq in H; discriminate | contradiction].
  - intros Hn. destruct (validateRawInputs_cases raw) as [[Hv _] | [_ Hm]];
      [contradiction | exact Hm].
  - destruct (validateRawInputs_cases raw) as [[_ Heq] | [_ [m Heq]]];
      rewrite Heq; reflexivity.
  - reflexivity.
  - unfold acceptedRaw, validParams. cbn.
    split; intros (H0 & H1 & H2 & H3 & H4 & H5 & H6).
    + destruct H5 as [H5 | H5]; [discriminate |]. tauto.
    + tauto.
  - intros H. unfold Sdk.validateRawInputs.
    change (Sdk.raw_marketConditionId (allNaN conditionId longYes)) with conditionId.
    rewrite H. destruct longYes; reflexivity.
Qed.

(** X2. An input that [validateInputs] refuses is refused by both entry
    points with the same [ValidationError], before any call to the venue or
    to the chain. *)
Theorem invalid_input_rejected_before_any_call (w : Sdk.World)
    (params : Sdk.TargetPositionParams) :
  ~ validParams params ->
  exists m,
    Sdk.validateInputs params = ([], Throw (ValidationError m)) /\
    Sdk.simulatePosition w params = ([], Throw (ValidationError m)) /\
    Sdk.openTargetPosition w params = ([], Throw (ValidationError m)).
Proof.
  intros Hn. destruct (validateInputs_cases params) as [[Hv _] | [_ [m Heq]]];
    [contradiction |].
  exists m. split; [exact Heq |].
  unfold Sdk.simulatePosition, Sdk.openTargetPosition. rewrite Heq.
  split; reflexivity.
Qed.

End Validation.

Lemma invalid_input_rejected_before_any_call_witness :
  let params :=
    {| Sdk.marketConditionId := "0x7cb0";
       Sdk.longYes := true;
       Sdk.currentPrice := 4 / 10;
       Sdk.targetPrice := 44 / 100;
       Sdk.timeframeSeconds := 3600;
       Sdk.capitalUSDC := 5;
       Sdk.maxSlippageBps := 100;
       Sdk.orderType := None;
       Sdk.maxRetries := None;
       Sdk.retryDelayMs := None |} in
  ~ validParams params /\
  exists m,
    Sdk.validateInputs (fmt := Scenario.plainFormat) params
      = ([], Throw (ValidationError m)) /\
    Sdk.simulatePosition (fmt := Scenario.plainFormat)
      (Scenario.world 900000000000000000 50000000000000000 50000000000000000) params
      = ([], Throw (ValidationError m)) /\
    Sdk.openTargetPosition (fmt := Scenario.plainFormat)
      (Scenario.world 900000000000000000 50000000000000000 50000000000000000) params
      = ([], Throw (ValidationError m)).
Proof.
  intros params.
  assert (Hn : ~ validParams params).
  { unfold validParams. cbn. intros [_ [_ [_ [_ [_ [H _]]]]]]. lra. }
  split; [exact Hn |].
  apply (invalid_input_rejected_before_any_call (fmt := Scenario.plainFormat) _ params Hn).
Defined.

(** ** Pre-flight checks and parameter calculator *)

Section PreFlight.

Context {fmt : NumberFormat}.

Variable w : Sdk.World.
Variable params : Sdk.TargetPositionParams.

Hypothesis Hvalid : validParams params.
Hypothesis Hsetup :
  Sdk.polymarketInitialized w = true \/ Sdk.createOrDeriveApiKey w = Ok tt.

Lemma preflight_passed (body : M Sdk.LeveragePosition) :
  (Sdk.validateInputs params ;;; Sdk.setupPolymarket w ;;; body)
  = (keyDerivation w ++ calls body, outcome body).
Proof.
  destruct (validateInputs_cases params) as [[_ Heq] | [Hn _]]; [| contradiction].
  rewrite Heq. unfold Sdk.setupPolymarket, keyDerivation.
  destruct body as [t r].
  destruct (Sdk.polymarketInitialized w); [reflexivity |].
  destruct Hsetup as [H | H]; [discriminate | rewrite H; reflexivity].
Qed.

(** X3. With valid input and a venue client that is initialised or whose
    API key can be derived, a wallet holding less USDC than the capital
    makes [openTargetPosition] fail with the ValidationError "Insufficient
    USDC balance: ..." before any transaction, order or leg: the one call
    made is the key derivation of a client not yet initialised. *)
Theorem insufficient_balance_rejected (balance : Z) :
  Sdk.initialBalance w = Ok balance ->
  IZR balance / e6 < Sdk.capitalUSDC params ->
  Sdk.openTargetPosition w params =
  (keyDerivation w,
   Throw (ValidationError
            ("Insufficient USDC balance: have $" ++ toFixed (IZR balance / e6) 2 ++
             ", need $" ++ toFixed (Sdk.capitalUSDC params) 2)%string)).
Proof.
  intros Hb Hlt. unfold Sdk.openTargetPosition. rewrite preflight_passed.
  unfold Sdk.checkSufficientBalance. rewrite Hb. cbn [call bind].
  rewrite Rltb_true by exact Hlt. cbn. rewrite app_nil_r. reflexivity.
Qed.

(** X4. With valid input, a venue client that is initialised or whose API
    key can be derived, and enough balance, a failing [verifyMarket]
    transaction, whatever its error, reaches the caller as the
    ValidationError "Invalid market: <conditionId> - <message>", before any
    approval, order or leg: the calls made are the key derivation of a
    client not yet initialised and the market check itself. *)
Theorem invalid_market_rejected (balance : Z) (e : exn) :
  Sdk.initialBalance w = Ok balance ->
  Sdk.capitalUSDC params <= IZR balance / e6 ->
  Sdk.verifyMarketCall w (Sdk.marketConditionId params) = Throw e ->
  Sdk.openTargetPosition w params =
  (keyDerivation w ++ [VerifyMarket (Sdk.marketConditionId params)],
   Throw (ValidationError
            ("Invalid market: " ++ Sdk.marketConditionId params ++ " - "
             ++ message e)%string)).
Proof.
  intros Hb Hge He. unfold Sdk.openTargetPosition. rewrite preflight_passed.
  unfold Sdk.checkSufficientBalance, Sdk.verifyMarket. rewrite Hb. cbn [call bind].
  rewrite Rltb_false by exact Hge. rewrite He. reflexivity.
Qed.

End PreFlight.

Lemma insufficient_balance_rejected_witness :
  let w := Scenario.worldWith 900000000000000000 50000000000000000 50000000000000000
             (fun _ _ => Scenario.filled) (fun _ => Ok 900000000%Z) in
  Sdk.initialBalance w = Ok 5000000000%Z /\
  IZR 5000000000 / e6 < Sdk.capitalUSDC
    {| Sdk.marketConditionId := "0x7cb0"; Sdk.longYes := false;
       Sdk.currentPrice := 6 / 10; Sdk.targetPrice := 5 / 10;
       Sdk.timeframeSeconds := 86400; Sdk.capitalUSDC := 6000;
       Sdk.maxSlippageBps := 0; Sdk.orderType := Some Sdk.GTC;
       Sdk.maxRetries := Some 0%Z; Sdk.retryDelayMs := None |} /\
  exists m,
    Sdk.openTargetPosition (fmt := Scenario.plainFormat) w
      {| Sdk.marketConditionId := "0x7cb0"; Sdk.longYes := false;
         Sdk.currentPrice := 6 / 10; Sdk.targetPrice := 5 / 10;
         Sdk.timeframeSeconds := 86400; Sdk.capitalUSDC := 6000;
         Sdk.maxSlippageBps := 0; Sdk.orderType := Some Sdk.GTC;
         Sdk.maxRetries := Some 0%Z; Sdk.retryDelayMs := None |}
    = ([], Throw (ValidationError m)).
Proof.
  intros w. split; [reflexivity |]. split; [cbn; unfold e6; lra |].
  eexists.
  apply (insufficient_balance_rejected (fmt := Scenario.plainFormat) w _).
  - unfold validParams. cbn. repeat split; lra.
  - left. reflexivity.
  - reflexivity.
  - cbn. unfold e6. lra.
Defined.

Lemma invalid_market_rejected_witness :
  let w :=
    {| Sdk.polymarketInitialized := false;
       Sdk.createOrDeriveApiKey := Ok tt;
       Sdk.initialBalance := Ok 5000000000%Z;
       Sdk.verifyMarketCall := fun _ => Throw (Error "market not found");
       Sdk.quote := fun _ _ _ _ => Throw (Error "unreachable");
       Sdk.yesPositionId := fun _ => Ok "1001";
       Sdk.noPositionId := fun _ => Ok "1002";
       Sdk.approve_tx := Ok tt;
       Sdk.setApprovalForAll_tx := Ok tt;
       Sdk.attempts := fun _ _ => Scenario.filled;
       Sdk.legOpens := fun _ => Scenario.openedLeg 1;
       Sdk.balanceAfterLeg := fun _ => Ok 0%Z;
       Sdk.legs := fun _ => Ok Scenario.leg;
       Sdk.getFeeData := Ok None;
       Sdk.now := 0 |} in
  Sdk.openTargetPosition (fmt := Scenario.plainFormat) w (Scenario.params 3600) =
  ([CreateOrDeriveApiKey;
    VerifyMarket "0x7cb031787d1693f8e0a40859f6a192bddc9280a25263946c6040179eb50267dc"],
   Throw (ValidationError
     "Invalid market: 0x7cb031787d1693f8e0a40859f6a192bddc9280a25263946c6040179eb50267dc - market not found")).
Proof.
  intros w.
  apply (invalid_market_rejected (fmt := Scenario.plainFormat) w (Scenario.params 3600)
           (scenario_params_valid 3600 ltac:(lra)) (or_intror eq_refl)
           5000000000%Z (Error "market not found")).
  - reflexivity.
  - cbn. unfold e6. lra.
  - reflexivity.
Defined.

Section ParameterCalculator.

Context {fmt : NumberFormat}.

Variable w : Sdk.World.
Variable params : Sdk.TargetPositionParams.

Lemma calculateLeverageParams_cases :
  (exists lp q,
      Sdk.calculateLeverageParams w params = ([], Ok lp) /\
      Sdk.quote w 1%Z (Sdk.timeframeSeconds params) (Sdk.marketConditionId params)
        (Sdk.longYes params) = Ok q /\
      Sdk.lp_F lp = IZR (Sdk.quote_F q) / e18 /\
      Sdk.lp_R lp = (IZR (Sdk.quote_rS q) + IZR (Sdk.quote_rJ q)) / e18 /\
      0 < Sdk.lp_F lp < 1 /\
      Sdk.maxLeverage lp = 1 / (1 - Sdk.lp_F lp) /\
      Sdk.loops lp = Sdk.loopCount (Sdk.lp_F lp)) \/
  (exists e, Sdk.calculateLeverageParams w params = ([], Throw e)).
Proof.
  unfold Sdk.calculateLeverageParams.
  destruct (Sdk.quote w 1%Z (Sdk.timeframeSeconds params)
              (Sdk.marketConditionId params) (Sdk.longYes params)) as [q | e] eqn:Hq;
    cbn [call bind].
  2: { right. exists e. reflexivity. }
  destruct (Rleb (IZR (Sdk.quote_F q) / e18) 0 || Rgeb (IZR (Sdk.quote_F q) / e18) 1)
    eqn:HF.
  { right. eexists. reflexivity. }
  rbool.
  unfold Sdk.getYesTokenId, Sdk.getNoTokenId.
  destruct (Sdk.longYes params).
  - destruct (Sdk.yesPositionId w (Sdk.marketConditionId params)) as [tok | e].
    + left. eexists. exists q. cbn.
      repeat split; try reflexivity; try assumption; lra.
    + right. exists e. reflexivity.
  - destruct (Sdk.noPositionId w (Sdk.marketConditionId params)) as [tok | e].
    + left. eexists. exists q. cbn.
      repeat split; try reflexivity; try assumption; lra.
    + right. exists e. reflexivity.
Qed.

(** X5. When the quoted factor F = quote.F / 1e18 is not strictly between 0
    and 1, the parameter calculator fails with a [ValidationError] and makes
    no further call. *)
Theorem calculateLeverageParams_rejects_F_out_of_range (q : Sdk.Quote) :
  Sdk.quote w 1%Z (Sdk.timeframeSeconds params) (Sdk.marketConditionId params)
    (Sdk.longYes params) = Ok q ->
  IZR (Sdk.quote_F q) / e18 <= 0 \/ 1 <= IZR (Sdk.quote_F q) / e18 ->
  Sdk.calculateLeverageParams w params =
  ([], Throw (ValidationError
                (concat3 "Invalid capital efficiency factor F="
                   (numberToString (IZR (Sdk.quote_F q) / e18))
                   ". Must be between 0 and 1."))).
Proof.
  intros Hq HF. unfold Sdk.calculateLeverageParams. rewrite Hq. cbn [call bind].
  assert (Hb : Rleb (IZR (Sdk.quote_F q) / e18) 0
               || Rgeb (IZR (Sdk.quote_F q) / e18) 1 = true).
  { destruct HF as [H | H].
    - rewrite Rleb_true by exact H. reflexivity.
    - rewrite (Rgeb_true _ _ H). apply orb_true_r. }
  rewrite Hb. reflexivity.
Qed.

(** X6. Parameters returned by the parameter calculator carry the quoted
    factor F, strictly between 0 and 1, the combined rate (rS + rJ) / 1e18,
    a maximum leverage 1/(1 - F) that exceeds 1, and a loop count that is
    never positive. *)
Theorem calculateLeverageParams_returns (lp : Sdk.LeverageParams) :
  outcome (Sdk.calculateLeverageParams w params) = Ok lp ->
  exists q,
    Sdk.quote w 1%Z (Sdk.timeframeSeconds params) (Sdk.marketConditionId params)
      (Sdk.longYes params) = Ok q /\
    Sdk.lp_F lp = IZR (Sdk.quote_F q) / e18 /\
    Sdk.lp_R lp = (IZR (Sdk.quote_rS q) + IZR (Sdk.quote_rJ q)) / e18 /\
    0 < Sdk.lp_F lp < 1 /\
    1 < Sdk.maxLeverage lp /\
    Sdk.maxLeverage lp * (1 - Sdk.lp_F lp) = 1 /\
    (Sdk.loops lp <= 0)%Z.
Proof.
  intros H.
  destruct calculateLeverageParams_cases
    as [[lp' [q [Heq [Hq [HF [HR [Hrange [Hmax Hloops]]]]]]]] | [e Heq]];
    rewrite Heq in H; [| discriminate].
  injection H as <-. exists q.
  split; [exact Hq |]. split; [exact HF |]. split; [exact HR |].
  split; [exact Hrange |].
  assert (Hpos : 0 < 1 - Sdk.lp_F lp') by lra.
  split; [| split].
  - rewrite Hmax. apply Rmult_lt_reg_r with (1 - Sdk.lp_F lp'); [exact Hpos |].
    unfold Rdiv. rewrite Rmult_assoc, Rinv_l by lra. lra.
  - rewrite Hmax. field. lra.
  - rewrite Hloops. apply Sdk_loopCount_nonpos. exact Hrange.
Qed.






Lemma bind_ret_l {A B} (a : A) (k : A -> M B) : bind ([], Ok a) k = k a.
Proof. cbn. destruct (k a). reflexivity. Qed.





End ParameterCalculator.

Lemma calculateLeverageParams_rejects_F_out_of_range_witness :
  exists m,
    Sdk.calculateLeverageParams (fmt := Scenario.plainFormat)
      (Scenario.world 1000000000000000000 50000000000000000 50000000000000000)
      (Scenario.params 3600)
    = ([], Throw (ValidationError m)).
Proof.
  eexists.
  apply (calculateLeverageParams_rejects_F_out_of_range (fmt := Scenario.plainFormat)
           (Scenario.world 1000000000000000000 50000000000000000 50000000000000000)
           (Scenario.params 3600)
           {| Sdk.quote_F := 1000000000000000000; Sdk.quote_rS := 50000000000000000;
              Sdk.quote_rJ := 50000000000000000; Sdk.usdcNeeded := 0;
              Sdk.converged := true |}).
  - reflexivity.
  - right. cbn. unfold e18. lra.
Defined.

Lemma scenario_parameters_returned :
  exists lp,
    outcome (Sdk.calculateLeverageParams (fmt := Scenario.plainFormat)
               (Scenario.world 900000000000000000 50000000000000000 50000000000000000)
               (Scenario.params 3600)) = Ok lp.
Proof.
  unfold Sdk.calculateLeverageParams. run. eexists. reflexivity.
Qed.

Lemma calculateLeverageParams_returns_witness :
  exists lp,
    outcome (Sdk.calculateLeverageParams (fmt := Scenario.plainFormat)
               (Scenario.world 900000000000000000 50000000000000000 50000000000000000)
               (Scenario.params 3600)) = Ok lp /\
    0 < Sdk.lp_F lp < 1 /\ 1 < Sdk.maxLeverage lp /\ (Sdk.loops lp <= 0)%Z.
Proof.
  destruct scenario_parameters_returned as [lp Hlp].
  exists lp. split; [exact Hlp |].
  destruct (calculateLeverageParams_returns (fmt := Scenario.plainFormat) _ _ lp Hlp)
    as [q [_ [_ [_ [HF [Hmax [_ Hloops]]]]]]].
  split; [exact HF |]. split; [exact Hmax | exact Hloops].
Defined.

(** ** Simulation and metrics *)



(** The capital of a position and its maximum loss. *)
Lemma calculatePositionMetrics_capital {any : Type} (w : Sdk.World) (ids : list Z)
    (params : Sdk.TargetPositionParams) (totalTokens totalSlippage : R)
    (lp : any) (p : Sdk.LeveragePosition) :
  outcome (Sdk.calculatePositionMetrics w ids params totalTokens totalSlippage lp) = Ok p ->
  Sdk.capitalDeployed p = Sdk.capitalUSDC params /\
  Sdk.maxLoss (Sdk.pnl p) = - Sdk.capitalUSDC params.
Proof.
  unfold Sdk.calculatePositionMetrics. intros H.
  apply outcome_bind_Ok in H. destruct H as [ls [Hls H]].
  apply outcome_bind_Ok in H. destruct H as [feeData [Hfee H]].
  cbn in H. injection H as <-. split; reflexivity.
Qed.

Section Simulation.

Context {fmt : NumberFormat}.

Variable w : Sdk.World.
Variable params : Sdk.TargetPositionParams.




End Simulation.


Lemma sumOver_from (field : Sdk.Leg -> Z) (ls : list Sdk.Leg) (acc : R) :
  fold_left (fun sum leg => sum + IZR (field leg)) ls acc =
  acc + Sdk.sumOver field ls.
Proof.
  unfold Sdk.sumOver. revert acc. induction ls as [| l ls IH]; intros acc; cbn.
  - ring.
  - rewrite (IH (acc + IZR (field l))), (IH (0 + IZR (field l))). ring.
Qed.

Lemma sumOver_uniform (field : Sdk.Leg -> Z) (leg : Sdk.Leg) (n : nat) :
  Sdk.sumOver field (repeat leg n) = INR n * IZR (field leg).
Proof.
  induction n as [| n IH].
  - cbn. ring.
  - unfold Sdk.sumOver. cbn [repeat fold_left]. rewrite sumOver_from, IH, S_INR. ring.
Qed.

Lemma getLegs_uniform (w : Sdk.World) (leg : Sdk.Leg) (ids : list Z) :
  (forall id, In id ids -> Sdk.legs w id = Ok leg) ->
  Sdk.getLegs w ids = ([], Ok (repeat leg (length ids))).
Proof.
  induction ids as [| id rest IH]; intros Hall; [reflexivity |].
  cbn [Sdk.getLegs]. rewrite (Hall id (or_introl eq_refl)). unfold call.
  rewrite bind_ret_l.
  rewrite IH by (intros i Hi; apply Hall; right; exact Hi).
  rewrite bind_ret_l. reflexivity.
Qed.

Section MetricsProperties.

Variable w : Sdk.World.
Variable ids : list Z.
Variable params : Sdk.TargetPositionParams.
Variables totalTokens totalSlippage : R.
Variable lp : Sdk.LeverageParams.
Variable p : Sdk.LeveragePosition.

Hypothesis Hp :
  outcome (Sdk.calculatePositionMetrics w ids params totalTokens totalSlippage lp) = Ok p.

(** X10. In a position returned by the metrics calculator for at least one
    leg and a non-zero token total, the total fees, the breakeven price and
    the two profit figures are finite numbers; the breakeven price is the
    one at which the price move times the exposure pays exactly the total
    fees; the PnL at target is the price move to the target times the
    exposure less the total fees; the maximum profit exceeds it by
    (1 - targetPrice) times the exposure; and the maximum loss is the whole
    capital. *)
Theorem position_pnl_scenarios :
  ids <> [] ->
  totalTokens <> 0 ->
  exists totalFees breakeven atTarget maxProfit : R,
    Sdk.total (Sdk.fees p) = Num totalFees /\
    Sdk.breakeven (Sdk.pnl p) = Num breakeven /\
    Sdk.atTarget (Sdk.pnl p) = Num atTarget /\
    Sdk.maxProfit (Sdk.pnl p) = Num maxProfit /\
    (breakeven - Sdk.currentPrice params) * Sdk.totalExposure p = totalFees /\
    atTarget =
      (Sdk.targetPrice params - Sdk.currentPrice params) * Sdk.totalExposure p
      - totalFees /\
    maxProfit - atTarget = (1 - Sdk.targetPrice params) * Sdk.totalExposure p /\
    Sdk.maxLoss (Sdk.pnl p) = - Sdk.capitalDeployed p.
Proof.
  intros Hids Hne.
  destruct (calculatePositionMetrics_with_legs _ _ _ _ _ _ _ Hids Hp)
    as (ls & _ & _ & _ & _ & Htot & Hat & Hmp & _ & _ & _ & Hbe).
  destruct (calculatePositionMetrics_Ok _ _ _ _ _ _ _ Hp)
    as (_ & _ & _ & _ & _ & Hexp & _).
  destruct (calculatePositionMetrics_capital _ _ _ _ _ _ _ Hp) as [Hcap Hml].
  assert (He6 : e6 <> 0) by (unfold e6; lra).
  do 4 eexists.
  split; [exact Htot |]. split; [exact (Hbe Hne) |]. split; [exact Hat |].
  split; [exact Hmp |].
  rewrite Hexp, Hcap, Hml.
  split; [| split; [| split]].
  - field. split; assumption.
  - unfold Rdiv. ring.
  - unfold Rdiv. ring.
  - reflexivity.
Qed.

(** X11. When every leg read back carries the same snapshot (sets, F, rS,
    rJ, term), the position reports that F, the rate rS + rJ, an auto-close
    time of now + term * 1000, and senior and junior interest equal to
    (number of legs * sets) * F * rate * term / year. *)
Theorem position_of_uniform_legs (leg : Sdk.Leg) :
  ids <> [] ->
  (forall id, In id ids -> Sdk.legs w id = Ok leg) ->
  let F := IZR (Sdk.F_e18 leg) / e18 in
  let rS := IZR (Sdk.rS_e18 leg) / e18 in
  let rJ := IZR (Sdk.rJ_e18 leg) / e18 in
  let totalSets := INR (length ids) * IZR (Sdk.sets leg) in
  Sdk.pos_F p = Num F /\
  Sdk.pos_R p = Num (rS + rJ) /\
  Sdk.autoCloseTime p = Num (Sdk.now w + IZR (Sdk.term leg) * 1000) /\
  Sdk.protocolSenior (Sdk.fees p) =
    Num (totalSets * F * rS * (IZR (Sdk.term leg) / (365 * 24 * 3600))) /\
  Sdk.protocolJunior (Sdk.fees p) =
    Num (totalSets * F * rJ * (IZR (Sdk.term leg) / (365 * 24 * 3600))).
Proof.
  intros Hne Hall F rS rJ totalSets.
  destruct (calculatePositionMetrics_with_legs _ _ _ _ _ _ _ Hne Hp)
    as (ls & Hls & _ & Hsen & Hjun & _ & _ & _ & Hac & HF & HR & _).
  rewrite (getLegs_uniform w leg ids Hall) in Hls. injection Hls as <-.
  unfold interestOf, mean in *.
  rewrite !sumOver_uniform, repeat_length in *.
  assert (Hn : INR (length ids) <> 0).
  { apply not_0_INR. destruct ids; [contradiction | discriminate]. }
  assert (He18 : e18 <> 0) by (unfold e18; lra).
  unfold F, rS, rJ, totalSets.
  rewrite HF, HR, Hac, Hsen, Hjun.
  repeat split; f_equal; field; auto.
Qed.

End MetricsProperties.

Lemma scenario_metrics :
  exists p,
    outcome (Sdk.calculatePositionMetrics
               (Scenario.world 900000000000000000 50000000000000000 50000000000000000)
               [1%Z; 2%Z] (Scenario.params 3600) 4750000000 (1 / 2)
               Scenario.turnkeyParameters) = Ok p.
Proof.
  apply calculatePositionMetrics_returns. split.
  - intros id _. eexists. reflexivity.
  - eexists. reflexivity.
Qed.

Lemma position_pnl_scenarios_witness :
  exists p,
    outcome (Sdk.calculatePositionMetrics
               (Scenario.world 900000000000000000 50000000000000000 50000000000000000)
               [1%Z; 2%Z] (Scenario.params 3600) 4750000000 (1 / 2)
               Scenario.turnkeyParameters) = Ok p /\
    exists totalFees breakeven : R,
      Sdk.total (Sdk.fees p) = Num totalFees /\
      Sdk.breakeven (Sdk.pnl p) = Num breakeven /\
      (breakeven - 4 / 10) * Sdk.totalExposure p = totalFees.
Proof.
  destruct scenario_metrics as [p Hp]. exists p. split; [exact Hp |].
  destruct (position_pnl_scenarios _ _ _ _ _ _ p Hp)
    as (totalFees & breakeven & atTarget & maxProfit & Htot & Hbe & _ & _ & Heq & _).
  - discriminate.
  - lra.
  - exists totalFees, breakeven. split; [exact Htot |]. split; [exact Hbe | exact Heq].
Defined.

Lemma position_of_uniform_legs_witness :
  exists p,
    outcome (Sdk.calculatePositionMetrics
               (Scenario.world 900000000000000000 50000000000000000 50000000000000000)
               [1%Z; 2%Z] (Scenario.params 3600) 4750000000 (1 / 2)
               Scenario.turnkeyParameters) = Ok p /\
    Sdk.pos_F p = Num (IZR (Sdk.F_e18 Scenario.leg) / e18).
Proof.
  destruct scenario_metrics as [p Hp]. exists p. split; [exact Hp |].
  apply (position_of_uniform_legs _ _ _ _ _ _ p Hp Scenario.leg).
  - discriminate.
  - intros id _. reflexivity.
Defined.

(** ** Fill polling *)

Lemma pollLoop_shape (observations : list (result Sdk.OrderStatus)) :
  exists (n : nat) (b : bool),
    Sdk.pollLoop observations = (repeat (Sleep 1000) n, Ok b) /\
    (n <= length observations)%nat.
Proof.
  induction observations as [| o rest IH].
  - exists 0%nat, false. split; [reflexivity | cbn; lia].
  - destruct IH as [n [b [IH Hn]]]. cbn [Sdk.pollLoop].
    assert (Hgo : (emit (Sleep 1000) ;;; Sdk.pollLoop rest)
                  = (repeat (Sleep 1000) (S n), Ok b)).
    { rewrite IH. reflexivity. }
    destruct o as [order | e].
    + destruct (Sdk.isFilled order);
        [exists 0%nat, true; split; [reflexivity | cbn; lia] |].
      destruct (Sdk.isCancelledOrRejected order);
        [exists 0%nat, false; split; [reflexivity | cbn; lia] |].
      exists (S n), b. split; [exact Hgo | cbn; lia].
    + exists (S n), b. split; [exact Hgo | cbn; lia].
Qed.

(** X12. The polling loop of [waitForOrderFill] never throws: a failed status
    read counts as one more pass.  Its only calls are one-second sleeps, at
    most one per observation. *)
Theorem waitForOrderFill_never_throws (a : Sdk.Attempt) (orderId : string)
    (timeoutMs : R) :
  exists (n : nat) (filled : bool),
    Sdk.waitForOrderFill a orderId timeoutMs = (repeat (Sleep 1000) n, Ok filled) /\
    (n <= length (Sdk.polls a timeoutMs))%nat.
Proof.
  unfold Sdk.waitForOrderFill. apply pollLoop_shape.
Qed.

Lemma pollLoop_undecided (pending rest : list (result Sdk.OrderStatus)) :
  (forall o, In o pending -> undecided o = true) ->
  Sdk.pollLoop (pending ++ rest) =
  logged (repeat (Sleep 1000) (length pending)) (Sdk.pollLoop rest).
Proof.
  induction pending as [| o pending IH]; intros Hall.
  - cbn. destruct (Sdk.pollLoop rest). reflexivity.
  - cbn [app Sdk.pollLoop length repeat].
    rewrite IH by (intros x Hx; apply Hall; right; exact Hx).
    pose proof (Hall o (or_introl eq_refl)) as Ho.
    destruct o as [order | e]; cbn in Ho.
    + apply andb_true_iff in Ho. destruct Ho as [Hf Hc].
      apply negb_true_iff in Hf, Hc. rewrite Hf, Hc. reflexivity.
    + reflexivity.
Qed.

(** X13. The first observation that decides settles the polling loop: after
    any run of failed reads and of orders neither filled nor cancelled nor
    rejected, one sleep each, a filled order gives [true], a cancelled or
    rejected one gives [false], and running out of observations (the
    timeout) gives [false]. *)
Theorem pollLoop_first_decisive (pending : list (result Sdk.OrderStatus)) :
  (forall o, In o pending -> undecided o = true) ->
  (forall order rest,
     Sdk.isFilled order = true ->
     Sdk.pollLoop (pending ++ Ok order :: rest)
     = (repeat (Sleep 1000) (length pending), Ok true)) /\
  (forall order rest,
     Sdk.isFilled order = false -> Sdk.isCancelledOrRejected order = true ->
     Sdk.pollLoop (pending ++ Ok order :: rest)
     = (repeat (Sleep 1000) (length pending), Ok false)) /\
  Sdk.pollLoop pending = (repeat (Sleep 1000) (length pending), Ok false).
Proof.
  intros Hall. split; [| split].
  - intros order rest Hf. rewrite (pollLoop_undecided pending _ Hall).
    cbn [Sdk.pollLoop]. rewrite Hf. unfold logged. cbn. rewrite app_nil_r. reflexivity.
  - intros order rest Hf Hc. rewrite (pollLoop_undecided pending _ Hall).
    cbn [Sdk.pollLoop]. rewrite Hf, Hc. unfold logged. cbn. rewrite app_nil_r.
    reflexivity.
  - rewrite <- (app_nil_r pending) at 1. rewrite (pollLoop_undecided pending _ Hall).
    unfold logged. cbn. rewrite app_nil_r. reflexivity.
Qed.

Lemma pollLoop_first_decisive_witness :
  let pending :=
    [ Throw (Error "socket hang up");
      Ok {| Sdk.status := "LIVE"; Sdk.associate_trades := Some ["MINED"] |} ] in
  (forall o, In o pending -> undecided o = true) /\
  Sdk.pollLoop
    (pending ++ Ok {| Sdk.status := "LIVE"; Sdk.associate_trades := Some ["CONFIRMED"] |}
             :: [])
  = ([Sleep 1000; Sleep 1000], Ok true).
Proof.
  intros pending.
  assert (Hall : forall o, In o pending -> undecided o = true).
  { intros o [<- | [<- | []]]; reflexivity. }
  split; [exact Hall |].
  apply (proj1 (pollLoop_first_decisive pending Hall)). reflexivity.
Defined.

(** ** One attempt of the order executor *)

Section AttemptProperties.

Context {fmt : NumberFormat}.

Variable a : Sdk.Attempt.
Variable tokenId : string.
Variables usdcAmount maxSlippageBps : R.
Variable orderType : Sdk.OrderKind.

Let limitPrice (bestAskPrice : R) : R :=
  match orderType with
  | Sdk.FOK => bestAskPrice * (1 + maxSlippageBps / 10000)
  | _ => bestAskPrice * (1 + maxSlippageBps / 20000)
  end.

Let pmOrderType : PmOrderType :=
  match orderType with Sdk.FOK | Sdk.GTC => PmGTC | Sdk.GTD => PmGTD end.

Let fillTimeout : R := match orderType with Sdk.FOK => 10000 | _ => 30000 end.

Let fillTimeoutText : string :=
  match orderType with Sdk.FOK => "10000" | _ => "30000" end.

Lemma attemptOrder_after_post (best : Sdk.Ask) (rest : list Sdk.Ask) :
  Sdk.getOrderBook a = Ok (Some (best :: rest)) ->
  0 < Sdk.price best < 1 ->
  exists t r,
    Sdk.attemptOrder a tokenId usdcAmount maxSlippageBps orderType =
    (PostOrder tokenId (limitPrice (Sdk.price best))
       (usdcAmount / e6 / Sdk.price best) pmOrderType :: t, r) /\
    (forall ev, In ev t -> isPostOrder ev = false).
Proof.
  intros Hbook Hprice. unfold Sdk.attemptOrder. rewrite Hbook. cbn [call bind].
  rewrite Rleb_false, Rgeb_false by lra. cbn [orb].
  fold (limitPrice (Sdk.price best)). fold pmOrderType. fold fillTimeout.
  fold fillTimeoutText.
  destruct (Sdk.createAndPostOrder a) as [[[| c s] |] | e];
    try (cbn; do 2 eexists; split; [reflexivity | intros ev []]; fail).
  unfold Sdk.waitForOrderFill.
  destruct (pollLoop_shape (Sdk.polls a fillTimeout)) as [n [filled [Hw _]]].
  rewrite Hw.
  assert (Hsleeps : forall k ev, In ev (repeat (Sleep 1000) k) -> isPostOrder ev = false).
  { intros k ev Hin. apply repeat_spec in Hin. subst ev. reflexivity. }
  destruct filled.
  - destruct (Sdk.getOrder a) as [sz | e]; cbn; rewrite ?app_nil_r;
      do 2 eexists; (split; [reflexivity |]); apply Hsleeps.
  - destruct (Sdk.cancelOrder a) as [[] | e]; cbn;
      do 2 eexists; (split; [reflexivity |]);
      intros ev Hin; apply in_app_or in Hin; destruct Hin as [Hin | [<- | []]];
      solve [eapply Hsleeps; exact Hin | reflexivity].
Qed.

(** X14. On a book whose best ask lies strictly between 0 and 1, one attempt
    posts exactly one order: for the token asked, of size amount / 1e6 /
    bestAsk (the whole amount at the best ask), at bestAsk * (1 + bps/10000)
    for FOK and bestAsk * (1 + bps/20000) otherwise, so never below the best
    ask when the slippage is not negative, and sent to the venue as GTC
    unless the order type is GTD. *)
Theorem attemptOrder_posts_one_order (best : Sdk.Ask) (rest : list Sdk.Ask) :
  Sdk.getOrderBook a = Ok (Some (best :: rest)) ->
  0 < Sdk.price best < 1 ->
  0 <= maxSlippageBps ->
  exists price t,
    calls (Sdk.attemptOrder a tokenId usdcAmount maxSlippageBps orderType) =
      PostOrder tokenId price (usdcAmount / e6 / Sdk.price best)
        (match orderType with Sdk.GTD => PmGTD | _ => PmGTC end) :: t /\
    (forall ev, In ev t -> isPostOrder ev = false) /\
    price = Sdk.price best
            * (1 + maxSlippageBps / match orderType with
                                    | Sdk.FOK => 10000
                                    | _ => 20000
                                    end) /\
    Sdk.price best <= price /\
    usdcAmount / e6 / Sdk.price best * Sdk.price best = usdcAmount / e6.
Proof.
  intros Hbook Hprice Hslip.
  destruct (attemptOrder_after_post best rest Hbook Hprice) as [t [r [Heq Ht]]].
  exists (limitPrice (Sdk.price best)), t. rewrite Heq. cbn [calls fst].
  split; [unfold pmOrderType; destruct orderType; reflexivity |].
  split; [exact Ht |].
  split; [unfold limitPrice; destruct orderType; reflexivity |].
  split.
  - unfold limitPrice. destruct orderType; nra.
  - unfold e6. field. lra.
Qed.

(** X15. An order that is posted with an id but not filled before its
    deadline (10 s for FOK, 30 s otherwise) is cancelled once, and the
    attempt fails with the PolymarketError "Order <id> failed to fill within
    <timeout>ms" whether or not the cancellation succeeds. *)
Theorem unfilled_order_is_cancelled (best : Sdk.Ask) (rest : list Sdk.Ask)
    (orderID : string) :
  Sdk.getOrderBook a = Ok (Some (best :: rest)) ->
  0 < Sdk.price best < 1 ->
  Sdk.createAndPostOrder a = Ok (Some orderID) ->
  orderID <> EmptyString ->
  outcome (Sdk.pollLoop (Sdk.polls a (match orderType with
                                      | Sdk.FOK => 10000
                                      | _ => 30000
                                      end))) = Ok false ->
  exists post sleeps,
    Sdk.attemptOrder a tokenId usdcAmount maxSlippageBps orderType =
    (post :: repeat (Sleep 1000) sleeps ++ [CancelOrder orderID],
     Throw (PolymarketError
              ("Order " ++ orderID ++ " failed to fill within " ++
               match orderType with Sdk.FOK => "10000" | _ => "30000" end
               ++ "ms")%string)) /\
    isPostOrder post = true.
Proof.
  intros Hbook Hprice Hpost Hid Hpoll.
  unfold Sdk.attemptOrder. rewrite Hbook. cbn [call bind].
  rewrite Rleb_false, Rgeb_false by lra. cbn [orb].
  rewrite Hpost.
  destruct orderID as [| c s]; [contradiction |].
  fold fillTimeout in Hpoll |- *. fold fillTimeoutText.
  unfold Sdk.waitForOrderFill.
  destruct (pollLoop_shape (Sdk.polls a fillTimeout)) as [n [b [Hw _]]].
  rewrite Hw in Hpoll |- *. cbn in Hpoll. injection Hpoll as ->.
  destruct (Sdk.cancelOrder a) as [[] | e]; cbn;
    do 2 eexists; (split; [reflexivity | reflexivity]).
Qed.

End AttemptProperties.

Lemma attemptOrder_posts_one_order_witness :
  exists price t,
    calls (Sdk.attemptOrder (fmt := Scenario.plainFormat) Scenario.timedOut "1001"
             1000000000 100 Sdk.GTD) =
      PostOrder "1001" price (1000000000 / e6 / (4 / 10)) PmGTD :: t /\
    4 / 10 <= price.
Proof.
  destruct (attemptOrder_posts_one_order (fmt := Scenario.plainFormat)
              Scenario.timedOut "1001" 1000000000 100 Sdk.GTD
              {| Sdk.price := 4 / 10; Sdk.size := 100000 |} [])
    as [price [t [Hc [_ [_ [Hle _]]]]]].
  - reflexivity.
  - cbn. lra.
  - lra.
  - exists price, t. split; [exact Hc | exact Hle].
Defined.

Lemma unfilled_order_is_cancelled_witness :
  exists post sleeps,
    Sdk.attemptOrder (fmt := Scenario.plainFormat)
      {| Sdk.getOrderBook := Ok (Some [ {| Sdk.price := 4 / 10; Sdk.size := 100000 |} ]);
         Sdk.createAndPostOrder := Ok (Some "order-9");
         Sdk.polls := fun _ =>
           [ Throw (Error "socket hang up");
             Ok {| Sdk.status := "LIVE"; Sdk.associate_trades := None |} ];
         Sdk.cancelOrder := Throw (Error "order already gone");
         Sdk.getOrder := Ok None |}
      "1001" 1000000000 100 Sdk.GTC =
    (post :: repeat (Sleep 1000) sleeps ++ [CancelOrder "order-9"],
     Throw (PolymarketError "Order order-9 failed to fill within 30000ms")).
Proof.
  destruct (unfilled_order_is_cancelled (fmt := Scenario.plainFormat)
              {| Sdk.getOrderBook :=
                   Ok (Some [ {| Sdk.price := 4 / 10; Sdk.size := 100000 |} ]);
                 Sdk.createAndPostOrder := Ok (Some "order-9");
                 Sdk.polls := fun _ =>
                   [ Throw (Error "socket hang up");
                     Ok {| Sdk.status := "LIVE"; Sdk.associate_trades := None |} ];
                 Sdk.cancelOrder := Throw (Error "order already gone");
                 Sdk.getOrder := Ok None |}
              "1001" 1000000000 100 Sdk.GTC
              {| Sdk.price := 4 / 10; Sdk.size := 100000 |} [] "order-9")
    as [post [sleeps [Heq _]]].
  - reflexivity.
  - cbn. lra.
  - reflexivity.
  - discriminate.
  - reflexivity.
  - exists post, sleeps. exact Heq.
Defined.

Section FilledAttempt.

Context {fmt : NumberFormat}.

Variable a : Sdk.Attempt.
Variable tokenId : string.
Variables usdcAmount maxSlippageBps : R.
Variable orderType : Sdk.OrderKind.

(** X16. A filled attempt returns the tokens of the reported fill, rounded
    down to a whole number of 6-decimal units, and as slippage what was paid
    beyond the fill valued at the best ask.  When the venue reports no size,
    the size asked for stands in: the slippage is then 0 and the tokens are
    floor(amount / bestAsk).  The amount is positive and a reported size is
    not 0, so that no division by zero occurs. *)
Theorem filled_attempt_result (best : Sdk.Ask) (rest : list Sdk.Ask)
    (orderID : string) (filledOrder : option R) :
  Sdk.getOrderBook a = Ok (Some (best :: rest)) ->
  0 < Sdk.price best < 1 ->
  Sdk.createAndPostOrder a = Ok (Some orderID) ->
  orderID <> EmptyString ->
  outcome (Sdk.pollLoop (Sdk.polls a (match orderType with
                                      | Sdk.FOK => 10000
                                      | _ => 30000
                                      end))) = Ok true ->
  Sdk.getOrder a = Ok filledOrder ->
  (forall sz, filledOrder = Some sz -> sz <> 0) ->
  0 < usdcAmount ->
  exists r,
    outcome (Sdk.attemptOrder a tokenId usdcAmount maxSlippageBps orderType) = Ok r /\
    (forall sz, filledOrder = Some sz ->
       Sdk.tokensReceived r = IZR (Zfloor (sz * e6)) /\
       Sdk.slippage r = usdcAmount / e6 - Sdk.price best * sz) /\
    (filledOrder = None ->
       Sdk.tokensReceived r = IZR (Zfloor (usdcAmount / Sdk.price best)) /\
       Sdk.slippage r = 0).
Proof.
  intros Hbook Hprice Hpost Hid Hpoll Hget Hsize Hamount.
  unfold Sdk.attemptOrder. rewrite Hbook. cbn [call bind].
  rewrite Rleb_false, Rgeb_false by lra. cbn [orb].
  rewrite Hpost.
  destruct orderID as [| c s]; [contradiction |].
  unfold Sdk.waitForOrderFill.
  destruct (pollLoop_shape
              (Sdk.polls a (match orderType with Sdk.FOK => 10000 | _ => 30000 end)))
    as [n [b [Hw _]]].
  rewrite Hw in Hpoll |- *. cbn in Hpoll. injection Hpoll as ->.
  rewrite Hget. cbn. eexists. split; [reflexivity |]. cbn. split.
  - intros sz ->. split; [reflexivity |].
    pose proof (Hsize sz eq_refl). unfold e6. field. lra.
  - intros ->. split.
    + f_equal. f_equal. unfold e6. field. lra.
    + unfold e6. field. lra.
Qed.

End FilledAttempt.

Lemma filled_attempt_result_witness :
  exists r,
    outcome (Sdk.attemptOrder (fmt := Scenario.plainFormat) Scenario.filled "1001"
               1000000000 100 Sdk.FOK) = Ok r /\
    Sdk.tokensReceived r = IZR (Zfloor (1000000000 / (4 / 10))) /\
    Sdk.slippage r = 0.
Proof.
  destruct (filled_attempt_result (fmt := Scenario.plainFormat) Scenario.filled
              "1001" 1000000000 100 Sdk.FOK
              {| Sdk.price := 4 / 10; Sdk.size := 100000 |} [] "order-1" None)
    as [r [Hr [_ Hnone]]].
  - reflexivity.
  - cbn. lra.
  - reflexivity.
  - discriminate.
  - reflexivity.
  - reflexivity.
  - discriminate.
  - lra.
  - exists r. split; [exact Hr | apply Hnone; reflexivity].
Defined.

(** ** Retry loop of the order executor *)

Lemma filter_none {A} (f : A -> bool) (l : list A) :
  (forall x, In x l -> f x = false) -> filter f l = [].
Proof.
  induction l as [| x l IH]; intros H; [reflexivity |].
  cbn. rewrite (H x (or_introl eq_refl)). apply IH.
  intros y Hy. apply H. right. exact Hy.
Qed.

Section RetryProperties.

Context {fmt : NumberFormat}.

Variable venue : nat -> Sdk.Attempt.
Variable tokenId : string.
Variables usdcAmount maxSlippageBps : R.
Variable orderType : Sdk.OrderKind.
Variable maxRetries : Z.
Variable retryDelayMs : R.

Lemma attemptOrder_posts_at_most_one (a : Sdk.Attempt) :
  (length (filter isPostOrder
             (calls (Sdk.attemptOrder a tokenId usdcAmount maxSlippageBps orderType)))
   <= 1)%nat.
Proof.
  destruct (Sdk.getOrderBook a) as [[[| best rest] |] | e] eqn:Hbook;
    try (unfold Sdk.attemptOrder; rewrite Hbook; cbn; lia).
  destruct (Rleb (Sdk.price best) 0 || Rgeb (Sdk.price best) 1) eqn:Hp.
  - unfold Sdk.attemptOrder. rewrite Hbook. cbn [call bind]. rewrite Hp. cbn. lia.
  - rbool.
    destruct (attemptOrder_after_post a tokenId usdcAmount maxSlippageBps orderType
                best rest Hbook) as [t [r [Heq Ht]]]; [lra |].
    rewrite Heq. cbn. rewrite (filter_none _ _ Ht). cbn. lia.
Qed.

Lemma retryLoop_posts_bound (n : nat) :
  forall (attempt : nat) (lastError : option exn),
  (length (filter isPostOrder
             (calls (Sdk.retryLoop venue tokenId usdcAmount maxSlippageBps orderType
                       maxRetries retryDelayMs n attempt lastError)))
   <= n)%nat.
Proof.
  induction n as [| n IH]; intros attempt lastError.
  - cbn. lia.
  - cbn [Sdk.retryLoop]. rewrite calls_try_catch, filter_app, length_app.
    pose proof (attemptOrder_posts_at_most_one (venue attempt)) as H1.
    destruct (outcome (Sdk.attemptOrder (venue attempt) tokenId usdcAmount
                         maxSlippageBps orderType)) as [r | e].
    + cbn [filter length]. lia.
    + destruct (Sdk.nonRetryable (Sdk.asPolymarketError e));
        [cbn [throw calls fst filter length]; lia |].
      rewrite calls_bind, filter_app, length_app.
      specialize (IH (S attempt) (Some (Sdk.asPolymarketError e))).
      destruct (Z.of_nat attempt <? maxRetries)%Z; cbn [emit ret calls outcome fst snd];
        cbn [filter isPostOrder length]; lia.
Qed.

(** X17. Whatever the venue answers, [buyTokensPolymarket] posts at most
    [maxRetries + 1] orders, and none when [maxRetries] is negative. *)
Theorem buyTokensPolymarket_posts_at_most :
  (Z.of_nat (length (filter isPostOrder
                       (calls (Sdk.buyTokensPolymarket venue tokenId usdcAmount
                                 maxSlippageBps orderType maxRetries retryDelayMs))))
   <= Z.max 0 (maxRetries + 1))%Z.
Proof.
  unfold Sdk.buyTokensPolymarket.
  pose proof (retryLoop_posts_bound (Z.to_nat (maxRetries + 1)) 0 None). lia.
Qed.

(** X18. With a negative [maxRetries] the [for] has no pass: no call is made
    and the fallback error "Order failed after <maxRetries + 1> attempts" is
    thrown. *)
Theorem buyTokensPolymarket_no_pass :
  (maxRetries < 0)%Z ->
  Sdk.buyTokensPolymarket venue tokenId usdcAmount maxSlippageBps orderType
    maxRetries retryDelayMs
  = ([], Throw (PolymarketError
                  (concat3 "Order failed after "
                     (numberToString (IZR (maxRetries + 1))) " attempts"))).
Proof.
  intros H. unfold Sdk.buyTokensPolymarket.
  replace (Z.to_nat (maxRetries + 1)) with 0%nat by lia. reflexivity.
Qed.

(** X19. The two steps of a pass fail with their own error class only: the
    order executor with a PolymarketError, the leg opener with a
    ProtocolError, whatever the clients throw. *)
Theorem step_errors_are_typed (o : Sdk.LegOpen) (tokenAmount term : R)
    (conditionId : string) (longYes : bool) :
  (forall e,
     outcome (Sdk.buyTokensPolymarket venue tokenId usdcAmount maxSlippageBps
                orderType maxRetries retryDelayMs) = Throw e ->
     isPolymarketError e = true) /\
  (forall e,
     outcome (Sdk.openProtocolLeg o tokenAmount term conditionId longYes) = Throw e ->
     isProtocolError e = true).
Proof.
  split; intros e H.
  - eapply buyTokensPolymarket_throws_PolymarketError. exact H.
  - eapply openProtocolLeg_throws_ProtocolError. exact H.
Qed.

End RetryProperties.

Lemma buyTokensPolymarket_no_pass_witness :
  Sdk.buyTokensPolymarket (fmt := Scenario.plainFormat) (fun _ => Scenario.filled)
    "1001" 1000000000 100 Sdk.FOK (-1) 2000
  = ([], Throw (PolymarketError "Order failed after <number> attempts")).
Proof.
  apply (buyTokensPolymarket_no_pass (fmt := Scenario.plainFormat)
           (fun _ => Scenario.filled) "1001" 1000000000 100 Sdk.FOK (-1) 2000).
  lia.
Defined.

(** ** Leg opener *)

Lemma find_first {A} (f : A -> bool) (before : list A) (x : A) (after : list A) :
  (forall y, In y before -> f y = false) -> f x = true ->
  find f (before ++ x :: after) = Some x.
Proof.
  induction before as [| y before IH]; intros Hb Hx; cbn.
  - rewrite Hx. reflexivity.
  - rewrite (Hb y (or_introl eq_refl)). apply IH; [| exact Hx].
    intros z Hz. apply Hb. right. exact Hz.
Qed.

Section LegOpener.

Context {fmt : NumberFormat}.

Variable o : Sdk.LegOpen.
Variables tokenAmount term : R.
Variable conditionId : string.
Variable longYes : bool.

Lemma openProtocolLeg_calls (sets : Z) :
  Zfloor (tokenAmount / e6) = sets -> sets <> 0%Z ->
  calls (Sdk.openProtocolLeg o tokenAmount term conditionId longYes)
  = [OpenLeg sets term conditionId longYes].
Proof.
  intros Hsets Hnz. unfold Sdk.openProtocolLeg. rewrite Hsets.
  replace (sets =? 0)%Z with false by (symmetry; apply Z.eqb_neq; exact Hnz).
  destruct (Sdk.open_tx o) as [[] | e1]; cbn [call emit bind try_catch app].
  - destruct (Sdk.tx_wait o) as [[rc |] | e2]; cbn [call emit bind try_catch app].
    + destruct (negb (Sdk.receipt_status rc =? 1)%Z); cbn.
      * reflexivity.
      * destruct (find _ (Sdk.logs rc)); reflexivity.
    + reflexivity.
    + destruct (isProtocolError e2); [reflexivity |].
      destruct (includes (message e2) "insufficient"); [reflexivity |].
      destruct (includes (message e2) "paused"); reflexivity.
  - destruct (isProtocolError e1); [reflexivity |].
    destruct (includes (message e1) "insufficient"); [reflexivity |].
    destruct (includes (message e1) "paused"); reflexivity.
Qed.

Lemma sets_of_amount :
  e6 <= tokenAmount ->
  (1 <= Zfloor (tokenAmount / e6))%Z /\
  IZR (Zfloor (tokenAmount / e6)) * e6 <= tokenAmount
    < (IZR (Zfloor (tokenAmount / e6)) + 1) * e6.
Proof.
  intros H. unfold e6 in *.
  pose proof (Zfloor_bound (tokenAmount / 1000000)) as [Hlo Hhi].
  split.
  - apply Zfloor_lub. lra.
  - split; lra.
Qed.

(** X20. The leg opener needs one whole set: with fewer than 1e6 token units
    it sends nothing to the protocol and throws the ProtocolError
    "Insufficient tokens"; from 1e6 units on it sends exactly one [open], for
    floor(tokenAmount / 1e6) sets, whatever the transaction then does. *)
Theorem openProtocolLeg_needs_one_set :
  0 <= tokenAmount ->
  (tokenAmount < e6 ->
   Sdk.openProtocolLeg o tokenAmount term conditionId longYes
   = ([], Throw (ProtocolError
                   (concat3 "Insufficient tokens: " (numberToString tokenAmount)
                      " (need at least 1 set)")))) /\
  (e6 <= tokenAmount ->
   exists sets,
     calls (Sdk.openProtocolLeg o tokenAmount term conditionId longYes)
     = [OpenLeg sets term conditionId longYes] /\
     (1 <= sets)%Z /\
     IZR sets * e6 <= tokenAmount < (IZR sets + 1) * e6).
Proof.
  intros Hnonneg. split.
  - intros Hlt. unfold Sdk.openProtocolLeg.
    assert (Hz : Zfloor (tokenAmount / e6) = 0%Z).
    { apply Zfloor_eq. unfold e6 in *. split; lra. }
    rewrite Hz. reflexivity.
  - intros Hge. destruct (sets_of_amount Hge) as [H1 Hb].
    exists (Zfloor (tokenAmount / e6)). split; [| split; assumption].
    apply openProtocolLeg_calls; [reflexivity | lia].
Qed.

(** X21. A failure of the [open] call or of the wait for its receipt that is
    not a ProtocolError is turned into one whose message is chosen by what
    the original message contains: "insufficient" first, then "paused",
    otherwise the original message after "Failed to open position: ". *)
Theorem openProtocolLeg_revert_classified (e : exn) :
  e6 <= tokenAmount ->
  Sdk.open_tx o = Throw e \/ (Sdk.open_tx o = Ok tt /\ Sdk.tx_wait o = Throw e) ->
  isProtocolError e = false ->
  outcome (Sdk.openProtocolLeg o tokenAmount term conditionId longYes)
  = Throw (ProtocolError
             (if includes (message e) "insufficient"
              then "Insufficient protocol liquidity"
              else if includes (message e) "paused"
                   then "Protocol is paused"
                   else "Failed to open position: " ++ message e)%string).
Proof.
  intros Hge Hfail Hcls. destruct (sets_of_amount Hge) as [H1 _].
  unfold Sdk.openProtocolLeg.
  replace (Zfloor (tokenAmount / e6) =? 0)%Z with false
    by (symmetry; apply Z.eqb_neq; lia).
  destruct Hfail as [Hopen | [Hopen Hwait]].
  - rewrite Hopen. cbn [call emit bind try_catch app]. rewrite Hcls.
    destruct (includes (message e) "insufficient"); [reflexivity |].
    destruct (includes (message e) "paused"); reflexivity.
  - rewrite Hopen, Hwait. cbn [call emit bind try_catch app]. rewrite Hcls.
    destruct (includes (message e) "insufficient"); [reflexivity |].
    destruct (includes (message e) "paused"); reflexivity.
Qed.

(** X22. When the transaction succeeds (receipt status 1) the leg id returned
    is the first indexed argument of the first log of the receipt that
    carries the LegOpened signature, whatever logs stand before and after
    it. *)
Theorem openProtocolLeg_returns_first_LegOpened (rc : Sdk.Receipt)
    (before after : list Sdk.Log) (ev : Sdk.Log) :
  e6 <= tokenAmount ->
  Sdk.open_tx o = Ok tt ->
  Sdk.tx_wait o = Ok (Some rc) ->
  Sdk.receipt_status rc = 1%Z ->
  Sdk.logs rc = before ++ ev :: after ->
  (forall l, In l before -> Sdk.signature l <> Sdk.LegOpenedSignature) ->
  Sdk.signature ev = Sdk.LegOpenedSignature ->
  Sdk.openProtocolLeg o tokenAmount term conditionId longYes
  = ([OpenLeg (Zfloor (tokenAmount / e6)) term conditionId longYes],
     Ok (Sdk.topic1 ev)).
Proof.
  intros Hge Hopen Hwait Hstatus Hlogs Hbefore Hev.
  destruct (sets_of_amount Hge) as [H1 _].
  unfold Sdk.openProtocolLeg.
  replace (Zfloor (tokenAmount / e6) =? 0)%Z with false
    by (symmetry; apply Z.eqb_neq; lia).
  rewrite Hopen, Hwait. cbn [call emit bind try_catch app].
  rewrite Hstatus, Hlogs. cbn [Z.eqb Pos.eqb negb].
  rewrite find_first.
  - reflexivity.
  - intros l Hl. apply String.eqb_neq. apply Hbefore. exact Hl.
  - apply String.eqb_eq. exact Hev.
Qed.

End LegOpener.

Lemma openProtocolLeg_needs_one_set_witness :
  Sdk.openProtocolLeg (fmt := Scenario.plainFormat)
    {| Sdk.open_tx := Ok tt; Sdk.tx_wait := Ok None |} 999999 3600 "0x7c" true
  = ([], Throw (ProtocolError "Insufficient tokens: <number> (need at least 1 set)")).
Proof.
  apply (openProtocolLeg_needs_one_set (fmt := Scenario.plainFormat)
           {| Sdk.open_tx := Ok tt; Sdk.tx_wait := Ok None |} 999999 3600 "0x7c" true);
    unfold e6; lra.
Defined.

Lemma openProtocolLeg_revert_classified_witness :
  outcome (Sdk.openProtocolLeg (fmt := Scenario.plainFormat)
             {| Sdk.open_tx := Throw (Error "execution reverted: paused, insufficient cash");
                Sdk.tx_wait := Ok None |} 2500000000 3600 "0x7c" true)
  = Throw (ProtocolError "Insufficient protocol liquidity").
Proof.
  apply (openProtocolLeg_revert_classified (fmt := Scenario.plainFormat)
           {| Sdk.open_tx := Throw (Error "execution reverted: paused, insufficient cash");
              Sdk.tx_wait := Ok None |} 2500000000 3600 "0x7c" true
           (Error "execution reverted: paused, insufficient cash")).
  - unfold e6. lra.
  - left. reflexivity.
  - reflexivity.
Defined.

Lemma openProtocolLeg_returns_first_LegOpened_witness :
  outcome (Sdk.openProtocolLeg (fmt := Scenario.plainFormat)
             {| Sdk.open_tx := Ok tt;
                Sdk.tx_wait :=
                  Ok (Some {| Sdk.receipt_status := 1;
                              Sdk.logs :=
                                [ {| Sdk.signature := "Transfer(address,address,uint256)";
                                     Sdk.topic1 := 5 |};
                                  {| Sdk.signature := Sdk.LegOpenedSignature;
                                     Sdk.topic1 := 42 |};
                                  {| Sdk.signature := Sdk.LegOpenedSignature;
                                     Sdk.topic1 := 43 |} ] |}) |}
             2500000000 3600 "0x7c" true)
  = Ok 42%Z.
Proof.
  rewrite (openProtocolLeg_returns_first_LegOpened (fmt := Scenario.plainFormat)
             _ 2500000000 3600 "0x7c" true
             {| Sdk.receipt_status := 1;
                Sdk.logs :=
                  [ {| Sdk.signature := "Transfer(address,address,uint256)";
                       Sdk.topic1 := 5 |};
                    {| Sdk.signature := Sdk.LegOpenedSignature; Sdk.topic1 := 42 |};
                    {| Sdk.signature := Sdk.LegOpenedSignature; Sdk.topic1 := 43 |} ] |}
             [ {| Sdk.signature := "Transfer(address,address,uint256)";
                  Sdk.topic1 := 5 |} ]
             [ {| Sdk.signature := Sdk.LegOpenedSignature; Sdk.topic1 := 43 |} ]
             {| Sdk.signature := Sdk.LegOpenedSignature; Sdk.topic1 := 42 |}).
  - reflexivity.
  - unfold e6. lra.
  - reflexivity.
  - reflexivity.
  - reflexivity.
  - reflexivity.
  - intros l [<- | []]. discriminate.
  - reflexivity.
Defined.

(** ** Position closer *)

Lemma closePosition_all_closed_witness :
  let chain := fun _ : nat =>
    {| Sdk.balanceBefore := Ok 100000000%Z;
       Sdk.close_tx := Ok tt;
       Sdk.balanceAfter := Ok 350000000%Z |} in
  exists deltas : list Z,
    length deltas = 2%nat /\
    Sdk.closePosition chain [7%Z; 8%Z] =
    ([CloseLeg 7; CloseLeg 8],
     Ok (fold_left (fun acc d => acc + IZR d) deltas 0 / e6)).
Proof.
  intros chain.
  destruct (closePosition_all_closed chain [7%Z; 8%Z]) as [deltas [Hlen [_ Hrun]]].
  - intros j _. exists 100000000%Z, 350000000%Z. repeat split.
  - exists deltas. split; [exact Hlen | exact Hrun].
Defined.

Lemma closeLoop_calls_prefix (chain : nat -> Sdk.LegClose) (legIds : list Z) :
  forall (i : nat) (total : R),
  exists k,
    (k <= length legIds)%nat /\
    calls (Sdk.closeLoop chain i legIds total) = map CloseLeg (firstn k legIds) /\
    (forall r, outcome (Sdk.closeLoop chain i legIds total) = Ok r ->
               k = length legIds).
Proof.
  induction legIds as [| legId rest IH]; intros i total.
  - exists 0%nat. repeat split; reflexivity.
  - cbn [Sdk.closeLoop].
    destruct (Sdk.balanceBefore (chain i)) as [b | e].
    + destruct (Sdk.close_tx (chain i)) as [[] | e].
      * destruct (Sdk.balanceAfter (chain i)) as [a | e].
        -- destruct (IH (S i) (total + IZR (a - b))) as [k [Hle [Hk Hok]]].
           exists (S k). cbn [call emit bind app].
           destruct (Sdk.closeLoop chain (S i) rest (total + IZR (a - b))) as [t r].
           cbn in Hk, Hok |- *. split; [lia |]. split.
           ++ rewrite Hk. reflexivity.
           ++ intros r0 Hr. rewrite (Hok r0 Hr). reflexivity.
        -- exists 1%nat. cbn. split; [lia |]. split; [reflexivity | discriminate].
      * exists 1%nat. cbn. split; [lia |]. split; [reflexivity | discriminate].
    + exists 0%nat. cbn. split; [lia |]. split; [reflexivity | discriminate].
Qed.

Lemma closeLoop_stops_at_failure (chain : nat -> Sdk.LegClose) (legIds : list Z) :
  forall (i : nat) (total : R) (j : nat) (e : exn),
  (j < length legIds)%nat ->
  (forall m, (m < j)%nat -> closes chain (i + m)) ->
  (Sdk.balanceBefore (chain (i + j)%nat) = Throw e ->
   Sdk.closeLoop chain i legIds total = (map CloseLeg (firstn j legIds), Throw e)) /\
  (forall b,
     Sdk.balanceBefore (chain (i + j)%nat) = Ok b ->
     Sdk.close_tx (chain (i + j)%nat) = Throw e \/
     (Sdk.close_tx (chain (i + j)%nat) = Ok tt /\
      Sdk.balanceAfter (chain (i + j)%nat) = Throw e) ->
     Sdk.closeLoop chain i legIds total = (map CloseLeg (firstn (S j) legIds), Throw e)).
Proof.
  induction legIds as [| legId rest IH]; intros i total j e Hj Hbefore.
  - cbn in Hj. lia.
  - destruct j as [| j].
    + rewrite Nat.add_0_r. cbn [Sdk.closeLoop firstn map]. split.
      * intros ->. reflexivity.
      * intros b -> [-> | [-> ->]]; destruct rest; reflexivity.
    + destruct (Hbefore 0%nat ltac:(lia)) as [b0 [a0 [Hb [Hc Ha]]]].
      rewrite Nat.add_0_r in Hb, Hc, Ha.
      destruct (IH (S i) (total + IZR (a0 - b0)) j e) as [Hread Hclose].
      * cbn in Hj. lia.
      * intros m Hm. replace (S i + m)%nat with (i + S m)%nat by lia.
        apply Hbefore. lia.
      * replace (S i + j)%nat with (i + S j)%nat in Hread, Hclose by lia.
        cbn [Sdk.closeLoop]. rewrite Hb, Hc, Ha. cbn [call emit bind app].
        split.
        -- intros Hfail. rewrite (Hread Hfail). reflexivity.
        -- intros b Hok Hfail. rewrite (Hclose b Hok Hfail). reflexivity.
Qed.

(** X24. Whatever the chain answers, the calls of [closePosition] are closes
    of an initial segment of the legs given, in order: no leg is closed
    twice or out of turn, and a result is returned only when all have been
    closed.  None is closed after a failure: when the legs before the one
    with index j close and leg j fails, in the balance read before its
    close, in the close or in the balance read after it, the call ends with
    that error, and the closes sent are those of the legs before j and, if
    the failure is not in the first read, that of leg j. *)
Theorem closePosition_closes_a_prefix (chain : nat -> Sdk.LegClose)
    (legIds : list Z) :
  (exists k,
     (k <= length legIds)%nat /\
     calls (Sdk.closePosition chain legIds) = map CloseLeg (firstn k legIds) /\
     (forall r, outcome (Sdk.closePosition chain legIds) = Ok r ->
                calls (Sdk.closePosition chain legIds) = map CloseLeg legIds)) /\
  (forall (j : nat) (e : exn),
     (j < length legIds)%nat ->
     (forall i, (i < j)%nat -> closes chain i) ->
     (Sdk.balanceBefore (chain j) = Throw e ->
      Sdk.closePosition chain legIds = (map CloseLeg (firstn j legIds), Throw e)) /\
     (forall b,
        Sdk.balanceBefore (chain j) = Ok b ->
        Sdk.close_tx (chain j) = Throw e \/
        (Sdk.close_tx (chain j) = Ok tt /\ Sdk.balanceAfter (chain j) = Throw e) ->
        Sdk.closePosition chain legIds
        = (map CloseLeg (firstn (S j) legIds), Throw e))).
Proof.
  split.
  - destruct (closeLoop_calls_prefix chain legIds 0 0) as [k [Hle [Hk Hok]]].
    unfold Sdk.closePosition.
    destruct (Sdk.closeLoop chain 0 legIds 0) as [t [total | e]]; cbn in Hk, Hok |- *.
    + exists k. rewrite app_nil_r. split; [exact Hle |]. split; [exact Hk |].
      intros r _. rewrite Hk, (Hok total eq_refl), firstn_all. reflexivity.
    + exists k. split; [exact Hle |]. split; [exact Hk | discriminate].
  - intros j e Hj Hbefore.
    destruct (closeLoop_stops_at_failure chain legIds 0 0 j e Hj Hbefore) as [Hread Hclose].
    cbn [Nat.add] in Hread, Hclose. unfold Sdk.closePosition. split.
    + intros Hfail. rewrite (Hread Hfail). reflexivity.
    + intros b Hok Hfail. rewrite (Hclose b Hok Hfail). reflexivity.
Qed.

(** A position of three legs whose second close reverts: leg 7 and leg 8
    are sent, leg 9 is not. *)
Lemma closePosition_stops_at_failure :
  let chain := fun j : nat =>
    {| Sdk.balanceBefore := Ok 100000000%Z;
       Sdk.close_tx := match j with 1%nat => Throw (Error "execution reverted") | _ => Ok tt end;
       Sdk.balanceAfter := Ok 350000000%Z |} in
  Sdk.closePosition chain [7%Z; 8%Z; 9%Z]
  = ([CloseLeg 7; CloseLeg 8], Throw (Error "execution reverted")).
Proof. reflexivity. Qed.

(** ** Execution loop *)

Section LoopInvariants.

Context {fmt : NumberFormat}.

Variable w : Turnkey.World.
Variable params : Sdk.TargetPositionParams.
Variable lp : Sdk.LeverageParams.

Lemma calculateLeverageParams_loops :
  outcome (Turnkey.calculateLeverageParams (Turnkey.chain w) params) = Ok lp ->
  Sdk.loops lp = Turnkey.loopCount (Sdk.lp_F lp).
Proof.
  unfold Turnkey.calculateLeverageParams, Sdk.getYesTokenId, Sdk.getNoTokenId.
  intros H.
  apply outcome_bind_Ok in H. destruct H as [q [_ H]].
  apply outcome_bind_Ok in H. destruct H as [[] [_ H]].
  apply outcome_bind_Ok in H. destruct H as [tokenId [_ H]].
  cbn in H. injection H as <-. reflexivity.
Qed.

(** X25. Once a leg is recorded the execution loop no longer throws.  In
    the turnkey SDK, whose loop runs: from a state that lists at least one
    leg the loop ends on a state, whatever the venue, the protocol and the
    chain answer in the passes that remain, and that state keeps the legs
    already listed as a prefix and adds at most one leg per pass.  So a
    call of [openTargetPosition] that got as far as the loop and completed
    a pass returns a position that lists the legs recorded so far first,
    provided the metrics calculator can read legs and gas price back. *)
Theorem executeLoop_never_throws_after_first_leg (n i : nat) (st : Sdk.LoopState) :
  Sdk.st_legIds st <> [] ->
  (exists st' extra,
     outcome (Turnkey.executeLoop w params lp n i st) = Ok st' /\
     Sdk.st_legIds st' = Sdk.st_legIds st ++ extra /\
     (length extra <= n)%nat) /\
  (reachesLoop w params lp ->
   (Z.of_nat i <= Sdk.loops lp)%Z ->
   stateAfter w params lp i = Some st ->
   (forall ids, metricsReadable (Turnkey.chain w) ids) ->
   exists p extra,
     outcome (Turnkey.openTargetPosition w params) = Ok p /\
     Sdk.legIds p = Sdk.st_legIds st ++ extra).
Proof.
  intros Hne. split.
  - destruct (executeLoop_ends w params lp n i st Hne) as [st' Hst'].
    destruct (executeLoop_legs w params lp n i st st' Hst') as [extra He].
    exists st', extra. split; [exact Hst' | exact He].
  - intros Hreach Hi Hst Hread.
    destruct (executeLoop_ends w params lp (Z.to_nat (Sdk.loops lp) - i) i st Hne)
      as [st' Hst'].
    destruct (executeLoop_legs w params lp _ i st st' Hst') as [extra [Hextra _]].
    rewrite <- (executeLoop_after w params lp i _ st Hst) in Hst' by lia.
    destruct (returnsLegs_of_state w params lp st' Hreach Hst') as [Hreturns _].
    { rewrite Hextra. intros Happ. apply app_eq_nil in Happ.
      destruct Happ as [Hnil _]. contradiction. }
    destruct (Hreturns (Hread _)) as [p [Hp Hids]].
    exists p, extra. split; [exact Hp |]. rewrite Hids. exact Hextra.
Qed.

(** X26. A position that [openTargetPosition] of the turnkey SDK returns
    after getting as far as its loop lists at least one leg and at most
    [loops] legs, hence at most 10. *)
Theorem openTargetPosition_leg_count (p : Sdk.LeveragePosition) :
  reachesLoop w params lp ->
  outcome (Turnkey.openTargetPosition w params) = Ok p ->
  (1 <= Z.of_nat (length (Sdk.legIds p)) <= Sdk.loops lp)%Z /\
  (Sdk.loops lp <= 10)%Z.
Proof.
  intros Hreach H.
  assert (Hcap : (Sdk.loops lp <= 10)%Z).
  { destruct Hreach as (_ & _ & _ & Hlp & _).
    rewrite (calculateLeverageParams_loops Hlp). unfold Turnkey.loopCount. lia. }
  split; [| exact Hcap].
  apply (openTargetPosition_Ok_runLoop w params lp p Hreach) in H.
  destruct (runLoop_legs w params lp p H) as [st' [Hrun [Hne Hids]]].
  rewrite Hids.
  apply executeLoop_legs in Hrun. destruct Hrun as [extra [Hextra Hbound]].
  cbn in Hextra. rewrite Hextra in Hne |- *.
  destruct extra; [contradiction |]. cbn in Hbound |- *. lia.
Qed.

End LoopInvariants.

Lemma executeLoop_never_throws_after_first_leg_witness :
  let w := Scenario.turnkeyOn Scenario.dryAfterFirst in
  let params := Scenario.params 3600 in
  let lp := Scenario.turnkeyParameters in
  let st := afterBalance
              (afterLeg (afterBuy (Sdk.initialState params) Scenario.turnkeyFirstBuy) 1)
              900000000 in
  stateAfter (fmt := Scenario.plainFormat) w params lp 1 = Some st /\
  (exists st',
     outcome (Turnkey.executeLoop (fmt := Scenario.plainFormat) w params lp 9 1 st)
     = Ok st') /\
  exists p extra,
    outcome (Turnkey.openTargetPosition (fmt := Scenario.plainFormat) w params) = Ok p /\
    Sdk.legIds p = [1%Z] ++ extra.
Proof.
  intros w params lp st.
  assert (Hst : stateAfter (fmt := Scenario.plainFormat) w params lp 1 = Some st)
    by (apply turnkeyOn_first_pass; reflexivity).
  destruct (executeLoop_never_throws_after_first_leg (fmt := Scenario.plainFormat)
              w params lp 9 1 st) as [[st' [extra [Hrun _]]] Hcall].
  - discriminate.
  - split; [exact Hst |]. split; [exists st'; exact Hrun |].
    apply Hcall.
    + apply turnkeyOn_reachesLoop; reflexivity.
    + cbn. lia.
    + exact Hst.
    + intros ids. split.
      * intros id _. eexists. reflexivity.
      * eexists. reflexivity.
Defined.

Lemma openTargetPosition_leg_count_witness :
  let w := Scenario.turnkeyOn Scenario.balanceReadFails in
  exists p,
    outcome (Turnkey.openTargetPosition (fmt := Scenario.plainFormat) w
               (Scenario.params 3600)) = Ok p /\
    (1 <= Z.of_nat (length (Sdk.legIds p)) <= 10)%Z.
Proof.
  intros w.
  destruct balanceReadFails_position as [Hreach [_ [p [Hp _]]]].
  exists p. split; [exact Hp |].
  exact (proj1 (openTargetPosition_leg_count (fmt := Scenario.plainFormat) w
                  (Scenario.params 3600) Scenario.turnkeyParameters p Hreach Hp)).
Defined.

(** ** Turnkey SDK: runway check, loop count and simulation loop *)

Section TurnkeyProperties.

Context {fmt : NumberFormat}.

Lemma Turnkey_validateRunway_Ok_below (F rate termSeconds : R) :
  F <> 0 -> rate <> 0 ->
  outcome (Turnkey.validateRunway F rate termSeconds) = Ok tt ->
  termSeconds < Turnkey.safeRunwayOf F rate.
Proof.
  intros HF Hrate H.
  destruct (Rlt_le_dec termSeconds (Turnkey.safeRunwayOf F rate)) as [Hlt | Hge];
    [exact Hlt |].
  destruct (Turnkey_validateRunway_rejects F rate termSeconds HF Hrate Hge) as [m Hm].
  rewrite Hm in H. discriminate.
Qed.

(** X27. For a factor in (0, 1) and a positive rate, a term that the runway
    check of the turnkey SDK accepts never lets the debt per set at that
    term, F * (1 + R * term / year), reach the collateral value 1. *)
Theorem Turnkey_runway_check_bounds_debt (F rate termSeconds : R) :
  0 < F < 1 -> 0 < rate ->
  outcome (Turnkey.validateRunway F rate termSeconds) = Ok tt ->
  F * (1 + rate * (termSeconds / YEAR_SECONDS)) < 1.
Proof.
  intros HF Hrate H.
  apply Turnkey_validateRunway_Ok_below in H; [| lra | lra].
  assert (Hk : 0 < F * rate) by nra.
  assert (Hsafe : Turnkey.safeRunwayOf F rate * (F * rate)
                  = (1 - F) * YEAR_SECONDS * (95 / 100)).
  { unfold Turnkey.safeRunwayOf. field. split; lra. }
  unfold YEAR_SECONDS in *.
  assert (termSeconds * (F * rate)
          < Turnkey.safeRunwayOf F rate * (F * rate)) by nra.
  lra.
Qed.

End TurnkeyProperties.

Lemma Turnkey_runway_check_bounds_debt_witness :
  outcome (Turnkey.validateRunway (fmt := Scenario.plainFormat) (9 / 10) (1 / 10) 3600)
    = Ok tt /\
  9 / 10 * (1 + 1 / 10 * (3600 / YEAR_SECONDS)) < 1.
Proof.
  assert (Hok : outcome (Turnkey.validateRunway (fmt := Scenario.plainFormat)
                           (9 / 10) (1 / 10) 3600) = Ok tt).
  { rewrite Turnkey_validateRunway_accepts; [reflexivity |].
    unfold Turnkey.safeRunwayOf, YEAR_SECONDS. lra. }
  split; [exact Hok |].
  apply (Turnkey_runway_check_bounds_debt (fmt := Scenario.plainFormat)
           (9 / 10) (1 / 10) 3600); [lra | lra | exact Hok].
Defined.

(** X28. For a factor in (0, 1) the loop count of the turnkey SDK lies
    between 1 and 10, and unless the cap of 10 applies it is large enough
    for F ^ loops <= 0.1. *)
Theorem Turnkey_loopCount_range (F : R) :
  0 < F < 1 ->
  (1 <= Turnkey.loopCount F <= 10)%Z /\
  ((Turnkey.loopCount F < 10)%Z -> F ^ Z.to_nat (Turnkey.loopCount F) <= 1 / 10).
Proof.
  intros HF. unfold Turnkey.loopCount.
  set (x := ln (1 / 10) / ln F).
  assert (HlF : ln F < 0) by (apply ln_lt_0; exact HF).
  assert (Hle : ln (1 / 10) < 0) by (apply ln_lt_0; lra).
  assert (Hx : 0 < x).
  { unfold x, Rdiv. pose proof (Rinv_lt_0_compat _ HlF). nra. }
  pose proof (Zceil_bound x) as [_ Hub].
  assert (Hpos : (1 <= Zceil x)%Z).
  { apply Z.lt_pred_le. apply lt_IZR. simpl. lra. }
  split; [lia |].
  intros Hcap. replace (Z.min (Zceil x) 10) with (Zceil x) by lia.
  apply pow_le_of_log_ratio; try lra.
  rewrite INR_IZR_INZ, Z2Nat.id by lia. exact Hub.
Qed.

Lemma Turnkey_loopCount_range_witness :
  (1 <= Turnkey.loopCount (1 / 2) <= 10)%Z.
Proof.
  apply (Turnkey_loopCount_range (1 / 2)). lra.
Defined.

Lemma pow_anti (F : R) (m n : nat) :
  0 <= F <= 1 -> (m <= n)%nat -> F ^ n <= F ^ m.
Proof.
  intros HF Hle. replace n with (m + (n - m))%nat by lia. rewrite pow_add.
  assert (H0 : 0 <= F ^ m) by (apply pow_le; lra).
  assert (H1 : 0 <= F ^ (n - m)) by (apply pow_le; lra).
  assert (H2 : F ^ (n - m) <= 1).
  { rewrite <- (pow1 (n - m)). apply pow_incr. lra. }
  nra.
Qed.

Lemma Turnkey_simulateLoop_closed_form (F price : R) (n : nat) :
  0 < price -> F <> 1 ->
  forall st : R * R,
  exists m : nat,
    (m <= n)%nat /\
    Turnkey.simulateLoop n F price st
    = (fst st + snd st / price * SimulationValidation.multiplier F m, snd st * F ^ m) /\
    ((m < n)%nat -> snd st * F ^ m < 1).
Proof.
  intros Hp HF. unfold SimulationValidation.multiplier.
  induction n as [| n IH]; intros [T r].
  - exists 0%nat. split; [lia |]. split; [| lia].
    cbn. f_equal; field; lra.
  - rewrite Turnkey_simulateLoop_S. cbn [fst snd].
    rewrite Turnkey_carry by exact Hp.
    destruct (Rltb (r * F) 1) eqn:Hlt.
    + exists 1%nat. split; [lia |]. split.
      * f_equal; field; lra.
      * intros _. apply Rltb_true_iff in Hlt. cbn. lra.
    + destruct (IH (T + r / price, r * F)) as [m [Hle [Heq Hstop]]].
      exists (S m). split; [lia |]. split.
      * rewrite Heq. cbn [fst snd]. f_equal; cbn [pow]; field; lra.
      * intros Hm. cbn [fst snd] in Hstop. cbn [pow].
        replace (r * (F * F ^ m)) with (r * F * F ^ m) by ring.
        apply Hstop. lia.
Qed.

(** X29. The simulation loop of the turnkey SDK, which is also the loop of
    the validation script, computes the geometric series: after the m passes
    it makes, it holds capital / price * (1 - F^m) / (1 - F) tokens and
    carries capital * F^m; it makes fewer passes than asked only when that
    carry is below 1, so that with 0 < F < 1 and capital * F^loops >= 1 the
    simulated total is exactly the script's expected total. *)
Theorem Turnkey_simulateLoop_geometric (F price capital : R) (loops : nat) :
  0 < price -> 0 < F < 1 -> 0 < capital ->
  (exists m : nat,
     (m <= loops)%nat /\
     Turnkey.simulateLoop loops F price (0, capital)
     = (SimulationValidation.expectedTokens capital price F m, capital * F ^ m) /\
     ((m < loops)%nat -> capital * F ^ m < 1)) /\
  (1 <= capital * F ^ loops ->
   fst (Turnkey.simulateLoop loops F price (0, capital))
   = SimulationValidation.expectedTokens capital price F loops).
Proof.
  intros Hp HF Hc.
  destruct (Turnkey_simulateLoop_closed_form F price loops Hp ltac:(lra) (0, capital))
    as [m [Hle [Heq Hstop]]].
  cbn [fst snd] in Heq, Hstop. rewrite Rplus_0_l in Heq.
  split.
  - exists m. split; [exact Hle |]. split; [exact Heq | exact Hstop].
  - intros Hfull. rewrite Heq. cbn [fst].
    destruct (Nat.eq_dec m loops) as [-> | Hne]; [reflexivity |].
    exfalso. assert (Hm : (m < loops)%nat) by lia. specialize (Hstop Hm).
    pose proof (pow_anti F m loops ltac:(lra) Hle). nra.
Qed.

Lemma Turnkey_simulateLoop_geometric_witness :
  fst (Turnkey.simulateLoop 10 (9 / 10) (4 / 10) (0, 1000))
  = SimulationValidation.expectedTokens 1000 (4 / 10) (9 / 10) 10.
Proof.
  apply (Turnkey_simulateLoop_geometric (9 / 10) (4 / 10) 1000 10); lra.
Defined.

(** X30. The runway of the validation script is the term at which the debt
    per set, F * (1 + R * term / year), is exactly 1. *)
Theorem debt_at_runway_is_one (F rate : R) :
  F <> 0 -> rate <> 0 ->
  SimulationValidation.debtAtRunway F rate = 1.
Proof.
  intros HF Hrate.
  unfold SimulationValidation.debtAtRunway, SimulationValidation.runway, YEAR_SECONDS.
  cbv zeta. field. split; assumption.
Qed.

Lemma debt_at_runway_is_one_witness :
  SimulationValidation.debtAtRunway (9 / 10) (1 / 10) = 1.
Proof.
  apply (debt_at_runway_is_one (9 / 10) (1 / 10)); lra.
Defined.
